(** * SMS-BOT: the inbound-message pipeline of the guesthouse SMS bot

    A shallow embedding of the webhook pipeline of the repository:

    - [server.js], the orchestrator pipeline: one call to the model
      drafts the reply and classifies, inside one database transaction
      (module [ServerJs]);
    - the other server file, the policy pipeline: a classifier, then
      complaint mode, night deferral or a normal reply (module
      [PolicyServer]);
    - [llm_spec.js], the prompts of the orchestrator (module [LlmSpec]).

    What the model answers is kept as a JavaScript value.  The built-ins
    the program calls ([trim], [JSON.parse], ...) are the fields of a
    class.  The PostgreSQL session is a state with the committed tables
    kept aside while a transaction is open, and each statement may be
    rejected.  Exceptions and the mutable world (session, cached
    configuration, SMS log, calls to the model) are threaded by a
    state-and-exception monad.  One request runs at a time. *)

From Stdlib Require Import String Ascii List ZArith Bool Lia PrimFloat.
From Stdlib Require Import Sorted Permutation DecimalString.
Import ListNotations.
Local Open Scope string_scope.
Local Open Scope Z_scope.

(* ===================================================================== *)
(** ** JavaScript values *)
(* ===================================================================== *)

(** The values [JSON.parse] can produce, plus [undefined] for a missing
    property.  An object is the list of its own properties. *)
#[warnings="-register-all"]
Inductive value : Type :=
| VUndefined
| VNull
| VBool (b : bool)
| VNum (n : float)
| VStr (s : string)
| VArr (items : list value)
| VObj (props : list (string * value)).

(** ToBoolean. *)
Definition truthy (v : value) : bool :=
  match v with
  | VUndefined | VNull => false
  | VBool b => b
  | VNum n => negb (PrimFloat.eqb n 0%float) && negb (PrimFloat.is_nan n)
  | VStr s => negb (String.eqb s "")
  | VArr _ | VObj _ => true
  end.

(** [a || b]. *)
Definition js_or (a b : value) : value := if truthy a then a else b.

(** [typeof v === "object"]. *)
Definition typeof_object (v : value) : bool :=
  match v with
  | VNull | VArr _ | VObj _ => true
  | _ => false
  end.

Fixpoint assoc (k : string) (props : list (string * value)) : value :=
  match props with
  | [] => VUndefined
  | (k', v) :: rest => if String.eqb k k' then v else assoc k rest
  end.

(** [o.k] for a value that is neither [null] nor [undefined]; the names
    read by this program are no properties of arrays, strings, numbers
    or booleans. *)
Definition get (o : value) (k : string) : value :=
  match o with
  | VObj props => assoc k props
  | _ => VUndefined
  end.

(** [Object.keys(v).length > 0]. *)
Definition has_keys (v : value) : bool :=
  match v with
  | VObj props => negb (Nat.eqb (length props) 0)
  | VArr items => negb (Nat.eqb (length items) 0)
  | VStr s => negb (String.eqb s "")
  | _ => false
  end.

(** The built-ins of the JavaScript runtime and of the [pg] driver that
    the program calls and does not define. *)
Class Runtime : Type := {
  (** [String.prototype.trim] *)
  trim : string -> string;
  (** [JSON.parse]; [None] is a [SyntaxError] *)
  JSON_parse : string -> option value;
  (** [JSON.stringify] *)
  JSON_stringify : value -> string;
  (** [Number.prototype.toString] *)
  number_toString : float -> string;
  (** the [pg] driver's array literal for an array parameter *)
  pg_arrayString : list value -> string;
  (** [new Date(s)] for a string; [None] is an Invalid Date *)
  Date_parse : string -> option Z;
  (** ToString of an array or an object; [None] is a [TypeError] *)
  object_ToString : value -> option string;
  (** [d.toLocaleString("en-US", { timeZone: "Asia/Seoul" })] for the
      [Date] of a time value *)
  Date_toLocaleString_Seoul : Z -> string;
  (** [d.getHours()] for the [Date] of a time value: the hour in the
      zone of the server *)
  Date_getHours : Z -> Z;
}.

(* ===================================================================== *)
(** ** Dates and the night window *)
(* ===================================================================== *)

(** A [Date]: milliseconds since the epoch, or an Invalid Date. *)
Inductive date : Type :=
| InvalidDate
| Epoch (ms : Z).

(** [new Date(text)]. *)
Definition new_Date {RT : Runtime} (text : string) : date :=
  match Date_parse text with
  | Some ms => Epoch ms
  | None => InvalidDate
  end.

(** [date.toLocaleString("en-US", { timeZone: "Asia/Seoul" })]; the
    text of an Invalid Date is [Invalid Date]. *)
Definition toLocaleString_Seoul {RT : Runtime} (d : date) : string :=
  match d with
  | InvalidDate => "Invalid Date"
  | Epoch ms => Date_toLocaleString_Seoul ms
  end.

(** [date.getHours()]; [None] is [NaN], the hour of an Invalid Date. *)
Definition getHours {RT : Runtime} (d : date) : option Z :=
  match d with
  | InvalidDate => None
  | Epoch ms => Some (Date_getHours ms)
  end.

(** [isNightTime(date)]: the date is rendered in [Asia/Seoul], the text
    is read back by [new Date], which takes it for a time of the
    server's zone, and the hour of the date read is tested; both
    comparisons are false on [NaN]. *)
Definition isNightTime {RT : Runtime} (d : date) : bool :=
  let kst := new_Date (toLocaleString_Seoul d) in
  match getHours kst with
  | Some hour => (3 <=? hour) && (hour <? 10)
  | None => false
  end.

(* ===================================================================== *)
(** ** The relational store and the [pg] session *)
(* ===================================================================== *)

(** A row of [messages]; a column the statement does not set is [None]
    (SQL [NULL] or the column's default). *)
Record message : Type := {
  m_id : Z;
  m_direction : string;
  m_phone_number : string;
  m_text : option string;
  m_created_at : option date;
  m_intent : option string;
  m_confidence : option float;
  m_guest_state : option string;
  m_handled_by : option string;
  m_need_followup : option bool;
  m_resolved : option bool;
  m_reply_to_id : option Z;
  m_slots : option string;
  m_flow_type : option string;
}.

(** A row of [followup_queue], with the columns the pipeline writes. *)
Record followup : Type := {
  f_message_id : Z;
  f_status : string;
  f_reason : option string;
}.

Record intent_row : Type := {
  i_name : string;
  i_description : string;
  i_is_action : bool;
  i_is_complaint_like : bool;
}.

Record setting_row : Type := {
  s_key : string;
  s_value : option string;
}.

Record template_row : Type := {
  t_intent_name : string;
  t_sub_intent : option string;
  t_display_label : option string;
  t_message : option string;
  t_is_active : bool;
}.

Record knowledge_row : Type := {
  k_category : string;
  k_title : string;
  k_content : string;
}.

(** The tables.  [intents] is listed by [id], [intent_templates] by
    [(intent_name, sort_order, id)] and [knowledge_base] by [updated_at],
    most recent first: the orders the program's queries ask for.
    [messages] is in no particular order. *)
Record store : Type := {
  messages : list message;
  followup_queue : list followup;
  intents : list intent_row;
  bot_settings : list setting_row;
  intent_templates : list template_row;
  knowledge_base : list knowledge_row;
}.

(** A client session: the tables as this session sees them, the
    committed tables saved by [BEGIN] while a transaction is open, and
    the sequence behind [messages.id], which no rollback rewinds. *)
Record session : Type := {
  visible : store;
  snapshot : option store;
  messages_id_seq : Z;
}.

(** What other sessions see, and what survives the session. *)
Definition committed (s : session) : store :=
  match snapshot s with
  | Some c => c
  | None => visible s
  end.

(** The operations on the pool and the statements the program sends. *)
Inductive op : Type :=
| POOL_CONNECT
| BEGIN | COMMIT | ROLLBACK
| INSERT_IN | SELECT_HISTORY | SELECT_KNOWLEDGE_RAG | SELECT_KNOWLEDGE
| INSERT_OUT | INSERT_FOLLOWUP | UPDATE_IN
| SELECT_INTENTS | SELECT_SETTINGS | SELECT_TEMPLATES.

Inductive error : Type :=
| DbError (o : op)
| ApiError
| SyntaxError
| TypeError (msg : string)
| ReferenceError (msg : string).

(** The answer of [openai.chat.completions.create]: a failure of the call
    (or of reading the answer's shape), or the content of the first
    choice, [None] when it is missing or [null]. *)
Inductive completion : Type :=
| ApiFailure
| Content (c : option string).

(** What the outside does during one run: which operations the database
    rejects, what the model answers to a system and a user prompt, and
    what [new Date()] returns. *)
Record env : Type := {
  fails : op -> bool;
  chat : string -> string -> completion;
  now : date;
}.

(** An SMS handed to [sendSms]. *)
Record sms : Type := {
  sms_to : string;
  sms_text : option string;
}.

(** A call of the model: the system and the user prompt. *)
Record prompt : Type := {
  system_prompt : string;
  user_prompt : string;
}.

(** The mutable world of the process: the session, the global
    [cachedConfig], what [sendSms] has logged and the calls made to the
    model, latest first. *)
Record world (C : Type) : Type := {
  pg : session;
  cachedConfig : C;
  outbox : list sms;
  asked : list prompt;
}.
Arguments pg {C} _.
Arguments cachedConfig {C} _.
Arguments outbox {C} _.
Arguments asked {C} _.

(* ===================================================================== *)
(** ** Exceptions and state *)
(* ===================================================================== *)

Inductive outcome (A : Type) : Type :=
| Ok (a : A)
| Throw (e : error).
Arguments Ok {A} a.
Arguments Throw {A} e.

(** A computation over the world [W] that returns or throws; what it did
    before throwing stays done. *)
Definition M (W A : Type) : Type := W -> outcome A * W.

Definition ret {W A} (a : A) : M W A := fun w => (Ok a, w).

Definition throw {W A} (e : error) : M W A := fun w => (Throw e, w).

Definition bind {W A B} (m : M W A) (k : A -> M W B) : M W B :=
  fun w =>
    match m w with
    | (Ok a, w') => k a w'
    | (Throw e, w') => (Throw e, w')
    end.

(** [try { m } catch (e) { h e }]. *)
Definition try_catch {W A} (m : M W A) (h : error -> M W A) : M W A :=
  fun w =>
    match m w with
    | (Ok a, w') => (Ok a, w')
    | (Throw e, w') => h e w'
    end.

(** [try { m } finally { f }]. *)
Definition finally {W A} (m : M W A) (f : M W unit) : M W A :=
  fun w =>
    match m w with
    | (r, w') =>
        match f w' with
        | (Ok _, w'') => (r, w'')
        | (Throw e, w'') => (Throw e, w'')
        end
    end.

Declare Scope js_scope.
Delimit Scope js_scope with js.
Notation "x <- m ;; k" := (bind m (fun x => k))
  (at level 61, m at next level, right associativity) : js_scope.
Notation "m ;; k" := (bind m (fun _ => k))
  (at level 61, right associativity) : js_scope.

Definition gets {W A} (f : W -> A) : M W A := fun w => (Ok (f w), w).

(** A step that returns or throws and leaves the world alone. *)
Definition lift {W A} (r : outcome A) : M W A := fun w => (r, w).

Definition modify {W} (f : W -> W) : M W unit := fun w => (Ok tt, f w).

(** The truthiness of a text that may be [undefined]. *)
Definition nonempty (s : option string) : bool :=
  match s with
  | Some x => negb (String.eqb x "")
  | None => false
  end.

(** [a || b] on such texts. *)
Definition str_or (a b : option string) : option string :=
  if nonempty a then a else b.

Definition FALLBACK_TEXT : string :=
  "문의 감사합니다! 현재 자동응답 시스템 세팅 중이라, 조금 뒤에 다시 안내드리겠습니다 :)".

Definition dq : string := String (Ascii.ascii_of_nat 34) EmptyString.

(** A row with every optional column unset. *)
Definition new_message (id : Z) (dir phone : string) (txt : option string)
    (created : option date) : message :=
  {| m_id := id; m_direction := dir; m_phone_number := phone; m_text := txt;
     m_created_at := created; m_intent := None; m_confidence := None;
     m_guest_state := None; m_handled_by := None; m_need_followup := None;
     m_resolved := None; m_reply_to_id := None; m_slots := None;
     m_flow_type := None |}.

Definition with_messages (f : list message -> list message) (st : store) : store :=
  {| messages := f (messages st);
     followup_queue := followup_queue st;
     intents := intents st;
     bot_settings := bot_settings st;
     intent_templates := intent_templates st;
     knowledge_base := knowledge_base st |}.

Definition with_followups (f : list followup -> list followup) (st : store) : store :=
  {| messages := messages st;
     followup_queue := f (followup_queue st);
     intents := intents st;
     bot_settings := bot_settings st;
     intent_templates := intent_templates st;
     knowledge_base := knowledge_base st |}.

Definition on_visible (f : store -> store) (s : session) : session :=
  {| visible := f (visible s);
     snapshot := snapshot s;
     messages_id_seq := messages_id_seq s |}.

(** [BEGIN]: the committed tables are kept aside; inside a transaction it
    only warns, and they stay the ones kept before. *)
Definition sql_begin (s : session) : unit * session :=
  (tt, {| visible := visible s;
          snapshot := Some (committed s);
          messages_id_seq := messages_id_seq s |}).

(** [COMMIT]: what the session sees becomes the committed tables. *)
Definition sql_commit (s : session) : unit * session :=
  (tt, {| visible := visible s;
          snapshot := None;
          messages_id_seq := messages_id_seq s |}).

(** [ROLLBACK]: back to the committed tables; outside a transaction it
    only warns. *)
Definition sql_rollback (s : session) : unit * session :=
  (tt, {| visible := committed s;
          snapshot := None;
          messages_id_seq := messages_id_seq s |}).

(** [INSERT INTO messages ... RETURNING id]: the sequence gives the id. *)
Definition sql_insert_message (row : Z -> message) (s : session) : Z * session :=
  let id := messages_id_seq s in
  (id, {| visible := with_messages (cons (row id)) (visible s);
          snapshot := snapshot s;
          messages_id_seq := id + 1 |}).

Definition sql_insert_followup (row : followup) (s : session) : unit * session :=
  (tt, on_visible (with_followups (cons row)) s).

(** The rows after [SET ... WHERE id = $n]. *)
Definition mark (id : Z) (set : message -> message) (rows : list message)
    : list message :=
  map (fun m => if m_id m =? id then set m else m) rows.

(** [UPDATE messages SET ... WHERE id = $n]. *)
Definition sql_update_message (id : Z) (set : message -> message) (s : session)
    : unit * session :=
  (tt, on_visible (with_messages (mark id set)) s).

(** [ORDER BY id DESC]. *)
Fixpoint insert_desc (m : message) (l : list message) : list message :=
  match l with
  | [] => [m]
  | x :: rest => if m_id x <=? m_id m then m :: l else x :: insert_desc m rest
  end.

Definition order_by_id_desc (l : list message) : list message :=
  fold_right insert_desc [] l.

(** [SELECT direction, text FROM messages WHERE phone_number = $1
     ORDER BY id DESC LIMIT 10]. *)
Definition sql_select_history (phone : string) (s : session)
    : list message * session :=
  (firstn 10
     (order_by_id_desc
        (filter (fun m => String.eqb (m_phone_number m) phone)
                (messages (visible s)))),
   s).

(** Every row has an id the sequence has already given out. *)
Definition fresh (s : session) : Prop :=
  forall m, In m (messages (visible s)) -> m_id m < messages_id_seq s.

Definition sql_read {A} (f : store -> A) (s : session) : A * session :=
  (f (visible s), s).

Section Client.
Context {C : Type} (E : env).

Definition set_pg (s : session) (w : world C) : world C :=
  {| pg := s; cachedConfig := cachedConfig w; outbox := outbox w;
     asked := asked w |}.

Definition set_config (c : C) (w : world C) : world C :=
  {| pg := pg w; cachedConfig := c; outbox := outbox w; asked := asked w |}.

Definition log_sms (m : sms) (w : world C) : world C :=
  {| pg := pg w; cachedConfig := cachedConfig w; outbox := m :: outbox w;
     asked := asked w |}.

Definition log_prompt (p : prompt) (w : world C) : world C :=
  {| pg := pg w; cachedConfig := cachedConfig w; outbox := outbox w;
     asked := p :: asked w |}.

(** [pool.connect()]. *)
Definition connect : M (world C) unit :=
  fun w => if fails E POOL_CONNECT
           then (Throw (DbError POOL_CONNECT), w)
           else (Ok tt, w).

(** [client.release()]. *)
Definition release : M (world C) unit := ret tt.

(** [client.query(...)]: a rejected statement throws and changes
    nothing; an accepted one runs on the session. *)
Definition query {A} (o : op) (run : session -> A * session) : M (world C) A :=
  fun w =>
    if fails E o then (Throw (DbError o), w)
    else let (a, s') := run (pg w) in (Ok a, set_pg s' w).

(** [openai.chat.completions.create(...)], then the content of the
    first choice: the call is made, and it answers or fails. *)
Definition chat_content (system user : string) : M (world C) (option string) :=
  fun w =>
    let w' := log_prompt {| system_prompt := system; user_prompt := user |} w in
    match chat E system user with
    | ApiFailure => (Throw ApiError, w')
    | Content c => (Ok c, w')
    end.

(** [sendSms(to, text)]: logs, sends nothing yet. *)
Definition sendSms (to : string) (txt : option string) : M (world C) unit :=
  modify (log_sms {| sms_to := to; sms_text := txt |}).

(** [getGuestState(phoneNumber)]: a stub. *)
Definition getGuestState (phoneNumber : string) : M (world C) string :=
  ret "UNKNOWN".

End Client.

(** The pg driver's text for a query parameter; [None] is [NULL]. *)
Definition prepareValue {RT : Runtime} (v : value) : option string :=
  match v with
  | VUndefined | VNull => None
  | VBool b => Some (if b then "true" else "false")
  | VNum n => Some (number_toString n)
  | VStr s => Some s
  | VArr items => Some (pg_arrayString items)
  | VObj _ => Some (JSON_stringify v)
  end.

(** The request body: the documented fields, each a string when present. *)
Record payload : Type := {
  p_from : option string;
  p_phone : option string;
  p_sender : option string;
  p_text : option string;
  p_message : option string;
  p_receivedAt : option string;
}.

Record parsed_payload : Type := {
  from : option string;
  text : option string;
  receivedAt : date;
}.

(** [parseSmsProviderPayload(body)]; [current] is [new Date()]. *)
Definition parseSmsProviderPayload {RT : Runtime} (current : date) (body : payload)
    : parsed_payload :=
  {| from := str_or (str_or (p_from body) (p_phone body)) (p_sender body);
     text := str_or (str_or (p_text body) (p_message body)) (Some "");
     receivedAt :=
       if nonempty (p_receivedAt body)
       then match p_receivedAt body with
            | Some s => match Date_parse s with
                        | Some ms => Epoch ms
                        | None => InvalidDate
                        end
            | None => current
            end
       else current |}.

(** The request passes [if (!from || !text)]: both are non-empty texts. *)
Definition validated {RT : Runtime} (current : date) (req : payload)
    (sender txt : string) : Prop :=
  from (parseSmsProviderPayload current req) = Some sender
  /\ text (parseSmsProviderPayload current req) = Some txt
  /\ sender <> ""
  /\ txt <> "".

(** The request fails that test. *)
Definition rejected {RT : Runtime} (current : date) (req : payload) : Prop :=
  nonempty (from (parseSmsProviderPayload current req)) = false
  \/ nonempty (text (parseSmsProviderPayload current req)) = false.

(** The response of a handler. *)
Inductive response_body : Type :=
| ErrorBody (msg : string)
| OrchestratorOk (incoming_id : Z) (outgoing_id : option Z)
                 (intent flow_type : value) (end_flow : bool)
| PolicyOk (incoming_id outgoing_id : Z) (intent : value) (guest_state : string)
           (night need_followup : bool).

Record response : Type := {
  status : Z;
  body : response_body;
}.

Definition nl : string := String (Ascii.ascii_of_nat 10) EmptyString.

(** A template literal's text for a column that may be [null]. *)
Definition show_null (o : option string) : string :=
  match o with
  | Some s => s
  | None => "null"
  end.

(* ===================================================================== *)
(** ** llm_spec.js *)
(* ===================================================================== *)

Module LlmSpec.

(** One entry of the conversation history. *)
Record turn : Type := {
  h_direction : string;
  h_text : option string;
}.

Definition ORCHESTRATOR_SYSTEM_PROMPT : string :=
  nl ++ "너는 게스트하우스 SMS 자동응답 시스템의 " ++ dq ++ "대화 오케스트레이터" ++ dq ++ "야.

역할:
- 손님이 보낸 문자를 읽고, 무엇을 원하는지 파악한다.
- 지식 문서(파티 시간, 파티 신청 플로우, 체크인/아웃 규칙, 주차 안내 등)를 참고해서
  손님에게 보낼 답장을 한국어 존댓말로 만들어준다.
- 필요한 경우, 파티 신청 같은 플로우를 진행하면서
  아직 모자란 정보를 자연스럽게 질문한다.
- 모든 출력은 JSON 하나로만 출력한다.

JSON 스키마:
{
  " ++ dq ++ "reply_text" ++ dq ++ ": string,          // 손님에게 보낼 SMS 내용
  " ++ dq ++ "intent" ++ dq ++ ": string,              // 예: " ++ dq ++ "PARTY" ++ dq ++ ", " ++ dq ++ "CHECKIN" ++ dq ++ ", " ++ dq ++ "CHECKOUT" ++ dq ++ ", " ++ dq ++ "GENERIC" ++ dq ++ "
  " ++ dq ++ "flow_type" ++ dq ++ ": string | null,    // 예: " ++ dq ++ "PARTY_RESERVATION" ++ dq ++ " 또는 null
  " ++ dq ++ "slots" ++ dq ++ ": { ... },              // 파티 신청 등에서 파악한 정보 (없으면 {})
  " ++ dq ++ "need_followup" ++ dq ++ ": boolean,      // 사람이 나중에 봐야 할지 여부
  " ++ dq ++ "end_flow" ++ dq ++ ": boolean            // 현재 플로우를 종료해도 되는지 여부
}

슬롯 예시 (파티 신청인 경우):
{
  " ++ dq ++ "date" ++ dq ++ ": " ++ dq ++ "2025-12-24" ++ dq ++ ",    // YYYY-MM-DD
  " ++ dq ++ "male_count" ++ dq ++ ": 1,         // 남자 인원 수
  " ++ dq ++ "female_count" ++ dq ++ ": 2,       // 여자 인원 수
  " ++ dq ++ "only_party" ++ dq ++ ": true,      // true면 파티만, false면 숙박+파티
  " ++ dq ++ "time_slot" ++ dq ++ ": " ++ dq ++ "FIRST" ++ dq ++ "     // FIRST, SECOND, BOTH 등
}

규칙:
- reply_text는 실제 문자로 바로 쓸 수 있을 만큼 자연스럽게 작성한다.
- 플로우가 진행 중일 때는 flow_type을 " ++ dq ++ "PARTY_RESERVATION" ++ dq ++ "처럼 유지하고,
  아직 필요한 정보가 남아 있으면 end_flow를 false로 둔다.
- 파티 신청 관련 질문이 들어오면 knowledge 안의
  " ++ dq ++ "파티 신청 플로우" ++ dq ++ "와 " ++ dq ++ "파티 시간 안내" ++ dq ++ " 같은 문서를 적극적으로 참고한다.
- 안내가 불가능한 내용이면 솔직하게 모른다고 말하고,
  대신 어떤 정보를 다시 물어보면 되는지 함께 안내한다.
".

(** The line of one history entry. *)
Definition history_line (h : turn) : string :=
  "[" ++ h_direction h ++ "] " ++ show_null (h_text h).

Definition knowledge_block (k : knowledge_row) : string :=
  "[#" ++ k_category k ++ "] " ++ k_title k ++ nl ++ k_content k.

(** [a || b] on two texts. *)
Definition or_text (a b : string) : string :=
  if String.eqb a "" then b else a.

Definition buildOrchestratorUserPrompt (text guestState : string)
    (history : list turn) (knowledge : list knowledge_row) : string :=
  let historyText := String.concat nl (map history_line history) in
  let kbText := String.concat (nl ++ nl) (map knowledge_block knowledge) in
  nl ++ "[손님 최신 문자]" ++ nl
     ++ dq ++ text ++ dq ++ nl
     ++ nl
     ++ "[이 번호와의 최근 대화 히스토리]" ++ nl
     ++ or_text historyText "(이전 대화 없음)" ++ nl
     ++ nl
     ++ "[현재 게스트 상태 guestState]" ++ nl
     ++ or_text guestState "UNKNOWN" ++ nl
     ++ nl
     ++ "[관련 지식 문서들]" ++ nl
     ++ or_text kbText "(관련 지식 없음)" ++ nl
     ++ nl
     ++ "위 정보를 바탕으로,
reply_text, intent, flow_type, slots, need_followup, end_flow 를 모두 포함하는
JSON 객체 하나를 출력해.
반드시 유효한 JSON 객체 하나만 출력해야 한다.
".

End LlmSpec.

(** The names every object inherits from [Object.prototype]. *)
Definition object_prototype_names : list string :=
  [ "constructor"; "__defineGetter__"; "__defineSetter__"; "hasOwnProperty";
    "__lookupGetter__"; "__lookupSetter__"; "isPrototypeOf";
    "propertyIsEnumerable"; "toString"; "valueOf"; "__proto__";
    "toLocaleString" ].

Definition inb (x : string) (l : list string) : bool :=
  existsb (String.eqb x) l.

(** [settings[key]] after [settings[row.key] = row.value] for every row:
    the last row of that key decides. *)
Fixpoint setting (key : string) (rows : list setting_row) : option string :=
  match rows with
  | [] => None
  | row :: rest =>
      if inb key (map s_key rest) then setting key rest
      else if String.eqb (s_key row) key then s_value row
      else None
  end.

Local Open Scope js_scope.

(* ===================================================================== *)
(** ** server.js: the orchestrator pipeline *)
(* ===================================================================== *)

Module ServerJs.

Record template : Type := {
  sub_intent : option string;
  label : option string;
  message_text : option string;
}.

Record config : Type := {
  cfg_intents : list intent_row;
  actionIntentNames : list string;
  templates : list (string * list template);
  lastLoadedAt : option date;
}.

(** The [cachedConfig] the module starts with. *)
Definition initialConfig : config :=
  {| cfg_intents := []; actionIntentNames := [];
     templates := []; lastLoadedAt := None |}.

(** The result of the orchestrator. *)
Record orchestration : Type := {
  reply_text : value;
  intent : value;
  flow_type : value;
  slots : value;
  need_followup : bool;
  end_flow : bool;
}.

Definition FALLBACK : orchestration :=
  {| reply_text := VStr FALLBACK_TEXT;
     intent := VStr "GENERIC";
     flow_type := VNull;
     slots := VObj [];
     need_followup := true;
     end_flow := false |}.

(** [templatesByIntent[name].push(t)], the key being created first when
    the object has none of that name; keys are kept in the order they
    were created. *)
Fixpoint push_template (name : string) (t : template)
    (o : list (string * list template)) : list (string * list template) :=
  match o with
  | [] => [(name, [t])]
  | (k, ts) :: rest =>
      if String.eqb k name then (k, (ts ++ [t])%list) :: rest
      else (k, ts) :: push_template name t rest
  end.

Section Run.
Context {RT : Runtime} (E : env).

Abbreviation W := (world config).

(** The loop over the template rows.  A key that is no own property
    is created, unless the object inherits a value under that name:
    that value is truthy and has no [push]. *)
Fixpoint groupTemplates (rows : list template_row)
    (templatesByIntent : list (string * list template))
    : outcome (list (string * list template)) :=
  match rows with
  | [] => Ok templatesByIntent
  | row :: rest =>
      if inb (t_intent_name row) object_prototype_names
      then Throw (TypeError "templatesByIntent[row.intent_name].push is not a function")
      else groupTemplates rest
             (push_template (t_intent_name row)
                {| sub_intent := t_sub_intent row;
                   label := t_display_label row;
                   message_text := t_message row |}
                templatesByIntent)
  end.

(** [loadConfig()]: the settings are read, and used for nothing. *)
Definition loadConfig : M W unit :=
  connect E ;;
  finally
    (intents <- query E SELECT_INTENTS (sql_read intents) ;;
     let actionIntentNames := map i_name (filter i_is_action intents) in
     _settingsRows <- query E SELECT_SETTINGS (sql_read bot_settings) ;;
     tmplRows <- query E SELECT_TEMPLATES
                   (sql_read (fun st => filter t_is_active (intent_templates st))) ;;
     templatesByIntent <- lift (groupTemplates tmplRows []) ;;
     modify (set_config {| cfg_intents := intents;
                           actionIntentNames := actionIntentNames;
                           templates := templatesByIntent;
                           lastLoadedAt := Some (now E) |}))
    release.

(** [retrieveKnowledgeForRAG({ text, client })]. *)
Definition retrieveKnowledgeForRAG (text : string) : M W (list knowledge_row) :=
  query E SELECT_KNOWLEDGE_RAG
    (sql_read (fun st =>
       firstn 20
         (filter (fun k => inb (k_category k)
                             ["PARTY"; "PARTY_RESERVATION_FLOW"; "CHECKIN"; "CHECKOUT"])
                 (knowledge_base st)))).

(** [resp.choices[0]?.message?.content?.trim() || "{}"]. *)
Definition raw_of (content : option string) : string :=
  match content with
  | Some c => LlmSpec.or_text (trim c) "{}"
  | None => "{}"
  end.

(** [try { parsed = JSON.parse(raw) } catch (e) { parsed = null }]. *)
Definition parse_or_null (raw : string) : M W value :=
  try_catch
    (match JSON_parse raw with
     | Some v => ret v
     | None => throw SyntaxError
     end)
    (fun _ => ret VNull).

(** The object returned when [parsed] is an object. *)
Definition normalize (parsed : value) : orchestration :=
  {| reply_text := js_or (get parsed "reply_text") (VStr "");
     intent := js_or (get parsed "intent") (VStr "GENERIC");
     flow_type := js_or (get parsed "flow_type") VNull;
     slots := js_or (get parsed "slots") (VObj []);
     need_followup := truthy (get parsed "need_followup");
     end_flow := truthy (get parsed "end_flow") |}.

Definition runOrchestratorLLM (text guestState : string)
    (history : list LlmSpec.turn) (knowledge : list knowledge_row)
    : M W orchestration :=
  let userPrompt :=
    LlmSpec.buildOrchestratorUserPrompt text guestState history knowledge in
  try_catch
    (content <- chat_content E (trim LlmSpec.ORCHESTRATOR_SYSTEM_PROMPT)
                               (trim userPrompt) ;;
     let raw := raw_of content in
     parsed <- parse_or_null raw ;;
     if negb (truthy parsed) || negb (typeof_object parsed)
     then ret FALLBACK
     else ret (normalize parsed))
    (fun _ => ret FALLBACK).

(** The test [reply_text && reply_text.trim() !== ""]: the text to
    send, if any; a truthy value that is no string has no [trim]. *)
Definition reply_to_send (reply_text : value) : outcome (option string) :=
  if truthy reply_text then
    match reply_text with
    | VStr s => if String.eqb (trim s) "" then Ok None else Ok (Some s)
    | _ => Throw (TypeError "reply_text.trim is not a function")
    end
  else Ok None.

(** [s || null] for a text. *)
Definition or_null (s : string) : option string :=
  if String.eqb s "" then None else Some s.

Definition in_row (from text : string) (receivedAt : date) (id : Z) : message :=
  new_message id "IN" from (Some text) (Some receivedAt).

Definition out_row (from reply : string) (guestState : string)
    (r : orchestration) (incomingId id : Z) : message :=
  {| m_id := id; m_direction := "OUT"; m_phone_number := from;
     m_text := Some reply; m_created_at := None;
     m_intent := prepareValue (js_or (intent r) VNull);
     m_confidence := None;
     m_guest_state := or_null guestState;
     m_handled_by := Some "LLM_ORCHESTRATOR";
     m_need_followup := Some (negb (negb (need_followup r)));
     m_resolved := Some (negb (need_followup r));
     m_reply_to_id := Some incomingId;
     m_slots := if has_keys (js_or (slots r) (VObj []))
                then Some (JSON_stringify (slots r)) else None;
     m_flow_type := prepareValue (js_or (flow_type r) VNull) |}.

(** The [SET] of the final [UPDATE]. *)
Definition classify_in (guestState : string) (r : orchestration)
    (m : message) : message :=
  {| m_id := m_id m; m_direction := m_direction m;
     m_phone_number := m_phone_number m; m_text := m_text m;
     m_created_at := m_created_at m;
     m_intent := prepareValue (js_or (intent r) VNull);
     m_confidence := m_confidence m;
     m_guest_state := or_null guestState;
     m_handled_by := m_handled_by m;
     m_need_followup := Some (negb (negb (need_followup r)));
     m_resolved := Some (negb (need_followup r));
     m_reply_to_id := m_reply_to_id m;
     m_slots := m_slots m;
     m_flow_type := m_flow_type m |}.

Definition to_turn (r : message) : LlmSpec.turn :=
  {| LlmSpec.h_direction := m_direction r; LlmSpec.h_text := m_text r |}.

(** The body of the handler's [try] once the request is validated. *)
Definition handle (from text : string) (receivedAt : date) : M W response :=
  query E BEGIN sql_begin ;;
  incomingId <- query E INSERT_IN
                  (sql_insert_message (in_row from text receivedAt)) ;;
  guestState <- getGuestState from ;;
  historyRows <- query E SELECT_HISTORY (sql_select_history from) ;;
  let history := map to_turn (rev historyRows) in
  knowledge <- retrieveKnowledgeForRAG text ;;
  r <- runOrchestratorLLM text guestState history knowledge ;;
  reply <- lift (reply_to_send (reply_text r)) ;;
  outgoingId <-
    match reply with
    | Some txt =>
        sendSms from (Some txt) ;;
        id <- query E INSERT_OUT
                (sql_insert_message (out_row from txt guestState r incomingId)) ;;
        ret (Some id)
    | None => ret None
    end ;;
  (if need_followup r
   then query E INSERT_FOLLOWUP
          (sql_insert_followup {| f_message_id := incomingId;
                                  f_status := "PENDING";
                                  f_reason := Some "LLM_FLAGGED" |})
   else ret tt) ;;
  query E UPDATE_IN (sql_update_message incomingId (classify_in guestState r)) ;;
  query E COMMIT sql_commit ;;
  ret {| status := 200;
         body := OrchestratorOk incomingId outgoingId
                   (intent r) (flow_type r) (end_flow r) |}.

(** [app.post("/sms/webhook", ...)]: the response sent; a throw is a
    rejection of the handler with no response. *)
Definition webhook (req : payload) : M W response :=
  connect E ;;
  finally
    (try_catch
       (let p := parseSmsProviderPayload (now E) req in
        match from p, text p with
        | Some f, Some t =>
            if negb (nonempty (from p)) || negb (nonempty (text p))
            then ret {| status := 400; body := ErrorBody "from, text is required" |}
            else handle f t (receivedAt p)
        | _, _ => ret {| status := 400; body := ErrorBody "from, text is required" |}
        end)
       (fun _ =>
          query E ROLLBACK sql_rollback ;;
          ret {| status := 500; body := ErrorBody "internal_server_error" |}))
    release.

End Run.

End ServerJs.

(* ===================================================================== *)
(** ** The policy pipeline: complaint, night deferral, normal reply *)
(* ===================================================================== *)

Module PolicyServer.

Record config : Type := {
  cfg_intents : list intent_row;
  actionIntentNames : list string;
  nightDeferReply : option string;
  complaintReply : option string;
  lastLoadedAt : option date;
}.

Definition initialConfig : config :=
  {| cfg_intents := []; actionIntentNames := [];
     nightDeferReply := None; complaintReply := None; lastLoadedAt := None |}.

(** The result of [classifyIntent]. *)
Record classification : Type := {
  intent : value;
  confidence : float;
  is_complaint : bool;
}.

Definition DEFAULT_NIGHT_DEFER_REPLY : string :=
  "지금은 야간 자동응답 시간이라 접수만 가능합니다." ++ nl
    ++ "상세 확인 후 오전 10시 이후에 다시 안내드릴게요 :)".

Definition DEFAULT_COMPLAINT_REPLY : string :=
  "불편을 드려 정말 죄송합니다." ++ nl
    ++ "내용을 담당자에게 바로 전달했고, 가능한 빠르게 직접 연락드리겠습니다.".

(** [settings[key] || fallback]. *)
Definition setting_or (key : string) (rows : list setting_row) (fallback : string)
    : string :=
  match setting key rows with
  | Some v => LlmSpec.or_text v fallback
  | None => fallback
  end.

(** [isComplaint(intentResult)]. *)
Definition isComplaint (intentResult : classification) : bool :=
  Bool.eqb (is_complaint intentResult) true.

(** [actionIntents.includes(intent)]: only a string equals a name. *)
Definition includes (names : list string) (v : value) : bool :=
  match v with
  | VStr s => inb s names
  | _ => false
  end.

Definition intent_line (i : intent_row) : string :=
  "- " ++ i_name i ++ " : " ++ i_description i
       ++ (if i_is_action i then " (야간에는 처리 보류 대상)" else "").

Definition classifySystemPrompt (intentsText : string) : string :=
  nl ++ "너는 게스트하우스 문자 자동응답 시스템의 " ++ dq ++ "인텐트 분류기" ++ dq ++ "야.
아래 규칙을 꼭 지켜.

- 출력 형식은 반드시 JSON으로만 내보내.
- 키는 항상 intent, confidence, is_complaint 3가지.
- intent는 문자열, confidence는 0~1 숫자, is_complaint는 true/false.

intent는 일단 아래 중에서 가장 어울리는 걸 고르고, 딱 맞는게 없으면 " ++ dq ++ "GENERIC" ++ dq ++ "으로 해.

가능한 intent 값 목록:
" ++ LlmSpec.or_text intentsText "- GENERIC : 기타 문의" ++ nl.

Definition classifyUserPrompt (text guestState : string) : string :=
  nl ++ "[문자 내용]" ++ nl
     ++ dq ++ text ++ dq ++ nl
     ++ nl
     ++ "[현재 게스트 상태]" ++ nl
     ++ dq ++ guestState ++ dq ++ nl
     ++ nl
     ++ "위 문자에 대해 intent, confidence(0~1), is_complaint를 JSON 하나로만 반환해." ++ nl
     ++ "예시: {" ++ dq ++ "intent" ++ dq ++ ":" ++ dq ++ "CHECKIN_TIME" ++ dq ++ ","
     ++ dq ++ "confidence" ++ dq ++ ":0.83," ++ dq ++ "is_complaint" ++ dq ++ ":false}" ++ nl.

Definition replyUserPrompt (text guestState : string) (intent : string)
    (kbText : string) : string :=
  nl ++ "[손님 문자 내용]" ++ nl
     ++ text ++ nl
     ++ nl
     ++ "[현재 게스트 상태 guestState (예: NO_RECORD, BOOKED_UNPAID, BOOKED_PAID, STAYING_TODAY 등)]" ++ nl
     ++ guestState ++ nl
     ++ nl
     ++ "[인텐트 intent]" ++ nl
     ++ intent ++ nl
     ++ nl
     ++ "[관련 지식 (knowledge_base에서 온 내용)]" ++ nl
     ++ LlmSpec.or_text kbText "(관련 지식 없음)" ++ nl
     ++ nl
     ++ "위 정보를 참고해서, 손님에게 보낼 답장 한 개를 한국어로 만들어줘." ++ nl
     ++ "앞뒤 따옴표 없이, 실제 문자 그대로 쓸 수 있게 문장만 출력해." ++ nl.

Section Run.
Context {RT : Runtime} (E : env).

Abbreviation W := (world config).

Definition loadConfig : M W unit :=
  connect E ;;
  finally
    (intents <- query E SELECT_INTENTS (sql_read intents) ;;
     let actionIntentNames := map i_name (filter i_is_action intents) in
     settings <- query E SELECT_SETTINGS (sql_read bot_settings) ;;
     modify (set_config
               {| cfg_intents := intents;
                  actionIntentNames := actionIntentNames;
                  nightDeferReply :=
                    Some (setting_or "night_defer_reply" settings
                            DEFAULT_NIGHT_DEFER_REPLY);
                  complaintReply :=
                    Some (setting_or "complaint_reply" settings
                            DEFAULT_COMPLAINT_REPLY);
                  lastLoadedAt := Some (now E) |}))
    release.

(** The object built from the parsed answer; reading a property of
    [null] throws. *)
Definition classification_of (parsed : value) : outcome classification :=
  match parsed with
  | VNull | VUndefined =>
      Throw (TypeError "Cannot read properties of null")
  | _ =>
      Ok {| intent := js_or (get parsed "intent") (VStr "GENERIC");
            confidence := match get parsed "confidence" with
                          | VNum n => n
                          | _ => 0.5%float
                          end;
            is_complaint := truthy (get parsed "is_complaint") |}
  end.

Definition classifyIntent (text guestState : string) : M W classification :=
  cfg0 <- gets cachedConfig ;;
  (match lastLoadedAt cfg0 with
   | None => loadConfig
   | Some _ => ret tt
   end) ;;
  cfg <- gets cachedConfig ;;
  let intentsText := String.concat nl (map intent_line (cfg_intents cfg)) in
  let systemPrompt := classifySystemPrompt intentsText in
  let userPrompt := classifyUserPrompt text guestState in
  try_catch
    (content <- chat_content E (trim systemPrompt) (trim userPrompt) ;;
     let raw := match content with
                | Some c => LlmSpec.or_text (trim c) ""
                | None => ""
                end in
     match JSON_parse raw with
     | None => ret {| intent := VStr "GENERIC";
                      confidence := 0x1.3333333333333p-2%float; (* 0.3 *)
                      is_complaint := false |}
     | Some parsed => lift (classification_of parsed)
     end)
    (fun _ => ret {| intent := VStr "GENERIC";
                     confidence := 0x1.999999999999ap-3%float; (* 0.2 *)
                     is_complaint := false |}).

(** [buildNightDeferReply], [buildComplaintAutoReply]: the later of
    the two declarations of each name, the one that reads the cache. *)
Definition buildNightDeferReply (intentResult : classification)
    (guestState : string) : M W (option string) :=
  gets (fun w => nightDeferReply (cachedConfig w)).

Definition buildComplaintAutoReply : M W (option string) :=
  gets (fun w => complaintReply (cachedConfig w)).

(** [`${v}`]: ToString of a value, which can throw for an object. *)
Definition template_text (v : value) : outcome string :=
  match v with
  | VUndefined => Ok "undefined"
  | VNull => Ok "null"
  | VBool b => Ok (if b then "true" else "false")
  | VNum n => Ok (number_toString n)
  | VStr s => Ok s
  | VArr _ | VObj _ =>
      match object_ToString v with
      | Some s => Ok s
      | None => Throw (TypeError "Cannot convert object to primitive value")
      end
  end.

(** [generateReplyWithLLM]: [systemPrompt] is no name in scope here,
    so reading it throws inside the [try], before the call is made. *)
Definition generateReplyWithLLM (text guestState : string) (intent : value)
    (knowledge : list knowledge_row) : M W string :=
  let kbText :=
    String.concat nl
      (map (fun k => "- " ++ k_title k ++ ": " ++ k_content k) knowledge) in
  intentText <- lift (template_text intent) ;;
  let userPrompt := replyUserPrompt text guestState intentText kbText in
  try_catch
    (systemPrompt <- throw (ReferenceError "systemPrompt is not defined") ;;
     content <- chat_content E (trim systemPrompt) (trim userPrompt) ;;
     ret (match content with
          | Some c => LlmSpec.or_text (trim c)
                        "문의 감사합니다! 현재 자동응답 시스템 세팅 중입니다 :)"
          | None => "문의 감사합니다! 현재 자동응답 시스템 세팅 중입니다 :)"
          end))
    (fun _ => ret FALLBACK_TEXT).

Definition retrieveKnowledge (intentResult : classification)
    : M W (list knowledge_row) :=
  connect E ;;
  finally
    (query E SELECT_KNOWLEDGE
       (sql_read (fun st =>
          firstn 5
            (filter (fun k => match prepareValue (intent intentResult) with
                              | Some c => String.eqb (k_category k) c
                              | None => false
                              end)
                    (knowledge_base st)))))
    release.

(** What step 4 of the handler decides. *)
Record decision : Type := {
  replyText : option string;
  needFollowup : bool;
  followupReason : option string;
}.

(** Step 4: complaint first, then night deferral, then the normal
    reply. *)
Definition decide (text guestState : string) (intentResult : classification)
    (shouldDefer : bool) : M W decision :=
  if isComplaint intentResult then
    reply <- buildComplaintAutoReply ;;
    ret {| replyText := reply; needFollowup := true;
           followupReason := Some "COMPLAINT" |}
  else if shouldDefer then
    reply <- buildNightDeferReply intentResult guestState ;;
    ret {| replyText := reply; needFollowup := true;
           followupReason := Some "NIGHT_ACTION" |}
  else
    knowledgeSnippets <- retrieveKnowledge intentResult ;;
    reply <- generateReplyWithLLM text guestState (intent intentResult)
               knowledgeSnippets ;;
    ret {| replyText := Some reply; needFollowup := false;
           followupReason := None |}.

Definition in_row (from text : string) (receivedAt : date) (id : Z) : message :=
  new_message id "IN" from (Some text) (Some receivedAt).

Definition out_row (from : string) (d : decision) (guestState : string)
    (intentResult : classification) (incomingId id : Z) : message :=
  {| m_id := id; m_direction := "OUT"; m_phone_number := from;
     m_text := replyText d; m_created_at := None;
     m_intent := prepareValue (intent intentResult);
     m_confidence := Some (confidence intentResult);
     m_guest_state := Some guestState;
     m_handled_by := Some (if needFollowup d then "AUTO_PENDING" else "AUTO");
     m_need_followup := Some (needFollowup d);
     m_resolved := Some (negb (needFollowup d));
     m_reply_to_id := Some incomingId;
     m_slots := None;
     m_flow_type := None |}.

(** The [SET] of the final [UPDATE]. *)
Definition classify_in (d : decision) (guestState : string)
    (intentResult : classification) (m : message) : message :=
  {| m_id := m_id m; m_direction := m_direction m;
     m_phone_number := m_phone_number m; m_text := m_text m;
     m_created_at := m_created_at m;
     m_intent := prepareValue (intent intentResult);
     m_confidence := Some (confidence intentResult);
     m_guest_state := Some guestState;
     m_handled_by := m_handled_by m;
     m_need_followup := Some (needFollowup d);
     m_resolved := Some (negb (needFollowup d));
     m_reply_to_id := m_reply_to_id m;
     m_slots := m_slots m;
     m_flow_type := m_flow_type m |}.

(** The body of the handler's [try] once the request is validated.
    No statement opens or closes a transaction: each one commits on
    its own. *)
Definition handle (from text : string) (receivedAt : date) : M W response :=
  incomingId <- query E INSERT_IN
                  (sql_insert_message (in_row from text receivedAt)) ;;
  guestState <- getGuestState from ;;
  intentResult <- classifyIntent text guestState ;;
  let night := isNightTime receivedAt in
  actionIntents <- gets (fun w => actionIntentNames (cachedConfig w)) ;;
  let shouldDefer := night && includes actionIntents (intent intentResult) in
  d <- decide text guestState intentResult shouldDefer ;;
  sendSms from (replyText d) ;;
  outgoingId <- query E INSERT_OUT
                  (sql_insert_message
                     (out_row from d guestState intentResult incomingId)) ;;
  (if needFollowup d
   then query E INSERT_FOLLOWUP
          (sql_insert_followup {| f_message_id := incomingId;
                                  f_status := "PENDING";
                                  f_reason := followupReason d |})
   else ret tt) ;;
  query E UPDATE_IN
    (sql_update_message incomingId (classify_in d guestState intentResult)) ;;
  ret {| status := 200;
         body := PolicyOk incomingId outgoingId (intent intentResult)
                   guestState night (needFollowup d) |}.

Definition webhook (req : payload) : M W response :=
  connect E ;;
  finally
    (try_catch
       (let p := parseSmsProviderPayload (now E) req in
        match from p, text p with
        | Some f, Some t =>
            if negb (nonempty (from p)) || negb (nonempty (text p))
            then ret {| status := 400; body := ErrorBody "from, text is required" |}
            else handle f t (receivedAt p)
        | _, _ => ret {| status := 400; body := ErrorBody "from, text is required" |}
        end)
       (fun _ =>
          ret {| status := 500; body := ErrorBody "internal_server_error" |}))
    release.

End Run.

End PolicyServer.

(* ===================================================================== *)
(** ** A small runtime and sample data for the examples *)
(* ===================================================================== *)

Module Sample.

(** The ASCII white space. *)
Definition is_space (a : ascii) : bool :=
  existsb (Nat.eqb (nat_of_ascii a)) [9; 10; 11; 12; 13; 32]%nat.

Fixpoint trimStart (s : string) : string :=
  match s with
  | EmptyString => EmptyString
  | String a rest => if is_space a then trimStart rest else s
  end.

Definition reverse (s : string) : string :=
  string_of_list_ascii (rev (list_ascii_of_string s)).

(** [trim] on texts whose white space is ASCII. *)
Definition trim_ascii (s : string) : string :=
  reverse (trimStart (reverse (trimStart s))).

(** [{"reply_text":5,"flow_type":7}] *)
Definition raw_numbers : string :=
  "{" ++ dq ++ "reply_text" ++ dq ++ ":5," ++ dq ++ "flow_type" ++ dq ++ ":7}".

(** [{"reply_text":"ok","need_followup":true}] *)
Definition raw_followup : string :=
  "{" ++ dq ++ "reply_text" ++ dq ++ ":" ++ dq ++ "ok" ++ dq ++ ","
      ++ dq ++ "need_followup" ++ dq ++ ":true}".

(** [{"intent":"CHECKIN","is_complaint":true}] *)
Definition raw_complaint : string :=
  "{" ++ dq ++ "intent" ++ dq ++ ":" ++ dq ++ "CHECKIN" ++ dq ++ ","
      ++ dq ++ "is_complaint" ++ dq ++ ":true}".

(** [{"intent":"CHECKIN"}] *)
Definition raw_checkin : string :=
  "{" ++ dq ++ "intent" ++ dq ++ ":" ++ dq ++ "CHECKIN" ++ dq ++ "}".

(** What [JSON.parse] gives on the texts above; any other text is
    taken as malformed. *)
Definition parse (raw : string) : option value :=
  if String.eqb raw "{}" then Some (VObj [])
  else if String.eqb raw "[]" then Some (VArr [])
  else if String.eqb raw raw_numbers
  then Some (VObj [("reply_text", VNum 5); ("flow_type", VNum 7)])
  else if String.eqb raw raw_followup
  then Some (VObj [("reply_text", VStr "ok"); ("need_followup", VBool true)])
  else if String.eqb raw raw_complaint
  then Some (VObj [("intent", VStr "CHECKIN"); ("is_complaint", VBool true)])
  else if String.eqb raw raw_checkin
  then Some (VObj [("intent", VStr "CHECKIN")])
  else None.

(** 04:00 and 14:00 in Seoul on the first day of the epoch. *)
Definition four_at_night : Z := 19 * 3600000.
Definition two_in_the_afternoon : Z := 5 * 3600000.

(** 2024-03-09T17:30:00Z, which is 02:30 in Seoul on 10 March 2024. *)
Definition half_past_two : Z := 1710005400000.

(** What [toLocaleString("en-US", { timeZone: "Asia/Seoul" })] gives
    for the four instants of the examples; no other instant is
    rendered. *)
Definition seoul_text (ms : Z) : string :=
  if ms =? 0 then "1/1/1970, 9:00:00 AM"
  else if ms =? four_at_night then "1/2/1970, 4:00:00 AM"
  else if ms =? two_in_the_afternoon then "1/1/1970, 2:00:00 PM"
  else if ms =? half_past_two then "3/10/2024, 2:30:00 AM"
  else "Invalid Date".

(** What [new Date] reads in those texts on a server whose zone is UTC:
    the instant that has this wall-clock time in UTC; any other text is
    taken as no date. *)
Definition read_in_utc (text : string) : option Z :=
  if String.eqb text "1/1/1970, 9:00:00 AM" then Some 32400000
  else if String.eqb text "1/2/1970, 4:00:00 AM" then Some 100800000
  else if String.eqb text "1/1/1970, 2:00:00 PM" then Some 50400000
  else if String.eqb text "3/10/2024, 2:30:00 AM" then Some 1710037800000
  else None.

(** The runtime of a server whose zone is UTC. *)
#[export] Instance runtime : Runtime :=
  {| trim := trim_ascii;
     JSON_parse := parse;
     JSON_stringify := fun _ => "{}";
     number_toString := fun _ => "0";
     pg_arrayString := fun _ => "{}";
     Date_parse := read_in_utc;
     object_ToString := fun _ => Some "[object Object]";
     Date_toLocaleString_Seoul := seoul_text;
     Date_getHours := fun ms => (ms / 3600000) mod 24 |}.

(** What [new Date] reads on a server whose zone is America/New_York.
    There the clocks went from 02:00 to 03:00 on 10 March 2024, and a
    wall-clock time in the hour skipped is read with the offset in
    force before the change: 02:30 is 2024-03-10T07:30:00Z, which that
    zone shows as 03:30. *)
Definition read_in_new_york (text : string) : option Z :=
  if String.eqb text "3/10/2024, 2:30:00 AM" then Some 1710055800000
  else None.

(** The hour in America/New_York by the rule of 2024: daylight time,
    four hours behind UTC, from 2024-03-10T07:00:00Z to
    2024-11-03T06:00:00Z, and five hours behind UTC in the winters on
    both sides. *)
Definition hour_in_new_york (ms : Z) : Z :=
  if (1710054000000 <=? ms) && (ms <? 1730613600000)
  then (ms / 3600000 - 4) mod 24
  else (ms / 3600000 - 5) mod 24.

(** The runtime of that server. *)
Definition new_york : Runtime :=
  {| trim := trim_ascii;
     JSON_parse := parse;
     JSON_stringify := fun _ => "{}";
     number_toString := fun _ => "0";
     pg_arrayString := fun _ => "{}";
     Date_parse := read_in_new_york;
     object_ToString := fun _ => Some "[object Object]";
     Date_toLocaleString_Seoul := seoul_text;
     Date_getHours := hour_in_new_york |}.

(** An outside where the database accepts everything and the model
    always answers [answer]. *)
Definition calm (answer : completion) (current : Z) : env :=
  {| fails := fun _ => false;
     chat := fun _ _ => answer;
     now := Epoch current |}.

(** The same outside, where the database rejects the operations [bad]. *)
Definition failing (bad : op -> bool) (answer : completion) (current : Z) : env :=
  {| fails := bad;
     chat := fun _ _ => answer;
     now := Epoch current |}.

Definition empty_store : store :=
  {| messages := []; followup_queue := []; intents := [];
     bot_settings := []; intent_templates := []; knowledge_base := [] |}.

Definition fresh_session (st : store) : session :=
  {| visible := st; snapshot := None; messages_id_seq := 1 |}.

Definition start {C : Type} (cfg : C) (st : store) : world C :=
  {| pg := fresh_session st; cachedConfig := cfg; outbox := []; asked := [] |}.

Definition request (sender txt : string) : payload :=
  {| p_from := Some sender; p_phone := None; p_sender := None;
     p_text := Some txt; p_message := None; p_receivedAt := None |}.

Definition guest : string := "01011112222".

(** The pool hands out no client. *)
Definition pool_rejected (o : op) : bool :=
  match o with
  | POOL_CONNECT => true
  | _ => false
  end.

(** A payload with a text and no sender. *)
Definition no_sender : payload :=
  {| p_from := None; p_phone := None; p_sender := None;
     p_text := Some "hi"; p_message := None; p_receivedAt := None |}.

(** Only the insert of the [OUT] row is rejected. *)
Definition out_rejected (o : op) : bool :=
  match o with
  | INSERT_OUT => true
  | _ => false
  end.

(** Only the insert of the [IN] row is rejected. *)
Definition in_rejected (o : op) : bool :=
  match o with
  | INSERT_IN => true
  | _ => false
  end.

(** Only the final update of the [IN] row is rejected. *)
Definition update_rejected (o : op) : bool :=
  match o with
  | UPDATE_IN => true
  | _ => false
  end.

(** A store where CHECKIN is an action intent. *)
Definition checkin_store : store :=
  {| messages := []; followup_queue := [];
     intents := [{| i_name := "CHECKIN"; i_description := "check-in";
                    i_is_action := true; i_is_complaint_like := false |}];
     bot_settings := []; intent_templates := []; knowledge_base := [] |}.

(** A store whose complaint template is one blank. *)
Definition blank_template_store : store :=
  {| messages := []; followup_queue := []; intents := [];
     bot_settings := [{| s_key := "complaint_reply"; s_value := Some " " |}];
     intent_templates := []; knowledge_base := [] |}.






End Sample.

(* ===================================================================== *)
(** ** The result of the orchestrator as a function of the answer *)
(* ===================================================================== *)

(** What [runOrchestratorLLM] returns for an answer of the model. *)
Definition orchestrated {RT : Runtime} (answer : completion) : ServerJs.orchestration :=
  match answer with
  | ApiFailure => ServerJs.FALLBACK
  | Content c =>
      match JSON_parse (ServerJs.raw_of c) with
      | None => ServerJs.FALLBACK
      | Some parsed =>
          if negb (truthy parsed) || negb (typeof_object parsed)
          then ServerJs.FALLBACK
          else ServerJs.normalize parsed
      end
  end.

(** The call [runOrchestratorLLM] makes to the model. *)
Definition orchestrator_call {RT : Runtime} (text guestState : string)
    (history : list LlmSpec.turn) (knowledge : list knowledge_row) : prompt :=
  {| system_prompt := trim LlmSpec.ORCHESTRATOR_SYSTEM_PROMPT;
     user_prompt :=
       trim (LlmSpec.buildOrchestratorUserPrompt text guestState history knowledge) |}.

(** The answer of the model to that call. *)
Definition orchestrator_answer {RT : Runtime} (E : env) (text guestState : string)
    (history : list LlmSpec.turn) (knowledge : list knowledge_row) : completion :=
  chat E (system_prompt (orchestrator_call text guestState history knowledge))
         (user_prompt (orchestrator_call text guestState history knowledge)).

(** A parsed value the normalisation reads fields from: truthy and of
    type ["object"], that is an object or an array. *)
Definition is_object (v : value) : bool :=
  match v with
  | VObj _ | VArr _ => true
  | _ => false
  end.

(* ===================================================================== *)
(** ** What a run computes when the database accepts every statement *)
(* ===================================================================== *)

Module OrchestratorRun.
Import ServerJs.

Section Run.
Context {RT : Runtime} (E : env).
Variables (sender txt : string) (received : date).

(** The session once [BEGIN] and the insert of the [IN] row ran. *)
Definition s_in (s : session) : session :=
  snd (sql_insert_message (in_row sender txt received) (snd (sql_begin s))).

(** The value of [history] in the handler. *)
Definition history_read (s : session) : list LlmSpec.turn :=
  map to_turn (rev (fst (sql_select_history sender (s_in s)))).

(** The value of [knowledge] in the handler. *)
Definition knowledge_read (s : session) : list knowledge_row :=
  firstn 20
    (filter (fun k => inb (k_category k)
                        ["PARTY"; "PARTY_RESERVATION_FLOW"; "CHECKIN"; "CHECKOUT"])
            (knowledge_base (visible (s_in s)))).

(** The call the handler makes to the model. *)
Definition call (s : session) : prompt :=
  orchestrator_call txt "UNKNOWN" (history_read s) (knowledge_read s).

(** The orchestrator's result in the handler. *)
Definition result (s : session) : orchestration :=
  orchestrated
    (orchestrator_answer E txt "UNKNOWN" (history_read s) (knowledge_read s)).

(** The session after the [OUT] row, if a reply is sent. *)
Definition s_out (s : session) (reply : option string) : session :=
  match reply with
  | Some t =>
      snd (sql_insert_message
             (out_row sender t "UNKNOWN" (result s) (messages_id_seq s))
             (s_in s))
  | None => s_in s
  end.

(** The session after the follow-up entry, if one is needed. *)
Definition s_followup (s : session) (reply : option string) : session :=
  if need_followup (result s)
  then snd (sql_insert_followup
              {| f_message_id := messages_id_seq s;
                 f_status := "PENDING";
                 f_reason := Some "LLM_FLAGGED" |}
              (s_out s reply))
  else s_out s reply.

(** The session when the handler has committed. *)
Definition s_done (s : session) (reply : option string) : session :=
  snd (sql_commit
         (snd (sql_update_message (messages_id_seq s)
                 (classify_in "UNKNOWN" (result s))
                 (s_followup s reply)))).

(** The [OUT] row of the exchange, if a reply is sent. *)
Definition out_rows (s : session) (reply : option string) : list message :=
  match reply with
  | Some t => [out_row sender t "UNKNOWN" (result s) (messages_id_seq s)
                 (messages_id_seq s + 1)]
  | None => []
  end.

(** The [IN] row of the exchange once it is classified. *)
Definition in_done (s : session) : message :=
  classify_in "UNKNOWN" (result s)
    (in_row sender txt received (messages_id_seq s)).

(** The follow-up entry of the exchange, if one is needed. *)
Definition followups (s : session) : list followup :=
  if need_followup (result s)
  then [{| f_message_id := messages_id_seq s;
           f_status := "PENDING";
           f_reason := Some "LLM_FLAGGED" |}]
  else [].

(** The sender's earlier rows that enter the history, oldest first. *)
Definition earlier (s : session) : list LlmSpec.turn :=
  map to_turn
    (rev (firstn 9
            (order_by_id_desc
               (filter (fun m => String.eqb (m_phone_number m) sender)
                       (messages (visible s)))))).

(** Whether the handler gets as far as calling the model. *)
Definition reaches_model : bool :=
  negb (fails E POOL_CONNECT || fails E BEGIN || fails E INSERT_IN
        || fails E SELECT_HISTORY || fails E SELECT_KNOWLEDGE_RAG).

Definition outgoing_id (s : session) (reply : option string) : option Z :=
  match reply with
  | Some _ => Some (messages_id_seq (s_in s))
  | None => None
  end.

Definition sent (reply : option string) : list sms :=
  match reply with
  | Some t => [{| sms_to := sender; sms_text := Some t |}]
  | None => []
  end.

End Run.
End OrchestratorRun.

Module PolicyRun.
Import PolicyServer.

Section Run.
Context {RT : Runtime} (E : env).
Variables (sender txt : string) (received : date).

(** The configuration [loadConfig] builds from the tables. *)
Definition loaded (st : store) : config :=
  {| cfg_intents := intents st;
     actionIntentNames := map i_name (filter i_is_action (intents st));
     nightDeferReply :=
       Some (setting_or "night_defer_reply" (bot_settings st)
               DEFAULT_NIGHT_DEFER_REPLY);
     complaintReply :=
       Some (setting_or "complaint_reply" (bot_settings st)
               DEFAULT_COMPLAINT_REPLY);
     lastLoadedAt := Some (now E) |}.

(** The configuration in force once [classifyIntent] has checked
    that one is loaded. *)
Definition config_used (w : world config) : config :=
  match lastLoadedAt (cachedConfig w) with
  | Some _ => cachedConfig w
  | None => loaded (visible (pg w))
  end.

(** The call [classifyIntent] makes to the model. *)
Definition call (cfg : config) : prompt :=
  {| system_prompt :=
       trim (classifySystemPrompt
               (String.concat nl (map intent_line (cfg_intents cfg))));
     user_prompt := trim (classifyUserPrompt txt "UNKNOWN") |}.

(** The result of [classifyIntent]. *)
Definition classified (cfg : config) : classification :=
  match chat E (system_prompt (call cfg)) (user_prompt (call cfg)) with
  | ApiFailure =>
      {| intent := VStr "GENERIC"; confidence := 0x1.999999999999ap-3%float;
         is_complaint := false |}
  | Content c =>
      match JSON_parse (match c with
                        | Some c => LlmSpec.or_text (trim c) ""
                        | None => ""
                        end) with
      | None =>
          {| intent := VStr "GENERIC"; confidence := 0x1.3333333333333p-2%float;
             is_complaint := false |}
      | Some parsed =>
          match classification_of parsed with
          | Ok r => r
          | Throw _ =>
              {| intent := VStr "GENERIC";
                 confidence := 0x1.999999999999ap-3%float;
                 is_complaint := false |}
          end
      end
  end.

(** The value of [shouldDefer] in the handler. *)
Definition should_defer (cfg : config) : bool :=
  isNightTime received
  && includes (actionIntentNames cfg) (intent (classified cfg)).

(** The reply of the normal branch. *)
Definition normal_reply (cfg : config) : outcome string :=
  match template_text (intent (classified cfg)) with
  | Ok _ => Ok FALLBACK_TEXT
  | Throw e => Throw e
  end.

(** What step 4 decides. *)
Definition decided (cfg : config) : outcome decision :=
  if isComplaint (classified cfg) then
    Ok {| replyText := complaintReply cfg; needFollowup := true;
          followupReason := Some "COMPLAINT" |}
  else if should_defer cfg then
    Ok {| replyText := nightDeferReply cfg; needFollowup := true;
          followupReason := Some "NIGHT_ACTION" |}
  else
    match normal_reply cfg with
    | Ok reply => Ok {| replyText := Some reply; needFollowup := false;
                        followupReason := None |}
    | Throw e => Throw e
    end.

(** The session once the [IN] row is inserted. *)
Definition s_in (s : session) : session :=
  snd (sql_insert_message (in_row sender txt received) s).

Definition s_out (cfg : config) (d : decision) (s : session) : session :=
  snd (sql_insert_message
         (out_row sender d "UNKNOWN" (classified cfg) (messages_id_seq s))
         (s_in s)).

Definition s_followup (cfg : config) (d : decision) (s : session) : session :=
  if needFollowup d
  then snd (sql_insert_followup
              {| f_message_id := messages_id_seq s;
                 f_status := "PENDING";
                 f_reason := followupReason d |}
              (s_out cfg d s))
  else s_out cfg d s.

(** The session when the handler has answered. *)
Definition s_done (cfg : config) (d : decision) (s : session) : session :=
  snd (sql_update_message (messages_id_seq s)
         (classify_in d "UNKNOWN" (classified cfg))
         (s_followup cfg d s)).

(** The [OUT] row of the exchange. *)
Definition out_done (cfg : config) (d : decision) (s : session) : message :=
  out_row sender d "UNKNOWN" (classified cfg) (messages_id_seq s)
    (messages_id_seq s + 1).

(** The [IN] row of the exchange once it is classified. *)
Definition in_done (cfg : config) (d : decision) (s : session) : message :=
  classify_in d "UNKNOWN" (classified cfg)
    (in_row sender txt received (messages_id_seq s)).

(** The follow-up entry of the exchange, if one is needed. *)
Definition followups (d : decision) (s : session) : list followup :=
  if needFollowup d
  then [{| f_message_id := messages_id_seq s;
           f_status := "PENDING";
           f_reason := followupReason d |}]
  else [].

End Run.
End PolicyRun.

(** The world of the policy server once it has started: the
    configuration was loaded from the tables. *)
Definition started {RT : Runtime} (E : env) (st : store) : world PolicyServer.config :=
  Sample.start (PolicyRun.loaded E st) st.

(* ===================================================================== *)
(** ** Invariants of a run *)
(* ===================================================================== *)

(** Every row, seen by the session or committed, has an id the sequence
    has already given out. *)
Definition numbered (s : session) : Prop :=
  fresh s
  /\ forall m, In m (messages (committed s)) -> m_id m < messages_id_seq s.

(** A computation keeps an invariant of the world when the world it
    leaves satisfies it, whether it returns or throws. *)
Definition keeps {W A : Type} (I : W -> Prop) (m : M W A) : Prop :=
  forall w, I w -> I (snd (m w)).

(** [templatesByIntent[name]], with no template for a missing key. *)
Fixpoint templates_under (name : string)
    (o : list (string * list ServerJs.template)) : list ServerJs.template :=
  match o with
  | [] => []
  | (k, ts) :: rest =>
      if String.eqb k name then ts else templates_under name rest
  end.

(** The object the loop of [loadConfig] pushes for a row. *)
Definition template_of_row (row : template_row) : ServerJs.template :=
  {| ServerJs.sub_intent := t_sub_intent row;
     ServerJs.label := t_display_label row;
     ServerJs.message_text := t_message row |}.

(** The rows of one sender, as the history query filters them. *)
Definition rows_of (phone : string) (rows : list message) : list message :=
  filter (fun m => String.eqb (m_phone_number m) phone) rows.

(* ===================================================================== *)
(** ** server.js: what the webhook does not call *)
(* ===================================================================== *)

Module ServerJsAdmin.

(** The body of an answer of the admin API. *)
Inductive admin_body : Type :=
| Reloaded
| Failed (err : error).

Record admin_response : Type := {
  admin_status : Z;
  admin_json : admin_body;
}.

(** [`$${idx}`]. *)
Definition placeholder (idx : nat) : string :=
  "$" ++ NilEmpty.string_of_uint (Nat.to_uint idx).

(** The three variables of the handlers that build a statement. *)
Record builder : Type := {
  fields : list string;
  params : list value;
  idx : nat;
}.

(** [fields.push(`col = $${idx++}`); params.push(v)]. *)
Definition push_field (col : string) (v : value) (b : builder) : builder :=
  {| fields := (fields b ++ [(col ++ " = " ++ placeholder (idx b))%string])%list;
     params := (params b ++ [v])%list;
     idx := S (idx b) |}.

Definition is_undefined (v : value) : bool :=
  match v with
  | VUndefined => true
  | _ => false
  end.

(** The fields [PATCH /admin/followups/:id] reads from the body; a
    missing one is [undefined]. *)
Record patch_body : Type := {
  b_status : value;
  b_memo : value;
  b_resolved : value;
}.

Definition patch_fields (body : patch_body) : builder :=
  let b0 := {| fields := []; params := []; idx := 1 |} in
  let b1 := if truthy (b_status body)
            then push_field "status" (b_status body) b0 else b0 in
  let b2 := if negb (is_undefined (b_memo body))
            then push_field "memo" (b_memo body) b1 else b1 in
  if negb (is_undefined (b_resolved body))
  then push_field "resolved" (b_resolved body) b2 else b2.

(** A statement and its parameters. *)
Record statement : Type := {
  sql : string;
  arguments : list value;
}.

(** The statement [PATCH /admin/followups/:id] sends; [None] is the
    answer 400 [no fields to update], with nothing sent. *)
Definition patch_statement (id : string) (body : patch_body) : option statement :=
  let b := patch_fields body in
  if Nat.eqb (length (fields b)) 0 then None
  else Some {| sql := nl ++ "      UPDATE followup_queue" ++ nl
                         ++ "      SET " ++ String.concat ", " (fields b) ++ "," ++ nl
                         ++ "          updated_at = NOW()" ++ nl
                         ++ "      WHERE id = " ++ placeholder (idx b) ++ nl
                         ++ "    ";
               arguments := (params b ++ [VStr id])%list |}.

(** [status !== 'ALL']. *)
Definition is_not_ALL (v : value) : bool :=
  match v with
  | VStr s => negb (String.eqb s "ALL")
  | _ => true
  end.

Definition FOLLOWUPS_SELECT : string :=
  nl ++ "      SELECT " ++ nl
     ++ "        f.id, " ++ nl
     ++ "        f.status, " ++ nl
     ++ "        f.reason, " ++ nl
     ++ "        f.memo, " ++ nl
     ++ "        f.created_at,   -- 여기가 핵심! f.created_at 이라고 명시" ++ nl
     ++ "        m.phone_number, " ++ nl
     ++ "        m.text, " ++ nl
     ++ "        m.guest_state, " ++ nl
     ++ "        m.intent" ++ nl
     ++ "      FROM followup_queue f" ++ nl
     ++ "      LEFT JOIN messages m ON f.message_id = m.id" ++ nl
     ++ "      WHERE 1=1" ++ nl
     ++ "    ".

(** The statement [GET /admin/followups] sends for the two filters of
    the query string. *)
Definition followups_statement (status reason : value) : statement :=
  let q0 := FOLLOWUPS_SELECT in
  let '(q1, params1, idx1) :=
    if truthy status && is_not_ALL status
    then (q0 ++ " AND f.status = " ++ placeholder 1, [status], 2%nat)
    else (q0, [], 1%nat) in
  let '(q2, params2) :=
    if truthy reason
    then (q1 ++ " AND f.reason = " ++ placeholder idx1, (params1 ++ [reason])%list)
    else (q1, params1) in
  {| sql := q2 ++ " ORDER BY f.created_at DESC LIMIT 100";
     arguments := params2 |}.

Section Run.
Context {RT : Runtime} (E : env).

Abbreviation W := (world ServerJs.config).

(** [retrieveKnowledge(intentResult, dbClient)]: the client passed is
    used, and left to the caller; without one, a client is taken from
    the pool and released. *)
Definition retrieveKnowledge (intentResult : value) (dbClient : bool)
    : M W (list knowledge_row) :=
  (if dbClient then ret tt else connect E) ;;
  finally
    (match intentResult with
     | VUndefined =>
         throw (TypeError "Cannot read properties of undefined (reading 'intent')")
     | VNull =>
         throw (TypeError "Cannot read properties of null (reading 'intent')")
     | _ =>
         query E SELECT_KNOWLEDGE
           (sql_read (fun st =>
              firstn 5
                (filter (fun k => match prepareValue (get intentResult "intent") with
                                  | Some c => String.eqb (k_category k) c
                                  | None => false
                                  end)
                        (knowledge_base st))))
     end)
    (if dbClient then ret tt else release).

(** [app.post("/admin/reload-config", ...)]. *)
Definition reloadConfig : M W admin_response :=
  try_catch
    (ServerJs.loadConfig E ;;
     ret {| admin_status := 200; admin_json := Reloaded |})
    (fun err => ret {| admin_status := 500; admin_json := Failed err |}).

End Run.

End ServerJsAdmin.

(* ===================================================================== *)
(** ** Runs of the policy pipeline when statements are rejected *)
(* ===================================================================== *)

(** The SMS the policy pipeline hands to [sendSms] for a decision. *)
Definition policy_sms (sender : string) (d : PolicyServer.decision) : sms :=
  {| sms_to := sender; sms_text := PolicyServer.replyText d |}.

(** A snapshot of the policy server that is still the initial one, or
    holds two non-empty reply templates. *)
Definition templates_ready (cfg : PolicyServer.config) : Prop :=
  PolicyServer.lastLoadedAt cfg = None
  \/ exists night complaint,
      PolicyServer.nightDeferReply cfg = Some night /\ night <> ""
      /\ PolicyServer.complaintReply cfg = Some complaint /\ complaint <> "".

(** Settings where the key of the night template has two rows, neither
    of them the last row of the table. *)
Definition two_templates_store : store :=
  {| messages := []; followup_queue := []; intents := [];
     bot_settings :=
       [{| s_key := "night_defer_reply"; s_value := Some "first" |};
        {| s_key := "night_defer_reply"; s_value := Some "night" |};
        {| s_key := "complaint_reply"; s_value := Some "complaint" |};
        {| s_key := "greeting"; s_value := Some "hello" |}];
     intent_templates := []; knowledge_base := [] |}.
(* ===================================================================== *)
(** ** The orchestrator's normalisation *)
(* ===================================================================== *)

Lemma runOrchestratorLLM_run {RT : Runtime} (E : env) text guestState history knowledge
    (w : world ServerJs.config) :
  ServerJs.runOrchestratorLLM E text guestState history knowledge w
  = (Ok (orchestrated (orchestrator_answer E text guestState history knowledge)),
     log_prompt (orchestrator_call text guestState history knowledge) w).
Proof.
  unfold ServerJs.runOrchestratorLLM, orchestrated, orchestrator_answer.
  unfold try_catch, bind, chat_content, ServerJs.parse_or_null, try_catch.
  unfold orchestrator_call. cbn [system_prompt user_prompt].
  destruct (chat E _ _) as [|c]; [reflexivity|].
  destruct (JSON_parse (ServerJs.raw_of c)) as [parsed|]; cbn.
  - destruct (negb (truthy parsed) || negb (typeof_object parsed)); reflexivity.
  - reflexivity.
Qed.

Lemma is_object_spec (v : value) :
  is_object v = true <-> negb (truthy v) || negb (typeof_object v) = false.
Proof.
  destruct v; cbn; split; intros H; try discriminate; try reflexivity.
  - destruct b; discriminate.
  - destruct (negb (PrimFloat.eqb n 0) && negb (is_nan n)); discriminate.
  - destruct (negb (String.eqb s "")); discriminate.
Qed.

(** C4 (as amended).  [runOrchestratorLLM] never throws, and all it does
    to the world is the one call to the model.  It returns the canonical
    fallback when the call fails, when the raw text does not parse, and
    when the parsed value is falsy or not of type ["object"].  When the parsed value is an object
    (an array counts as one), every field that is missing or falsy gets
    its default, every truthy field is passed through whatever its type,
    and the two flags are the truthiness of their fields. *)
Theorem runOrchestratorLLM_fallback_and_defaults :
  forall {RT : Runtime} (E : env) (text guestState : string)
         (history : list LlmSpec.turn) (knowledge : list knowledge_row)
         (w : world ServerJs.config),
  exists r : ServerJs.orchestration,
    ServerJs.runOrchestratorLLM E text guestState history knowledge w
      = (Ok r, log_prompt (orchestrator_call text guestState history knowledge) w)
    /\ (orchestrator_answer E text guestState history knowledge = ApiFailure
        -> r = ServerJs.FALLBACK)
    /\ (forall c,
          orchestrator_answer E text guestState history knowledge = Content c ->
          JSON_parse (ServerJs.raw_of c) = None ->
          r = ServerJs.FALLBACK)
    /\ (forall c parsed,
          orchestrator_answer E text guestState history knowledge = Content c ->
          JSON_parse (ServerJs.raw_of c) = Some parsed ->
          is_object parsed = false ->
          r = ServerJs.FALLBACK)
    /\ (forall c parsed,
          orchestrator_answer E text guestState history knowledge = Content c ->
          JSON_parse (ServerJs.raw_of c) = Some parsed ->
          is_object parsed = true ->
          ServerJs.reply_text r
            = (if truthy (get parsed "reply_text")
               then get parsed "reply_text" else VStr "")
          /\ ServerJs.intent r
            = (if truthy (get parsed "intent")
               then get parsed "intent" else VStr "GENERIC")
          /\ ServerJs.flow_type r
            = (if truthy (get parsed "flow_type")
               then get parsed "flow_type" else VNull)
          /\ ServerJs.slots r
            = (if truthy (get parsed "slots")
               then get parsed "slots" else VObj [])
          /\ ServerJs.need_followup r = truthy (get parsed "need_followup")
          /\ ServerJs.end_flow r = truthy (get parsed "end_flow")).
Proof.
  intros RT E text guestState history knowledge w.
  eexists. split; [apply runOrchestratorLLM_run|].
  unfold orchestrated.
  split; [|split; [|split]].
  - intros ->. reflexivity.
  - intros c -> ->. reflexivity.
  - intros c parsed -> -> Hobj.
    destruct (negb (truthy parsed) || negb (typeof_object parsed)) eqn:Hn;
      [reflexivity|].
    apply is_object_spec in Hn. congruence.
  - intros c parsed -> -> Hobj. apply is_object_spec in Hobj. rewrite Hobj.
    cbn. unfold js_or. repeat split.
Qed.

(* ===================================================================== *)
(** ** Stepping through a computation *)
(* ===================================================================== *)

Section Steps.
Context {C : Type} (E : env).
Let W := world C.

Lemma bind_ok {A B} (m : M W A) (k : A -> M W B) w a w' :
  m w = (Ok a, w') -> bind m k w = k a w'.
Proof. unfold bind. now intros ->. Qed.

Lemma bind_throw {A B} (m : M W A) (k : A -> M W B) w e w' :
  m w = (Throw e, w') -> bind m k w = (Throw e, w').
Proof. unfold bind. now intros ->. Qed.

Lemma bind_assoc {A B D} (m : M W A) (f : A -> M W B) (g : B -> M W D) w :
  bind (bind m f) g w = bind m (fun a => bind (f a) g) w.
Proof. unfold bind. destruct (m w) as [[a|e] w']; reflexivity. Qed.

Lemma finally_release {A} (m : M W A) w : finally m release w = m w.
Proof. unfold finally, release, ret. now destruct (m w). Qed.

Lemma try_catch_ok {A} (m : M W A) (h : error -> M W A) w a w' :
  m w = (Ok a, w') -> try_catch m h w = (Ok a, w').
Proof. unfold try_catch. now intros ->. Qed.

Lemma try_catch_throw {A} (m : M W A) (h : error -> M W A) w e w' :
  m w = (Throw e, w') -> try_catch m h w = h e w'.
Proof. unfold try_catch. now intros ->. Qed.

Lemma query_ok {A} (o : op) (run : session -> A * session) (w : W) :
  fails E o = false ->
  query E o run w = (Ok (fst (run (pg w))), set_pg (snd (run (pg w))) w).
Proof. unfold query. intros ->. now destruct (run (pg w)). Qed.

Lemma query_rejected {A} (o : op) (run : session -> A * session) (w : W) :
  fails E o = true -> query E o run w = (Throw (DbError o), w).
Proof. unfold query. now intros ->. Qed.

Lemma connect_ok (w : W) :
  fails E POOL_CONNECT = false -> connect E w = (Ok tt, w).
Proof. unfold connect. now intros ->. Qed.

Lemma connect_rejected (w : W) :
  fails E POOL_CONNECT = true -> connect E w = (Throw (DbError POOL_CONNECT), w).
Proof. unfold connect. now intros ->. Qed.

End Steps.

Ltac tidy :=
  cbv beta;
  cbn [pg set_pg set_config log_sms log_prompt cachedConfig outbox asked
       fst snd sql_read sql_select_history].

Ltac step_ok H :=
  rewrite ?bind_assoc;
  erewrite bind_ok by (first [ apply query_ok; apply H
                             | apply connect_ok; apply H
                             | reflexivity ]);
  tidy.

Lemma server_handle_calm {RT : Runtime} (E : env) (sender txt : string)
    (received : date) (w : world ServerJs.config) (reply : option string) :
  (forall o, fails E o = false) ->
  ServerJs.reply_to_send (ServerJs.reply_text (OrchestratorRun.result E sender txt received (pg w)))
    = Ok reply ->
  ServerJs.handle E sender txt received w
  = (Ok {| status := 200;
           body := OrchestratorOk (messages_id_seq (pg w))
                     (OrchestratorRun.outgoing_id sender txt received (pg w) reply)
                     (ServerJs.intent (OrchestratorRun.result E sender txt received (pg w)))
                     (ServerJs.flow_type (OrchestratorRun.result E sender txt received (pg w)))
                     (ServerJs.end_flow (OrchestratorRun.result E sender txt received (pg w))) |},
     {| pg := OrchestratorRun.s_done E sender txt received (pg w) reply;
        cachedConfig := cachedConfig w;
        outbox := (OrchestratorRun.sent sender reply ++ outbox w)%list;
        asked := OrchestratorRun.call sender txt received (pg w) :: asked w |}).
Proof.
  intros Hnf Hreply.
  unfold ServerJs.handle.
  step_ok Hnf. step_ok Hnf. step_ok Hnf. step_ok Hnf.
  unfold ServerJs.retrieveKnowledgeForRAG. step_ok Hnf.
  erewrite bind_ok by apply runOrchestratorLLM_run. tidy.
  change (orchestrated _) with (OrchestratorRun.result E sender txt received (pg w)).
  change (orchestrator_call _ _ _ _) with (OrchestratorRun.call sender txt received (pg w)).
  erewrite bind_ok by (unfold lift; rewrite Hreply; reflexivity). tidy.
  destruct reply as [t|];
    destruct (ServerJs.need_followup (OrchestratorRun.result E sender txt received (pg w)))
      eqn:Hneed.
  - unfold sendSms. step_ok Hnf. step_ok Hnf. step_ok Hnf. step_ok Hnf. step_ok Hnf.
    step_ok Hnf. unfold ret.
    unfold OrchestratorRun.s_done, OrchestratorRun.s_followup. rewrite Hneed.
    reflexivity.
  - unfold sendSms. step_ok Hnf. step_ok Hnf. step_ok Hnf. step_ok Hnf. step_ok Hnf.
    step_ok Hnf. unfold ret.
    unfold OrchestratorRun.s_done, OrchestratorRun.s_followup. rewrite Hneed.
    reflexivity.
  - step_ok Hnf. step_ok Hnf. step_ok Hnf. step_ok Hnf. unfold ret.
    unfold OrchestratorRun.s_done, OrchestratorRun.s_followup. rewrite Hneed.
    reflexivity.
  - step_ok Hnf. step_ok Hnf. step_ok Hnf. step_ok Hnf. unfold ret.
    unfold OrchestratorRun.s_done, OrchestratorRun.s_followup. rewrite Hneed.
    reflexivity.
Qed.

(* ===================================================================== *)
(** ** Rows and sessions *)
(* ===================================================================== *)

Lemma mark_fresh (id : Z) (set : message -> message) (rows : list message) :
  (forall m, In m rows -> m_id m < id) -> mark id set rows = rows.
Proof.
  intros Hlt. unfold mark. induction rows as [|m rows IH]; [reflexivity|].
  cbn [map]. rewrite IH by (intros x Hx; apply Hlt; now right).
  assert (m_id m < id) as Hm by (apply Hlt; now left).
  destruct (Z.eqb_spec (m_id m) id); [lia|reflexivity].
Qed.

Lemma in_insert_desc (m x : message) (l : list message) :
  In x (insert_desc m l) -> x = m \/ In x l.
Proof.
  induction l as [|y l IH]; cbn [insert_desc].
  - intros [<-|[]]. now left.
  - destruct (m_id y <=? m_id m).
    + intros [<-|H]; [now left|now right].
    + intros [<-|H]; [right; now left|].
      destruct (IH H) as [->|Hin]; [now left|right; now right].
Qed.

Lemma in_order_by_id_desc (x : message) (l : list message) :
  In x (order_by_id_desc l) -> In x l.
Proof.
  unfold order_by_id_desc. induction l as [|m l IH]; cbn [fold_right]; [easy|].
  intros H. destruct (in_insert_desc _ _ _ H) as [->|Hin]; [now left|].
  right. now apply IH.
Qed.

(** A row whose id is above all others is the first of [ORDER BY id DESC]. *)
Lemma order_by_id_desc_newest (m : message) (l : list message) :
  (forall x, In x l -> m_id x < m_id m) ->
  order_by_id_desc (m :: l) = m :: order_by_id_desc l.
Proof.
  intros Hlt. unfold order_by_id_desc. cbn [fold_right].
  fold (order_by_id_desc l).
  destruct (order_by_id_desc l) as [|y rest] eqn:Hsorted; [reflexivity|].
  cbn [insert_desc].
  assert (m_id y < m_id m) as Hy.
  { apply Hlt. apply in_order_by_id_desc. rewrite Hsorted. now left. }
  destruct (Z.leb_spec (m_id y) (m_id m)); [reflexivity|lia].
Qed.

Lemma insert_desc_perm (m : message) (l : list message) :
  Permutation (m :: l) (insert_desc m l).
Proof.
  induction l as [|x l IH]; cbn [insert_desc]; [reflexivity|].
  destruct (m_id x <=? m_id m); [reflexivity|].
  rewrite perm_swap. now apply perm_skip.
Qed.

Lemma order_by_id_desc_perm (l : list message) :
  Permutation l (order_by_id_desc l).
Proof.
  unfold order_by_id_desc. induction l as [|m l IH]; cbn [fold_right]; [reflexivity|].
  rewrite <- insert_desc_perm. now apply perm_skip.
Qed.

Lemma insert_desc_sorted (m : message) (l : list message) :
  StronglySorted (fun a b => m_id b <= m_id a) l ->
  StronglySorted (fun a b => m_id b <= m_id a) (insert_desc m l).
Proof.
  induction 1 as [|x l Hsorted IH Hx]; cbn [insert_desc].
  - constructor; [constructor|constructor].
  - destruct (Z.leb_spec (m_id x) (m_id m)) as [Hle|Hgt].
    + constructor; [now constructor|].
      constructor; [exact Hle|].
      rewrite Forall_forall in *. intros y Hy. specialize (Hx y Hy). lia.
    + constructor; [exact IH|].
      rewrite Forall_forall in *. intros y Hy.
      apply in_insert_desc in Hy as [->|Hy]; [lia|now apply Hx].
Qed.

Lemma order_by_id_desc_sorted (l : list message) :
  StronglySorted (fun a b => m_id b <= m_id a) (order_by_id_desc l).
Proof.
  unfold order_by_id_desc. induction l as [|m l IH]; cbn [fold_right].
  - constructor.
  - now apply insert_desc_sorted.
Qed.

Lemma sorted_app_inv {A} (R : A -> A -> Prop) (l1 l2 : list A) :
  StronglySorted R (l1 ++ l2) ->
  StronglySorted R l1
  /\ forall a b, In a l1 -> In b l2 -> R a b.
Proof.
  induction l1 as [|x l1 IH]; cbn [app].
  - intros _. split; [constructor|intros a b []].
  - intros H. inversion H as [|? ? Hrest Hx]; subst.
    destruct (IH Hrest) as [Hs Hab].
    split.
    + constructor; [exact Hs|].
      rewrite Forall_forall in *. intros y Hy. apply Hx, in_or_app. now left.
    + intros a b [<-|Ha] Hb.
      * rewrite Forall_forall in Hx. apply Hx, in_or_app. now right.
      * now apply Hab.
Qed.

Lemma sorted_app {A} (R : A -> A -> Prop) (l1 l2 : list A) :
  StronglySorted R l1 -> StronglySorted R l2 ->
  (forall a b, In a l1 -> In b l2 -> R a b) ->
  StronglySorted R (l1 ++ l2).
Proof.
  induction 1 as [|x l1 Hsorted IH Hx]; cbn [app]; intros H2 Hab; [exact H2|].
  constructor.
  - apply IH; [exact H2|]. intros a b Ha Hb. apply Hab; [now right|exact Hb].
  - rewrite Forall_forall in *. intros y Hy.
    apply in_app_or in Hy as [Hy|Hy]; [now apply Hx|].
    apply Hab; [now left|exact Hy].
Qed.

Lemma sorted_rev {A} (R : A -> A -> Prop) (l : list A) :
  StronglySorted R l -> StronglySorted (fun a b => R b a) (rev l).
Proof.
  induction 1 as [|x l Hsorted IH Hx]; cbn [rev]; [constructor|].
  apply sorted_app; [exact IH|constructor; constructor|].
  intros a b Ha [<-|[]]. rewrite Forall_forall in Hx.
  apply Hx. now apply in_rev.
Qed.


Lemma succ_neq (id : Z) : (id + 1 =? id) = false.
Proof. apply Z.eqb_neq. lia. Qed.

(* ===================================================================== *)
(** ** The policy pipeline, step by step *)
(* ===================================================================== *)

Section PolicySteps.
Context {RT : Runtime} (E : env).
Hypothesis calm : forall o, fails E o = false.

Let W := world PolicyServer.config.

Lemma policy_loadConfig_calm (w : W) :
  PolicyServer.loadConfig E w
  = (Ok tt, set_config (PolicyRun.loaded E (visible (pg w))) w).
Proof.
  unfold PolicyServer.loadConfig.
  step_ok calm. rewrite finally_release.
  step_ok calm. step_ok calm. reflexivity.
Qed.

Lemma policy_classifyIntent_calm (txt : string) (w : W) :
  PolicyServer.classifyIntent E txt "UNKNOWN" w
  = (Ok (PolicyRun.classified E txt (PolicyRun.config_used E w)),
     {| pg := pg w;
        cachedConfig := PolicyRun.config_used E w;
        outbox := outbox w;
        asked := PolicyRun.call txt (PolicyRun.config_used E w) :: asked w |}).
Proof.
  unfold PolicyServer.classifyIntent, PolicyRun.config_used.
  unfold gets at 1. step_ok calm.
  destruct (PolicyServer.lastLoadedAt (cachedConfig w)) as [t|] eqn:Hloaded.
  - step_ok calm. unfold gets. step_ok calm.
    unfold PolicyRun.classified, PolicyRun.call, try_catch, bind, chat_content, lift, ret.
    cbn [system_prompt user_prompt].
    destruct (chat E _ _) as [|c]; [reflexivity|].
    destruct (JSON_parse _) as [parsed|]; [|reflexivity].
    destruct (PolicyServer.classification_of parsed); reflexivity.
  - erewrite bind_ok by apply policy_loadConfig_calm. tidy.
    unfold gets. step_ok calm.
    unfold PolicyRun.classified, PolicyRun.call, try_catch, bind, chat_content, lift, ret.
    cbn [system_prompt user_prompt].
    destruct (chat E _ _) as [|c]; [reflexivity|].
    destruct (JSON_parse _) as [parsed|]; [|reflexivity].
    destruct (PolicyServer.classification_of parsed); reflexivity.
Qed.

Lemma policy_generateReply_calm (txt : string) (v : value)
    (knowledge : list knowledge_row) (w : W) :
  PolicyServer.generateReplyWithLLM E txt "UNKNOWN" v knowledge w
  = (match PolicyServer.template_text v with
     | Ok _ => Ok FALLBACK_TEXT
     | Throw e => Throw e
     end, w).
Proof.
  unfold PolicyServer.generateReplyWithLLM, bind, lift, try_catch, throw, ret.
  destruct (PolicyServer.template_text v); reflexivity.
Qed.

Lemma policy_retrieveKnowledge_calm (c : PolicyServer.classification) (w : W) :
  exists rows, PolicyServer.retrieveKnowledge E c w = (Ok rows, w).
Proof.
  unfold PolicyServer.retrieveKnowledge.
  eexists. step_ok calm. rewrite finally_release.
  rewrite query_ok by apply calm. tidy.
  destruct w; reflexivity.
Qed.

Lemma policy_decide_calm (txt : string) (c : PolicyServer.classification)
    (defer : bool) (w : W) :
  PolicyServer.decide E txt "UNKNOWN" c defer w
  = (if PolicyServer.isComplaint c then
       Ok {| PolicyServer.replyText := PolicyServer.complaintReply (cachedConfig w);
             PolicyServer.needFollowup := true;
             PolicyServer.followupReason := Some "COMPLAINT" |}
     else if defer then
       Ok {| PolicyServer.replyText := PolicyServer.nightDeferReply (cachedConfig w);
             PolicyServer.needFollowup := true;
             PolicyServer.followupReason := Some "NIGHT_ACTION" |}
     else
       match PolicyServer.template_text (PolicyServer.intent c) with
       | Ok _ => Ok {| PolicyServer.replyText := Some FALLBACK_TEXT;
                       PolicyServer.needFollowup := false;
                       PolicyServer.followupReason := None |}
       | Throw e => Throw e
       end, w).
Proof.
  unfold PolicyServer.decide.
  destruct (PolicyServer.isComplaint c); [reflexivity|].
  destruct defer; [reflexivity|].
  destruct (policy_retrieveKnowledge_calm c w) as [rows Hrows].
  erewrite bind_ok by exact Hrows. cbv beta.
  unfold bind. rewrite policy_generateReply_calm.
  destruct (PolicyServer.template_text _); reflexivity.
Qed.

Lemma policy_decide_decided (txt : string) (received : date)
    (cfg : PolicyServer.config) (w : W) :
  cachedConfig w = cfg ->
  fst (PolicyServer.decide E txt "UNKNOWN" (PolicyRun.classified E txt cfg)
         (PolicyRun.should_defer E txt received cfg) w)
  = PolicyRun.decided E txt received cfg.
Proof.
  intros <-. rewrite policy_decide_calm. cbn [fst].
  unfold PolicyRun.decided, PolicyRun.normal_reply.
  destruct (PolicyServer.isComplaint _); [reflexivity|].
  destruct (PolicyRun.should_defer _ _ _ _); [reflexivity|].
  destruct (PolicyServer.template_text _); reflexivity.
Qed.

Lemma policy_handle_calm (sender txt : string) (received : date) (w : W) :
  PolicyServer.handle E sender txt received w
  = match PolicyRun.decided E txt received (PolicyRun.config_used E w) with
    | Ok d =>
        (Ok {| status := 200;
               body := PolicyOk (messages_id_seq (pg w))
                         (messages_id_seq (pg w) + 1)
                         (PolicyServer.intent
                            (PolicyRun.classified E txt (PolicyRun.config_used E w)))
                         "UNKNOWN" (isNightTime received)
                         (PolicyServer.needFollowup d) |},
         {| pg := PolicyRun.s_done E sender txt received
                    (PolicyRun.config_used E w) d (pg w);
            cachedConfig := PolicyRun.config_used E w;
            outbox := {| sms_to := sender;
                         sms_text := PolicyServer.replyText d |} :: outbox w;
            asked := PolicyRun.call txt (PolicyRun.config_used E w) :: asked w |})
    | Throw e =>
        (Throw e,
         {| pg := PolicyRun.s_in sender txt received (pg w);
            cachedConfig := PolicyRun.config_used E w;
            outbox := outbox w;
            asked := PolicyRun.call txt (PolicyRun.config_used E w) :: asked w |})
    end.
Proof.
  unfold PolicyServer.handle.
  step_ok calm. step_ok calm.
  erewrite bind_ok by apply policy_classifyIntent_calm. tidy.
  change (PolicyRun.config_used E (set_pg _ w)) with (PolicyRun.config_used E w).
  unfold gets at 1. step_ok calm.
  unfold bind at 1. rewrite policy_decide_calm. tidy.
  unfold PolicyRun.decided, PolicyRun.normal_reply, PolicyRun.should_defer.
  set (cfg := PolicyRun.config_used E w).
  set (c := PolicyRun.classified E txt cfg).
  destruct (PolicyServer.isComplaint c).
  - unfold sendSms. step_ok calm. step_ok calm. cbn [PolicyServer.needFollowup].
    step_ok calm. step_ok calm. reflexivity.
  - destruct (isNightTime received && PolicyServer.includes _ _).
    + unfold sendSms. step_ok calm. step_ok calm. cbn [PolicyServer.needFollowup].
      step_ok calm. step_ok calm. reflexivity.
    + destruct (PolicyServer.template_text _); [|reflexivity].
      unfold sendSms. step_ok calm. step_ok calm. cbn [PolicyServer.needFollowup].
      step_ok calm. step_ok calm. reflexivity.
Qed.

Lemma policy_webhook_calm (req : payload) (sender txt : string) (w : W) :
  validated (now E) req sender txt ->
  PolicyServer.webhook E req w
  = match PolicyServer.handle E sender txt
            (receivedAt (parseSmsProviderPayload (now E) req)) w with
    | (Ok r, w') => (Ok r, w')
    | (Throw _, w') =>
        (Ok {| status := 500; body := ErrorBody "internal_server_error" |}, w')
    end.
Proof.
  intros (Hfrom & Htext & Hs & Ht).
  unfold PolicyServer.webhook.
  step_ok calm. rewrite finally_release.
  unfold try_catch. rewrite Hfrom, Htext. cbn [nonempty].
  apply String.eqb_neq in Hs, Ht. rewrite Hs, Ht. cbn [negb orb].
  destruct (PolicyServer.handle _ _ _ _ _) as [[r|e] w']; reflexivity.
Qed.

Lemma policy_webhook_done (req : payload) (sender txt : string) (w : W)
    (d : PolicyServer.decision) :
  validated (now E) req sender txt ->
  let received := receivedAt (parseSmsProviderPayload (now E) req) in
  let cfg := PolicyRun.config_used E w in
  PolicyRun.decided E txt received cfg = Ok d ->
  PolicyServer.webhook E req w
  = (Ok {| status := 200;
           body := PolicyOk (messages_id_seq (pg w)) (messages_id_seq (pg w) + 1)
                     (PolicyServer.intent (PolicyRun.classified E txt cfg))
                     "UNKNOWN" (isNightTime received)
                     (PolicyServer.needFollowup d) |},
     {| pg := PolicyRun.s_done E sender txt received cfg d (pg w);
        cachedConfig := cfg;
        outbox := {| sms_to := sender;
                     sms_text := PolicyServer.replyText d |} :: outbox w;
        asked := PolicyRun.call txt cfg :: asked w |}).
Proof.
  intros Hvalid received cfg Hd.
  rewrite (policy_webhook_calm req sender txt w Hvalid).
  fold received. rewrite policy_handle_calm. fold cfg. now rewrite Hd.
Qed.

End PolicySteps.

Section PolicyRows.
Context {RT : Runtime} (E : env).
Variables (sender txt : string) (received : date).

Lemma policy_done_messages (cfg : PolicyServer.config) (d : PolicyServer.decision)
    (s : session) :
  fresh s ->
  messages (visible (PolicyRun.s_done E sender txt received cfg d s))
  = PolicyRun.out_done E sender txt cfg d s
      :: PolicyRun.in_done E sender txt received cfg d s
      :: messages (visible s).
Proof.
  intros Hfresh.
  unfold PolicyRun.s_done, PolicyRun.s_followup, PolicyRun.s_out, PolicyRun.s_in,
    PolicyRun.out_done, PolicyRun.in_done.
  destruct (PolicyServer.needFollowup d) eqn:Hneed;
    cbn [sql_update_message sql_insert_followup sql_insert_message
         on_visible with_messages with_followups visible messages snd fst mark map
         messages_id_seq PolicyServer.out_row PolicyServer.in_row new_message m_id];
    fold (mark (messages_id_seq s)
            (PolicyServer.classify_in d "UNKNOWN" (PolicyRun.classified E txt cfg))
            (messages (visible s)));
    rewrite ?succ_neq, ?Z.eqb_refl, (mark_fresh _ _ _ Hfresh);
    reflexivity.
Qed.

(** An answered exchange leaves every id below the sequence again. *)
Lemma policy_done_fresh (cfg : PolicyServer.config) (d : PolicyServer.decision)
    (s : session) :
  fresh s -> fresh (PolicyRun.s_done E sender txt received cfg d s).
Proof.
  intros Hfresh m Hm.
  rewrite (policy_done_messages cfg d s Hfresh) in Hm.
  assert (messages_id_seq (PolicyRun.s_done E sender txt received cfg d s)
          = messages_id_seq s + 1 + 1) as Hseq.
  { unfold PolicyRun.s_done, PolicyRun.s_followup, PolicyRun.s_out, PolicyRun.s_in.
    destruct (PolicyServer.needFollowup d); reflexivity. }
  rewrite Hseq.
  destruct Hm as [<-|[<-|Hm]].
  - cbn [PolicyRun.out_done PolicyServer.out_row m_id]. lia.
  - cbn [PolicyRun.in_done PolicyServer.classify_in PolicyServer.in_row new_message m_id].
    lia.
  - specialize (Hfresh m Hm). lia.
Qed.

Lemma policy_done_followups (cfg : PolicyServer.config) (d : PolicyServer.decision)
    (s : session) :
  followup_queue (visible (PolicyRun.s_done E sender txt received cfg d s))
  = (PolicyRun.followups d s ++ followup_queue (visible s))%list.
Proof.
  unfold PolicyRun.s_done, PolicyRun.s_followup, PolicyRun.followups.
  destruct (PolicyServer.needFollowup d); reflexivity.
Qed.

End PolicyRows.

(* ===================================================================== *)
(** ** The orchestrator pipeline, step by step *)
(* ===================================================================== *)

Section OrchestratorSteps.
Context {RT : Runtime} (E : env).

Let W := world ServerJs.config.

Lemma server_handle_throwing (sender txt : string) (received : date) (w : W) e :
  (forall o, fails E o = false) ->
  ServerJs.reply_to_send
    (ServerJs.reply_text (OrchestratorRun.result E sender txt received (pg w)))
    = Throw e ->
  ServerJs.handle E sender txt received w
  = (Throw e,
     {| pg := OrchestratorRun.s_in sender txt received (pg w);
        cachedConfig := cachedConfig w;
        outbox := outbox w;
        asked := OrchestratorRun.call sender txt received (pg w) :: asked w |}).
Proof.
  intros calm Hreply.
  unfold ServerJs.handle.
  step_ok calm. step_ok calm. step_ok calm. step_ok calm.
  unfold ServerJs.retrieveKnowledgeForRAG. step_ok calm.
  erewrite bind_ok by apply runOrchestratorLLM_run. tidy.
  change (orchestrated _) with (OrchestratorRun.result E sender txt received (pg w)).
  change (orchestrator_call _ _ _ _) with (OrchestratorRun.call sender txt received (pg w)).
  erewrite bind_throw by (unfold lift; rewrite Hreply; reflexivity).
  reflexivity.
Qed.

Lemma server_webhook_validated (req : payload) (sender txt : string) (w : W) :
  fails E POOL_CONNECT = false ->
  validated (now E) req sender txt ->
  ServerJs.webhook E req w
  = match ServerJs.handle E sender txt
            (receivedAt (parseSmsProviderPayload (now E) req)) w with
    | (Ok r, w') => (Ok r, w')
    | (Throw _, w') =>
        bind (query E ROLLBACK sql_rollback)
             (fun _ => ret {| status := 500;
                              body := ErrorBody "internal_server_error" |}) w'
    end.
Proof.
  intros Hconnect (Hfrom & Htext & Hs & Ht).
  unfold ServerJs.webhook.
  erewrite bind_ok by (apply connect_ok; exact Hconnect). cbv beta.
  rewrite finally_release.
  unfold try_catch. rewrite Hfrom, Htext. cbn [nonempty].
  apply String.eqb_neq in Hs, Ht. rewrite Hs, Ht. cbn [negb orb].
  destruct (ServerJs.handle _ _ _ _ _) as [[r|e] w']; reflexivity.
Qed.

Lemma server_webhook_calm (req : payload) (sender txt : string) (w : W)
    (reply : option string) :
  (forall o, fails E o = false) ->
  validated (now E) req sender txt ->
  let received := receivedAt (parseSmsProviderPayload (now E) req) in
  ServerJs.reply_to_send
    (ServerJs.reply_text (OrchestratorRun.result E sender txt received (pg w)))
    = Ok reply ->
  ServerJs.webhook E req w
  = (Ok {| status := 200;
           body := OrchestratorOk (messages_id_seq (pg w))
                     (OrchestratorRun.outgoing_id sender txt received (pg w) reply)
                     (ServerJs.intent (OrchestratorRun.result E sender txt received (pg w)))
                     (ServerJs.flow_type (OrchestratorRun.result E sender txt received (pg w)))
                     (ServerJs.end_flow (OrchestratorRun.result E sender txt received (pg w))) |},
     {| pg := OrchestratorRun.s_done E sender txt received (pg w) reply;
        cachedConfig := cachedConfig w;
        outbox := (OrchestratorRun.sent sender reply ++ outbox w)%list;
        asked := OrchestratorRun.call sender txt received (pg w) :: asked w |}).
Proof.
  intros calm Hvalid received Hreply.
  rewrite (server_webhook_validated req sender txt w (calm _) Hvalid).
  fold received.
  now rewrite (server_handle_calm E sender txt received w reply calm Hreply).
Qed.

Lemma server_webhook_type_error (req : payload) (sender txt : string) (w : W) e :
  (forall o, fails E o = false) ->
  validated (now E) req sender txt ->
  let received := receivedAt (parseSmsProviderPayload (now E) req) in
  ServerJs.reply_to_send
    (ServerJs.reply_text (OrchestratorRun.result E sender txt received (pg w)))
    = Throw e ->
  ServerJs.webhook E req w
  = (Ok {| status := 500; body := ErrorBody "internal_server_error" |},
     {| pg := snd (sql_rollback (OrchestratorRun.s_in sender txt received (pg w)));
        cachedConfig := cachedConfig w;
        outbox := outbox w;
        asked := OrchestratorRun.call sender txt received (pg w) :: asked w |}).
Proof.
  intros calm Hvalid received Hreply.
  rewrite (server_webhook_validated req sender txt w (calm _) Hvalid).
  fold received.
  rewrite (server_handle_throwing sender txt received w e calm Hreply).
  step_ok calm. reflexivity.
Qed.

(** A reply is sent exactly for a text that is non-empty, also once
    trimmed. *)
Lemma reply_to_send_some (v : value) (t : string) :
  ServerJs.reply_to_send v = Ok (Some t)
  <-> v = VStr t /\ t <> "" /\ trim t <> "".
Proof.
  unfold ServerJs.reply_to_send. split.
  - destruct v; cbn [truthy];
      try (destruct (_ : bool); discriminate); try discriminate.
    destruct (String.eqb_spec s ""); cbn [negb]; [discriminate|].
    destruct (String.eqb_spec (trim s) ""); [discriminate|].
    intros [= ->]. auto.
  - intros (-> & Ht & Htrim). cbn [truthy].
    apply String.eqb_neq in Ht, Htrim. now rewrite Ht, Htrim.
Qed.

End OrchestratorSteps.

Section OrchestratorRows.
Context {RT : Runtime} (E : env).
Variables (sender txt : string) (received : date).

Lemma orchestrator_done_messages (s : session) (reply : option string) :
  fresh s ->
  messages (visible (OrchestratorRun.s_done E sender txt received s reply))
  = (OrchestratorRun.out_rows E sender txt received s reply
       ++ OrchestratorRun.in_done E sender txt received s
       :: messages (visible s))%list.
Proof.
  intros Hfresh.
  unfold OrchestratorRun.s_done, OrchestratorRun.s_followup, OrchestratorRun.s_out,
    OrchestratorRun.s_in, OrchestratorRun.out_rows, OrchestratorRun.in_done.
  destruct reply as [t|];
    destruct (ServerJs.need_followup _);
    cbn [sql_commit sql_update_message sql_insert_followup sql_insert_message sql_begin
         on_visible with_messages with_followups visible messages snd fst mark map
         messages_id_seq ServerJs.out_row ServerJs.in_row new_message m_id app];
    fold (mark (messages_id_seq s) (ServerJs.classify_in "UNKNOWN"
            (OrchestratorRun.result E sender txt received s)) (messages (visible s)));
    rewrite ?succ_neq, ?Z.eqb_refl, (mark_fresh _ _ _ Hfresh);
    reflexivity.
Qed.

Lemma orchestrator_done_followups (s : session) (reply : option string) :
  followup_queue (visible (OrchestratorRun.s_done E sender txt received s reply))
  = (OrchestratorRun.followups E sender txt received s
       ++ followup_queue (visible s))%list.
Proof.
  unfold OrchestratorRun.s_done, OrchestratorRun.s_followup, OrchestratorRun.s_out,
    OrchestratorRun.s_in, OrchestratorRun.followups.
  destruct reply as [t|]; destruct (ServerJs.need_followup _); reflexivity.
Qed.

Lemma orchestrator_done_committed (s : session) (reply : option string) :
  committed (OrchestratorRun.s_done E sender txt received s reply)
  = visible (OrchestratorRun.s_done E sender txt received s reply).
Proof. reflexivity. Qed.

(** A committed exchange leaves every id below the sequence again. *)
Lemma orchestrator_done_fresh (s : session) (reply : option string) :
  fresh s -> fresh (OrchestratorRun.s_done E sender txt received s reply).
Proof.
  intros Hfresh m Hm.
  rewrite (orchestrator_done_messages s reply Hfresh) in Hm.
  assert (messages_id_seq s + 1
          <= messages_id_seq (OrchestratorRun.s_done E sender txt received s reply))
    as Hseq.
  { unfold OrchestratorRun.s_done, OrchestratorRun.s_followup, OrchestratorRun.s_out,
      OrchestratorRun.s_in.
    destruct reply; destruct (ServerJs.need_followup _); cbn; lia. }
  apply in_app_or in Hm as [Hm|[<-|Hm]].
  - unfold OrchestratorRun.out_rows in Hm.
    destruct reply as [t|]; [|destruct Hm]. destruct Hm as [<-|[]].
    revert Hseq.
    unfold OrchestratorRun.s_done, OrchestratorRun.s_followup, OrchestratorRun.s_out,
      OrchestratorRun.s_in.
    destruct (ServerJs.need_followup _); cbn; lia.
  - cbn [OrchestratorRun.in_done ServerJs.classify_in ServerJs.in_row new_message m_id].
    lia.
  - specialize (Hfresh m Hm). lia.
Qed.

Lemma orchestrator_history (s : session) :
  fresh s ->
  OrchestratorRun.history_read sender txt received s
  = (OrchestratorRun.earlier sender s
       ++ [{| LlmSpec.h_direction := "IN"; LlmSpec.h_text := Some txt |}])%list.
Proof.
  intros Hfresh.
  unfold OrchestratorRun.history_read, OrchestratorRun.earlier, OrchestratorRun.s_in.
  cbn [sql_select_history sql_insert_message sql_begin fst snd visible messages
       with_messages filter ServerJs.in_row new_message m_phone_number
       messages_id_seq].
  rewrite String.eqb_refl.
  rewrite order_by_id_desc_newest.
  - cbn [firstn rev map app]. rewrite map_app. reflexivity.
  - intros x Hx. apply filter_In in Hx as [Hx _]. cbn [m_id]. now apply Hfresh.
Qed.

End OrchestratorRows.



(* ===================================================================== *)
(** ** The rows of one exchange *)
(* ===================================================================== *)

(** C7 (as amended).  When the database accepts every statement of a
    validated request and the handler answers 200, one [IN] row is
    added, with the next id of the sequence.  The orchestrator pipeline
    adds at most one [OUT] row: it adds one exactly when the reply is a
    text that is non-empty, also once trimmed, and that row replies to
    the [IN] row.  The policy pipeline always adds one [OUT] row, which
    holds the decided reply text and replies to the [IN] row. *)
Theorem one_in_row_and_its_reply :
  forall {RT : Runtime} (E : env) (req : payload) (sender txt : string),
    (forall o, fails E o = false) ->
    validated (now E) req sender txt ->
    let received := receivedAt (parseSmsProviderPayload (now E) req) in
    (forall (w : world ServerJs.config) (reply : option string),
        fresh (pg w) ->
        let r := OrchestratorRun.result E sender txt received (pg w) in
        ServerJs.reply_to_send (ServerJs.reply_text r) = Ok reply ->
        let inn := OrchestratorRun.in_done E sender txt received (pg w) in
        let outs := OrchestratorRun.out_rows E sender txt received (pg w) reply in
        exists resp w',
          (forall w1,
              fst (ServerJs.runOrchestratorLLM E txt "UNKNOWN"
                     (OrchestratorRun.history_read sender txt received (pg w))
                     (OrchestratorRun.knowledge_read sender txt received (pg w)) w1)
              = Ok r)
          /\ ServerJs.webhook E req w = (Ok resp, w')
          /\ status resp = 200
          /\ messages (committed (pg w'))
             = (outs ++ inn :: messages (visible (pg w)))%list
          /\ m_direction inn = "IN"
          /\ m_id inn = messages_id_seq (pg w)
          /\ (length outs <= 1)%nat
          /\ (forall out, In out outs ->
                m_direction out = "OUT"
                /\ m_reply_to_id out = Some (m_id inn)
                /\ exists t, m_text out = Some t
                             /\ ServerJs.reply_text r = VStr t
                             /\ t <> "" /\ trim t <> "")
          /\ ((exists t, ServerJs.reply_text r = VStr t /\ t <> "" /\ trim t <> "")
              -> outs <> []))
    /\ (forall (w : world PolicyServer.config) (d : PolicyServer.decision),
          fresh (pg w) ->
          let cfg := PolicyRun.config_used E w in
          PolicyRun.decided E txt received cfg = Ok d ->
          let inn := PolicyRun.in_done E sender txt received cfg d (pg w) in
          let out := PolicyRun.out_done E sender txt cfg d (pg w) in
          exists resp w',
            (forall w1,
                cachedConfig w1 = cfg ->
                fst (PolicyServer.decide E txt "UNKNOWN"
                       (PolicyRun.classified E txt cfg)
                       (PolicyRun.should_defer E txt received cfg) w1)
                = Ok d)
            /\ PolicyServer.webhook E req w = (Ok resp, w')
            /\ status resp = 200
            /\ messages (visible (pg w')) = out :: inn :: messages (visible (pg w))
            /\ m_direction inn = "IN"
            /\ m_id inn = messages_id_seq (pg w)
            /\ m_direction out = "OUT"
            /\ m_reply_to_id out = Some (m_id inn)
            /\ m_text out = PolicyServer.replyText d).
Proof.
  intros RT E req sender txt calm Hvalid received. split.
  - intros w reply Hfresh r Hreply inn outs.
    eexists. eexists.
    split; [intros w1; now rewrite runOrchestratorLLM_run|].
    split; [exact (server_webhook_calm E req sender txt w reply calm Hvalid Hreply)|].
    cbn [status pg].
    split; [reflexivity|].
    split; [rewrite orchestrator_done_committed;
            now apply orchestrator_done_messages|].
    split; [reflexivity|]. split; [reflexivity|].
    split; [unfold outs, OrchestratorRun.out_rows; destruct reply; cbn; lia|].
    split.
    + intros out Hout. unfold outs, OrchestratorRun.out_rows in Hout.
      destruct reply as [t|]; [|destruct Hout].
      destruct Hout as [<-|[]].
      split; [reflexivity|]. split; [reflexivity|].
      exists t. split; [reflexivity|].
      exact (proj1 (reply_to_send_some (ServerJs.reply_text r) t) Hreply).
    + intros (t & Ht).
      apply (proj2 (reply_to_send_some (ServerJs.reply_text r) t)) in Ht.
      unfold outs, OrchestratorRun.out_rows.
      rewrite Hreply in Ht. injection Ht as ->. discriminate.
  - intros w d Hfresh cfg Hd inn out.
    eexists. eexists.
    split; [intros w1 Hcfg; rewrite <- Hd; now apply policy_decide_decided|].
    split; [exact (policy_webhook_done E calm req sender txt w d Hvalid Hd)|].
    cbn [status pg].
    split; [reflexivity|].
    split; [now apply policy_done_messages|].
    repeat split.
Qed.

(** C5.  When the database accepts every statement of a validated
    request and the handler answers 200, the [OUT] row it inserted and
    the [IN] row it updated both hold the outcome's need_followup, and in
    [resolved] its negation; this holds in both pipelines. *)
Theorem resolved_negates_need_followup :
  forall {RT : Runtime} (E : env) (req : payload) (sender txt : string),
    (forall o, fails E o = false) ->
    validated (now E) req sender txt ->
    let received := receivedAt (parseSmsProviderPayload (now E) req) in
    (forall (w : world ServerJs.config) (reply : option string),
        fresh (pg w) ->
        let r := OrchestratorRun.result E sender txt received (pg w) in
        ServerJs.reply_to_send (ServerJs.reply_text r) = Ok reply ->
        let inn := OrchestratorRun.in_done E sender txt received (pg w) in
        let outs := OrchestratorRun.out_rows E sender txt received (pg w) reply in
        exists resp w',
          (forall w1,
              fst (ServerJs.runOrchestratorLLM E txt "UNKNOWN"
                     (OrchestratorRun.history_read sender txt received (pg w))
                     (OrchestratorRun.knowledge_read sender txt received (pg w)) w1)
              = Ok r)
          /\ ServerJs.webhook E req w = (Ok resp, w')
          /\ messages (committed (pg w'))
             = (outs ++ inn :: messages (visible (pg w)))%list
          /\ m_need_followup inn = Some (ServerJs.need_followup r)
          /\ m_resolved inn = Some (negb (ServerJs.need_followup r))
          /\ (forall out, In out outs ->
                m_need_followup out = Some (ServerJs.need_followup r)
                /\ m_resolved out = Some (negb (ServerJs.need_followup r))))
    /\ (forall (w : world PolicyServer.config) (d : PolicyServer.decision),
          fresh (pg w) ->
          let cfg := PolicyRun.config_used E w in
          PolicyRun.decided E txt received cfg = Ok d ->
          let inn := PolicyRun.in_done E sender txt received cfg d (pg w) in
          let out := PolicyRun.out_done E sender txt cfg d (pg w) in
          exists resp w',
            (forall w1,
                cachedConfig w1 = cfg ->
                fst (PolicyServer.decide E txt "UNKNOWN"
                       (PolicyRun.classified E txt cfg)
                       (PolicyRun.should_defer E txt received cfg) w1)
                = Ok d)
            /\ PolicyServer.webhook E req w = (Ok resp, w')
            /\ messages (visible (pg w')) = out :: inn :: messages (visible (pg w))
            /\ m_need_followup inn = Some (PolicyServer.needFollowup d)
            /\ m_resolved inn = Some (negb (PolicyServer.needFollowup d))
            /\ m_need_followup out = Some (PolicyServer.needFollowup d)
            /\ m_resolved out = Some (negb (PolicyServer.needFollowup d))).
Proof.
  intros RT E req sender txt calm Hvalid received. split.
  - intros w reply Hfresh r Hreply inn outs.
    eexists. eexists.
    split; [intros w1; now rewrite runOrchestratorLLM_run|].
    split; [exact (server_webhook_calm E req sender txt w reply calm Hvalid Hreply)|].
    cbn [pg].
    split; [rewrite orchestrator_done_committed;
            now apply orchestrator_done_messages|].
    split; [cbn; now rewrite negb_involutive|].
    split; [reflexivity|].
    intros out Hout. unfold outs, OrchestratorRun.out_rows in Hout.
    destruct reply as [t|]; [|destruct Hout].
    destruct Hout as [<-|[]].
    split; [cbn; now rewrite negb_involutive|reflexivity].
  - intros w d Hfresh cfg Hd inn out.
    eexists. eexists.
    split; [intros w1 Hcfg; rewrite <- Hd; now apply policy_decide_decided|].
    split; [exact (policy_webhook_done E calm req sender txt w d Hvalid Hd)|].
    cbn [pg].
    split; [now apply policy_done_messages|].
    repeat split.
Qed.

(* ===================================================================== *)
(** ** The policy: complaint, night deferral, normal reply *)
(* ===================================================================== *)

(** C2.  In the policy pipeline, when the database accepts every
    statement of a validated request whose classification has
    is_complaint true, the handler answers 200 with need_followup true,
    whatever the time and the intent are: the [OUT] row holds the
    complaint template of the configuration in force and need_followup
    true, the [IN] row is marked need_followup true, the text sent is
    that template and one PENDING follow-up entry of reason COMPLAINT
    points to the [IN] row. *)
Theorem complaint_mode_wins :
  forall {RT : Runtime} (E : env) (req : payload) (sender txt : string)
         (w : world PolicyServer.config),
    (forall o, fails E o = false) ->
    validated (now E) req sender txt ->
    fresh (pg w) ->
    let received := receivedAt (parseSmsProviderPayload (now E) req) in
    let cfg := PolicyRun.config_used E w in
    let c := PolicyRun.classified E txt cfg in
    let id := messages_id_seq (pg w) in
    PolicyServer.is_complaint c = true ->
    exists w' out inn,
      fst (PolicyServer.classifyIntent E txt "UNKNOWN"
             (set_pg (PolicyRun.s_in sender txt received (pg w)) w)) = Ok c
      /\ PolicyServer.webhook E req w
         = (Ok {| status := 200;
                  body := PolicyOk id (id + 1) (PolicyServer.intent c) "UNKNOWN"
                            (isNightTime received) true |}, w')
      /\ messages (visible (pg w')) = out :: inn :: messages (visible (pg w))
      /\ m_direction out = "OUT"
      /\ m_text out = PolicyServer.complaintReply cfg
      /\ m_need_followup out = Some true
      /\ m_reply_to_id out = Some id
      /\ m_direction inn = "IN"
      /\ m_id inn = id
      /\ m_need_followup inn = Some true
      /\ followup_queue (visible (pg w'))
         = {| f_message_id := id; f_status := "PENDING";
              f_reason := Some "COMPLAINT" |} :: followup_queue (visible (pg w))
      /\ outbox w'
         = {| sms_to := sender; sms_text := PolicyServer.complaintReply cfg |}
             :: outbox w
      /\ cachedConfig w' = cfg
      /\ (PolicyServer.lastLoadedAt (cachedConfig w) = None ->
          PolicyServer.complaintReply cfg
          = Some (PolicyServer.setting_or "complaint_reply"
                    (bot_settings (visible (pg w)))
                    PolicyServer.DEFAULT_COMPLAINT_REPLY)).
Proof.
  intros RT E req sender txt w calm Hvalid Hfresh received cfg c id Hcomplaint.
  assert (PolicyRun.decided E txt received cfg
          = Ok {| PolicyServer.replyText := PolicyServer.complaintReply cfg;
                  PolicyServer.needFollowup := true;
                  PolicyServer.followupReason := Some "COMPLAINT" |}) as Hd.
  { unfold PolicyRun.decided, PolicyServer.isComplaint. fold c.
    now rewrite Hcomplaint. }
  eexists. eexists. eexists.
  split; [now rewrite policy_classifyIntent_calm|].
  split; [exact (policy_webhook_done E calm req sender txt w _ Hvalid Hd)|].
  cbn [pg outbox cachedConfig].
  split; [now apply policy_done_messages|].
  rewrite policy_done_followups.
  repeat (split; [reflexivity|]).
  intros Hnone. unfold cfg, PolicyRun.config_used. now rewrite Hnone.
Qed.

(* ===================================================================== *)
(** ** Validation *)
(* ===================================================================== *)

Lemma validated_or_rejected {RT : Runtime} (current : date) (req : payload) :
  rejected current req \/ exists sender txt, validated current req sender txt.
Proof.
  unfold rejected, validated.
  destruct (from (parseSmsProviderPayload current req)) as [f|]; [|left; now left].
  destruct (text (parseSmsProviderPayload current req)) as [t|]; [|left; now right].
  cbn [nonempty].
  destruct (String.eqb_spec f ""); [left; now left|].
  destruct (String.eqb_spec t ""); [left; now right|].
  right. exists f, t. auto.
Qed.

Lemma server_webhook_rejected_any {RT : Runtime} (E : env) (req : payload)
    (w : world ServerJs.config) :
  rejected (now E) req ->
  ServerJs.webhook E req w
  = (if fails E POOL_CONNECT then Throw (DbError POOL_CONNECT)
     else Ok {| status := 400; body := ErrorBody "from, text is required" |}, w).
Proof.
  intros Hrejected. unfold ServerJs.webhook.
  destruct (fails E POOL_CONNECT) eqn:Hconnect.
  { erewrite bind_throw by (apply connect_rejected; exact Hconnect). reflexivity. }
  erewrite bind_ok by (apply connect_ok; exact Hconnect). cbv beta.
  rewrite finally_release. unfold try_catch.
  destruct Hrejected as [H|H]; rewrite H; cbn [negb orb];
    rewrite ?orb_true_r;
    destruct (from (parseSmsProviderPayload (now E) req)) as [f|];
    destruct (text (parseSmsProviderPayload (now E) req)) as [t|];
    reflexivity.
Qed.

Lemma policy_webhook_rejected_any {RT : Runtime} (E : env) (req : payload)
    (w : world PolicyServer.config) :
  rejected (now E) req ->
  PolicyServer.webhook E req w
  = (if fails E POOL_CONNECT then Throw (DbError POOL_CONNECT)
     else Ok {| status := 400; body := ErrorBody "from, text is required" |}, w).
Proof.
  intros Hrejected. unfold PolicyServer.webhook.
  destruct (fails E POOL_CONNECT) eqn:Hconnect.
  { erewrite bind_throw by (apply connect_rejected; exact Hconnect). reflexivity. }
  erewrite bind_ok by (apply connect_ok; exact Hconnect). cbv beta.
  rewrite finally_release. unfold try_catch.
  destruct Hrejected as [H|H]; rewrite H; cbn [negb orb];
    rewrite ?orb_true_r;
    destruct (from (parseSmsProviderPayload (now E) req)) as [f|];
    destruct (text (parseSmsProviderPayload (now E) req)) as [t|];
    reflexivity.
Qed.

Lemma server_webhook_rejected {RT : Runtime} (E : env) (req : payload)
    (w : world ServerJs.config) :
  rejected (now E) req ->
  fails E POOL_CONNECT = false ->
  ServerJs.webhook E req w
  = (Ok {| status := 400; body := ErrorBody "from, text is required" |}, w).
Proof.
  intros Hrejected Hconnect.
  now rewrite server_webhook_rejected_any, Hconnect.
Qed.

Lemma policy_webhook_rejected {RT : Runtime} (E : env) (req : payload)
    (w : world PolicyServer.config) :
  rejected (now E) req ->
  fails E POOL_CONNECT = false ->
  PolicyServer.webhook E req w
  = (Ok {| status := 400; body := ErrorBody "from, text is required" |}, w).
Proof.
  intros Hrejected Hconnect.
  now rewrite policy_webhook_rejected_any, Hconnect.
Qed.

(** C8 (as amended).  Both handlers take a client from the pool before
    they look at the request.  For a request whose sender or text is
    empty after extraction: when the pool hands out a client, the
    answer is 400 with the error ["from, text is required"]; when it
    does not, the handler throws the pool's error and answers nothing.
    Either way the world is left exactly as it was: no row, no SMS, no
    call to the model.  For every request, a receivedAt that is absent
    or empty is replaced by the current time. *)
Theorem empty_sender_or_text_is_rejected :
  forall {RT : Runtime} (E : env) (req : payload),
    (rejected (now E) req ->
     (forall w : world ServerJs.config,
         ServerJs.webhook E req w
         = (if fails E POOL_CONNECT then Throw (DbError POOL_CONNECT)
            else Ok {| status := 400; body := ErrorBody "from, text is required" |},
            w))
     /\ (forall w : world PolicyServer.config,
            PolicyServer.webhook E req w
            = (if fails E POOL_CONNECT then Throw (DbError POOL_CONNECT)
               else Ok {| status := 400; body := ErrorBody "from, text is required" |},
               w)))
    /\ (nonempty (p_receivedAt req) = false ->
        receivedAt (parseSmsProviderPayload (now E) req) = now E).
Proof.
  intros RT E req. split.
  - intros Hrejected. split; intros w.
    + now apply server_webhook_rejected_any.
    + now apply policy_webhook_rejected_any.
  - intros Habsent. unfold parseSmsProviderPayload. cbn [receivedAt].
    now rewrite Habsent.
Qed.

(* ===================================================================== *)
(** ** The configuration snapshot *)
(* ===================================================================== *)

Ltac run_step :=
  first
    [ rewrite finally_release
    | erewrite bind_ok
        by (first [ apply connect_ok; eassumption | apply query_ok; eassumption ])
    | erewrite bind_throw
        by (first [ apply connect_rejected; eassumption
                  | apply query_rejected; eassumption ]) ];
  tidy.



(* ===================================================================== *)
(** ** The transaction of the orchestrator pipeline *)
(* ===================================================================== *)

Ltac fork E :=
  rewrite ?bind_assoc;
  lazymatch goal with
  | |- context [bind (query E ?o ?run) ?k ?w] =>
      let H := fresh "Hop" in
      destruct (fails E o) eqn:H;
      [ erewrite bind_throw by (apply query_rejected; exact H)
      | erewrite bind_ok by (apply query_ok; exact H) ];
      tidy
  end.

Section OrchestratorTransaction.
Context {RT : Runtime} (E : env).

Let W := world ServerJs.config.

(** The body of the [try]: it either commits and answers 200, having
    had every statement it sent accepted and leaving the session as a
    run without failure does, or throws inside the transaction, with the
    committed tables untouched. *)
Lemma server_handle_outcomes (sender txt : string) (received : date) (w : W) :
  match ServerJs.handle E sender txt received w with
  | (Ok resp, w') =>
      status resp = 200
      /\ snapshot (pg w') = None
      /\ (exists reply,
            ServerJs.reply_to_send
              (ServerJs.reply_text
                 (OrchestratorRun.result E sender txt received (pg w))) = Ok reply
            /\ pg w' = OrchestratorRun.s_done E sender txt received (pg w) reply)
      /\ fails E BEGIN = false /\ fails E INSERT_IN = false
      /\ fails E SELECT_HISTORY = false /\ fails E SELECT_KNOWLEDGE_RAG = false
      /\ fails E UPDATE_IN = false /\ fails E COMMIT = false
  | (Throw _, w') => committed (pg w') = committed (pg w)
  end.
Proof.
  unfold ServerJs.handle, ServerJs.retrieveKnowledgeForRAG, getGuestState, sendSms.
  fork E; [reflexivity|].
  fork E; [reflexivity|].
  erewrite bind_ok by reflexivity; tidy.
  fork E; [reflexivity|].
  fork E; [reflexivity|].
  erewrite bind_ok by apply runOrchestratorLLM_run. tidy.
  change (orchestrated _) with (OrchestratorRun.result E sender txt received (pg w)).
  set (r := OrchestratorRun.result E sender txt received (pg w)).
  unfold lift at 1.
  destruct (ServerJs.reply_to_send (ServerJs.reply_text r)) as [[t|]|e] eqn:Hreply.
  - erewrite bind_ok by reflexivity; tidy.
    rewrite ?bind_assoc. erewrite bind_ok by reflexivity; tidy.
    fork E; [reflexivity|].
    erewrite bind_ok by reflexivity; tidy.
    destruct (ServerJs.need_followup r) eqn:Hneed.
    + fork E; [reflexivity|]. fork E; [reflexivity|]. fork E; [reflexivity|].
      cbn [ret status body pg snapshot sql_commit snd].
      split; [reflexivity|]. split; [reflexivity|].
      split; [|auto 10].
      exists (Some t). split; [reflexivity|].
      unfold OrchestratorRun.s_done, OrchestratorRun.s_followup. fold r.
      rewrite Hneed. reflexivity.
    + erewrite bind_ok by reflexivity; tidy.
      fork E; [reflexivity|]. fork E; [reflexivity|].
      cbn [ret status body pg snapshot sql_commit snd].
      split; [reflexivity|]. split; [reflexivity|].
      split; [|auto 10].
      exists (Some t). split; [reflexivity|].
      unfold OrchestratorRun.s_done, OrchestratorRun.s_followup. fold r.
      rewrite Hneed. reflexivity.
  - erewrite bind_ok by reflexivity; tidy.
    erewrite bind_ok by reflexivity; tidy.
    destruct (ServerJs.need_followup r) eqn:Hneed.
    + fork E; [reflexivity|]. fork E; [reflexivity|]. fork E; [reflexivity|].
      cbn [ret status body pg snapshot sql_commit snd].
      split; [reflexivity|]. split; [reflexivity|].
      split; [|auto 10].
      exists None. split; [reflexivity|].
      unfold OrchestratorRun.s_done, OrchestratorRun.s_followup. fold r.
      rewrite Hneed. reflexivity.
    + erewrite bind_ok by reflexivity; tidy.
      fork E; [reflexivity|]. fork E; [reflexivity|].
      cbn [ret status body pg snapshot sql_commit snd].
      split; [reflexivity|]. split; [reflexivity|].
      split; [|auto 10].
      exists None. split; [reflexivity|].
      unfold OrchestratorRun.s_done, OrchestratorRun.s_followup. fold r.
      rewrite Hneed. reflexivity.
  - erewrite bind_throw by reflexivity. reflexivity.
Qed.

End OrchestratorTransaction.

(** X1.  The orchestrator pipeline handles a request as one transaction.
    Given a client, the handler ends in one of four ways: it answers 200,
    the transaction is committed, the session is as a run without
    failure leaves it and every statement it sent was accepted; it
    answers 400 and the world is as it was; it answers 500
    with the error ["internal_server_error"] and the committed tables
    are those from before the request; or the [ROLLBACK] itself is
    rejected, no response is sent, and the committed tables are still
    those from before the request. *)
Theorem orchestrator_webhook_is_atomic :
  forall {RT : Runtime} (E : env) (req : payload) (w : world ServerJs.config),
    fails E POOL_CONNECT = false ->
    exists r w',
      ServerJs.webhook E req w = (r, w')
      /\ ((exists resp sender txt reply,
             r = Ok resp /\ status resp = 200 /\ snapshot (pg w') = None
             /\ validated (now E) req sender txt
             /\ ServerJs.reply_to_send
                  (ServerJs.reply_text
                     (OrchestratorRun.result E sender txt
                        (receivedAt (parseSmsProviderPayload (now E) req)) (pg w)))
                = Ok reply
             /\ pg w' = OrchestratorRun.s_done E sender txt
                          (receivedAt (parseSmsProviderPayload (now E) req))
                          (pg w) reply
             /\ fails E BEGIN = false /\ fails E INSERT_IN = false
             /\ fails E SELECT_HISTORY = false /\ fails E SELECT_KNOWLEDGE_RAG = false
             /\ fails E UPDATE_IN = false /\ fails E COMMIT = false)
          \/ (r = Ok {| status := 400; body := ErrorBody "from, text is required" |}
              /\ w' = w /\ rejected (now E) req)
          \/ (r = Ok {| status := 500; body := ErrorBody "internal_server_error" |}
              /\ committed (pg w') = committed (pg w)
              /\ snapshot (pg w') = None
              /\ fails E ROLLBACK = false)
          \/ (r = Throw (DbError ROLLBACK)
              /\ committed (pg w') = committed (pg w)
              /\ fails E ROLLBACK = true)).
Proof.
  intros RT E req w Hconnect.
  destruct (validated_or_rejected (now E) req) as [Hrejected|(sender & txt & Hvalid)].
  { eexists. eexists.
    split; [now apply server_webhook_rejected|]. right. left. auto. }
  pose proof (server_handle_outcomes E sender txt
                (receivedAt (parseSmsProviderPayload (now E) req)) w) as Hbody.
  rewrite (server_webhook_validated E req sender txt w Hconnect Hvalid).
  destruct (ServerJs.handle E sender txt _ w) as [[resp|e] w1].
  - eexists. eexists. split; [reflexivity|]. left.
    destruct Hbody as (Hstatus & Hsnap & (reply & Hreply & Hdone) & Haccepted).
    exists resp, sender, txt, reply. tauto.
  - destruct (fails E ROLLBACK) eqn:Hrollback.
    + erewrite bind_throw by (apply query_rejected; exact Hrollback).
      eexists. eexists. split; [reflexivity|]. right. right. right. auto.
    + erewrite bind_ok by (apply query_ok; exact Hrollback). tidy.
      eexists. eexists. split; [reflexivity|]. right. right. left.
      cbn. rewrite Hbody. auto.
Qed.

(* ===================================================================== *)
(** ** The call to the model *)
(* ===================================================================== *)

Section OrchestratorCalls.
Context {RT : Runtime} (E : env).



End OrchestratorCalls.


(* ===================================================================== *)
(** ** The follow-up queue *)
(* ===================================================================== *)

(** X2.  When the database accepts every statement of a validated request
    and the handler answers 200, the follow-up queue gains one PENDING entry
    that points to the [IN] row exactly when the outcome needs a
    follow-up, and no entry otherwise; the [IN] row holds that same
    need_followup.  The reason is LLM_FLAGGED in the orchestrator
    pipeline and the decided reason in the policy pipeline. *)
Theorem followup_entry_iff_need_followup :
  forall {RT : Runtime} (E : env) (req : payload) (sender txt : string),
    (forall o, fails E o = false) ->
    validated (now E) req sender txt ->
    let received := receivedAt (parseSmsProviderPayload (now E) req) in
    (forall (w : world ServerJs.config) (reply : option string),
        fresh (pg w) ->
        let r := OrchestratorRun.result E sender txt received (pg w) in
        ServerJs.reply_to_send (ServerJs.reply_text r) = Ok reply ->
        exists resp w' inn,
          (forall w1,
              fst (ServerJs.runOrchestratorLLM E txt "UNKNOWN"
                     (OrchestratorRun.history_read sender txt received (pg w))
                     (OrchestratorRun.knowledge_read sender txt received (pg w)) w1)
              = Ok r)
          /\ ServerJs.webhook E req w = (Ok resp, w')
          /\ followup_queue (committed (pg w'))
             = ((if ServerJs.need_followup r
                 then [{| f_message_id := messages_id_seq (pg w);
                          f_status := "PENDING";
                          f_reason := Some "LLM_FLAGGED" |}]
                 else [])
                ++ followup_queue (visible (pg w)))%list
          /\ In inn (messages (committed (pg w')))
          /\ m_id inn = messages_id_seq (pg w)
          /\ m_direction inn = "IN"
          /\ m_need_followup inn = Some (ServerJs.need_followup r))
    /\ (forall (w : world PolicyServer.config) (d : PolicyServer.decision),
          fresh (pg w) ->
          let cfg := PolicyRun.config_used E w in
          PolicyRun.decided E txt received cfg = Ok d ->
          exists resp w' inn,
            (forall w1,
                cachedConfig w1 = cfg ->
                fst (PolicyServer.decide E txt "UNKNOWN"
                       (PolicyRun.classified E txt cfg)
                       (PolicyRun.should_defer E txt received cfg) w1)
                = Ok d)
            /\ PolicyServer.webhook E req w = (Ok resp, w')
            /\ followup_queue (visible (pg w'))
               = ((if PolicyServer.needFollowup d
                   then [{| f_message_id := messages_id_seq (pg w);
                            f_status := "PENDING";
                            f_reason := PolicyServer.followupReason d |}]
                   else [])
                  ++ followup_queue (visible (pg w)))%list
            /\ In inn (messages (visible (pg w')))
            /\ m_id inn = messages_id_seq (pg w)
            /\ m_direction inn = "IN"
            /\ m_need_followup inn = Some (PolicyServer.needFollowup d)).
Proof.
  intros RT E req sender txt calm Hvalid received. split.
  - intros w reply Hfresh r Hreply.
    exists {| status := 200;
              body := OrchestratorOk (messages_id_seq (pg w))
                        (OrchestratorRun.outgoing_id sender txt received (pg w) reply)
                        (ServerJs.intent r) (ServerJs.flow_type r)
                        (ServerJs.end_flow r) |}.
    eexists. exists (OrchestratorRun.in_done E sender txt received (pg w)).
    split; [intros w1; now rewrite runOrchestratorLLM_run|].
    split; [exact (server_webhook_calm E req sender txt w reply calm Hvalid Hreply)|].
    cbn [pg].
    rewrite orchestrator_done_committed, orchestrator_done_followups,
      (orchestrator_done_messages E sender txt received (pg w) reply Hfresh).
    split; [reflexivity|].
    split; [apply in_or_app; right; now left|].
    split; [reflexivity|]. split; [reflexivity|].
    cbn. now rewrite negb_involutive.
  - intros w d Hfresh cfg Hd.
    eexists. eexists.
    exists (PolicyRun.in_done E sender txt received cfg d (pg w)).
    split; [intros w1 Hcfg; rewrite <- Hd; now apply policy_decide_decided|].
    split; [exact (policy_webhook_done E calm req sender txt w d Hvalid Hd)|].
    cbn [pg].
    rewrite policy_done_followups,
      (policy_done_messages E sender txt received cfg d (pg w) Hfresh).
    split; [reflexivity|].
    split; [right; now left|].
    repeat split.
Qed.

(* ===================================================================== *)
(** ** Runs on sample data *)
(* ===================================================================== *)

Lemma sample_calm (answer : completion) (current : Z) :
  forall o, fails (Sample.calm answer current) o = false.
Proof. reflexivity. Qed.

Lemma sample_validated {RT : Runtime} (E : env) :
  validated (now E) (Sample.request Sample.guest "hi") Sample.guest "hi".
Proof. unfold validated. repeat split; discriminate. Qed.

Lemma sample_fresh {C : Type} (cfg : C) (st : store) :
  messages st = [] -> fresh (pg (Sample.start cfg st)).
Proof. intros Hempty m Hm. cbn in Hm. rewrite Hempty in Hm. destruct Hm. Qed.

(** C4, the claim as stated fails: the model answers
    [{"reply_text":5,"flow_type":7}]; both fields are invalid and both
    are passed through, [reply_text] as the number 5 and [flow_type] as
    the number 7, where the claim has them coerced to the empty text and
    to [null]. *)
Lemma runOrchestratorLLM_passes_invalid_fields_through :
  exists r w',
    ServerJs.runOrchestratorLLM (RT := Sample.runtime)
      (Sample.calm (Content (Some Sample.raw_numbers)) 0)
      "hi" "UNKNOWN" [] []
      (Sample.start ServerJs.initialConfig Sample.empty_store)
    = (Ok r, w')
    /\ ServerJs.reply_text r = VNum 5
    /\ ServerJs.flow_type r = VNum 7
    /\ ServerJs.reply_text r <> VStr ""
    /\ ServerJs.flow_type r <> VNull.
Proof.
  eexists. eexists. split; [apply runOrchestratorLLM_run|].
  repeat split; try reflexivity; discriminate.
Qed.

(** C7, the claim as stated fails.  In the policy pipeline, with a
    complaint template that is one blank, a complaint is answered 200 and
    an [OUT] row is inserted whose text is empty once trimmed.  In the
    orchestrator pipeline, when the insert of the [IN] row is rejected,
    a validated request is answered 500 and no row is inserted. *)
Lemma policy_pipeline_records_a_blank_reply :
  (exists resp w' out inn,
     PolicyServer.webhook (RT := Sample.runtime)
       (Sample.calm (Content (Some Sample.raw_complaint)) 0)
       (Sample.request Sample.guest "hi")
       (started (RT := Sample.runtime)
          (Sample.calm (Content (Some Sample.raw_complaint)) 0)
          Sample.blank_template_store)
     = (Ok resp, w')
     /\ status resp = 200
     /\ messages (visible (pg w')) = [out; inn]
     /\ m_direction out = "OUT"
     /\ m_text out = Some " "
     /\ trim (Runtime := Sample.runtime) " " = "")
  /\ (exists w',
        ServerJs.webhook (RT := Sample.runtime)
          (Sample.failing Sample.in_rejected (Content (Some Sample.raw_followup)) 0)
          (Sample.request Sample.guest "hi")
          (Sample.start ServerJs.initialConfig Sample.empty_store)
        = (Ok {| status := 500; body := ErrorBody "internal_server_error" |}, w')
        /\ messages (committed (pg w')) = []
        /\ messages (visible (pg w')) = []).
Proof.
  split.
  - do 4 eexists.
    split; [vm_compute; reflexivity|].
    repeat split.
  - eexists.
    split; [vm_compute; reflexivity|].
    split; reflexivity.
Qed.

(** C1, the policy pipeline at a failing input: the insert of the [OUT]
    row is rejected; the handler answers 500, yet the [IN] row it
    inserted stays committed and the reply has been handed to [sendSms]. *)
Theorem policy_webhook_keeps_the_in_row_of_a_failed_request :
  exists w',
    PolicyServer.webhook (RT := Sample.runtime)
      (Sample.failing Sample.out_rejected (Content (Some Sample.raw_checkin)) 0)
      (Sample.request Sample.guest "hi")
      (started (RT := Sample.runtime)
         (Sample.failing Sample.out_rejected (Content (Some Sample.raw_checkin)) 0)
         Sample.empty_store)
    = (Ok {| status := 500; body := ErrorBody "internal_server_error" |}, w')
    /\ messages (committed (pg w'))
       = [PolicyServer.in_row Sample.guest "hi" (Epoch 0) 1]
    /\ followup_queue (committed (pg w')) = []
    /\ outbox w' = [{| sms_to := Sample.guest; sms_text := Some FALLBACK_TEXT |}].
Proof.
  eexists.
  split; [vm_compute; reflexivity|].
  repeat split.
Qed.

(** C6, the policy pipeline at a failing input: a complaint is decided,
    the follow-up entry is inserted, then the update of the [IN] row is
    rejected; the handler answers 500, the entry stays committed and the
    [IN] row it points to was never marked. *)
Theorem policy_webhook_keeps_a_followup_of_an_unmarked_message :
  exists w' out inn,
    PolicyServer.webhook (RT := Sample.runtime)
      (Sample.failing Sample.update_rejected (Content (Some Sample.raw_complaint)) 0)
      (Sample.request Sample.guest "hi")
      (started (RT := Sample.runtime)
         (Sample.failing Sample.update_rejected (Content (Some Sample.raw_complaint)) 0)
         Sample.empty_store)
    = (Ok {| status := 500; body := ErrorBody "internal_server_error" |}, w')
    /\ followup_queue (committed (pg w'))
       = [{| f_message_id := 1; f_status := "PENDING";
             f_reason := Some "COMPLAINT" |}]
    /\ messages (committed (pg w')) = [out; inn]
    /\ m_id inn = 1
    /\ m_direction inn = "IN"
    /\ m_need_followup inn = None
    /\ m_resolved inn = None.
Proof.
  do 3 eexists.
  split; [vm_compute; reflexivity|].
  repeat split.
Qed.

(** C3, the policy pipeline at a failing input.  A question is received
    at 2024-03-09T17:30:00Z and classified CHECKIN, an action intent.
    In Seoul it is 02:30, half an hour before the window opens, and the
    text [isNightTime] renders says so.  On a server whose zone is UTC
    the text is read back as 02:30: [isNightTime] answers false and the
    normal branch replies.  On a server in America/New_York, where that
    night has no 02:30, the same text is read back as 03:30:
    [isNightTime] answers true and the request is deferred, with the
    night template and a NIGHT_ACTION follow-up. *)
Theorem night_deferral_depends_on_the_zone_of_the_server :
  toLocaleString_Seoul (RT := Sample.runtime) (Epoch Sample.half_past_two)
  = "3/10/2024, 2:30:00 AM"
  /\ toLocaleString_Seoul (RT := Sample.new_york) (Epoch Sample.half_past_two)
     = "3/10/2024, 2:30:00 AM"
  /\ isNightTime (RT := Sample.runtime) (Epoch Sample.half_past_two) = false
  /\ isNightTime (RT := Sample.new_york) (Epoch Sample.half_past_two) = true
  /\ (exists w' out inn,
        PolicyServer.webhook (RT := Sample.runtime)
          (Sample.calm (Content (Some Sample.raw_checkin)) Sample.half_past_two)
          (Sample.request Sample.guest "hi")
          (started (RT := Sample.runtime)
             (Sample.calm (Content (Some Sample.raw_checkin)) Sample.half_past_two)
             Sample.checkin_store)
        = (Ok {| status := 200;
                 body := PolicyOk 1 2 (VStr "CHECKIN") "UNKNOWN" false false |}, w')
        /\ messages (visible (pg w')) = [out; inn]
        /\ m_text out = Some FALLBACK_TEXT
        /\ followup_queue (visible (pg w')) = [])
  /\ (exists w' out inn,
        PolicyServer.webhook (RT := Sample.new_york)
          (Sample.calm (Content (Some Sample.raw_checkin)) Sample.half_past_two)
          (Sample.request Sample.guest "hi")
          (started (RT := Sample.new_york)
             (Sample.calm (Content (Some Sample.raw_checkin)) Sample.half_past_two)
             Sample.checkin_store)
        = (Ok {| status := 200;
                 body := PolicyOk 1 2 (VStr "CHECKIN") "UNKNOWN" true true |}, w')
        /\ messages (visible (pg w')) = [out; inn]
        /\ m_text out = Some PolicyServer.DEFAULT_NIGHT_DEFER_REPLY
        /\ followup_queue (visible (pg w'))
           = [{| f_message_id := 1; f_status := "PENDING";
                 f_reason := Some "NIGHT_ACTION" |}]).
Proof.
  split; [reflexivity|]. split; [reflexivity|].
  split; [reflexivity|]. split; [reflexivity|].
  split.
  - do 3 eexists. split; [vm_compute; reflexivity|]. repeat split.
  - do 3 eexists. split; [vm_compute; reflexivity|]. repeat split.
Qed.




(** A first message answered "ok": two rows, the reply and the message. *)
Lemma one_in_row_and_its_reply_witness :
  exists resp w',
    ServerJs.webhook (RT := Sample.runtime)
      (Sample.calm (Content (Some Sample.raw_followup)) 0)
      (Sample.request Sample.guest "hi")
      (Sample.start ServerJs.initialConfig Sample.empty_store)
    = (Ok resp, w')
    /\ status resp = 200
    /\ length (messages (committed (pg w'))) = 2%nat.
Proof.
  destruct
    (proj1 (one_in_row_and_its_reply (RT := Sample.runtime)
              (Sample.calm (Content (Some Sample.raw_followup)) 0)
              (Sample.request Sample.guest "hi") Sample.guest "hi"
              (sample_calm _ _) (sample_validated _))
       (Sample.start ServerJs.initialConfig Sample.empty_store) (Some "ok")
       (sample_fresh ServerJs.initialConfig Sample.empty_store eq_refl) eq_refl)
    as (resp & w' & _ & Hrun & Hstatus & Hrows & _).
  exists resp, w'. split; [exact Hrun|]. split; [exact Hstatus|].
  rewrite Hrows. reflexivity.
Defined.

(** The same exchange: the model asked for a follow-up, so the [IN] row
    is marked need_followup and not resolved. *)
Lemma resolved_negates_need_followup_witness :
  exists resp w' out inn,
    ServerJs.webhook (RT := Sample.runtime)
      (Sample.calm (Content (Some Sample.raw_followup)) 0)
      (Sample.request Sample.guest "hi")
      (Sample.start ServerJs.initialConfig Sample.empty_store)
    = (Ok resp, w')
    /\ messages (committed (pg w')) = [out; inn]
    /\ m_need_followup inn = Some true
    /\ m_resolved inn = Some false.
Proof.
  destruct
    (proj1 (resolved_negates_need_followup (RT := Sample.runtime)
              (Sample.calm (Content (Some Sample.raw_followup)) 0)
              (Sample.request Sample.guest "hi") Sample.guest "hi"
              (sample_calm _ _) (sample_validated _))
       (Sample.start ServerJs.initialConfig Sample.empty_store) (Some "ok")
       (sample_fresh ServerJs.initialConfig Sample.empty_store eq_refl) eq_refl)
    as (resp & w' & _ & Hrun & Hrows & Hneed & Hresolved & _).
  exists resp, w'. eexists. eexists.
  split; [exact Hrun|]. split; [exact Hrows|].
  split; [exact Hneed|exact Hresolved].
Defined.

(** A complaint at 14:00 about an action intent gets the default
    complaint template. *)
Lemma complaint_mode_wins_witness :
  exists w' out inn,
    PolicyServer.webhook (RT := Sample.runtime)
      (Sample.calm (Content (Some Sample.raw_complaint)) Sample.two_in_the_afternoon)
      (Sample.request Sample.guest "hi")
      (started (RT := Sample.runtime)
         (Sample.calm (Content (Some Sample.raw_complaint)) Sample.two_in_the_afternoon)
         Sample.checkin_store)
    = (Ok {| status := 200;
             body := PolicyOk 1 2 (VStr "CHECKIN") "UNKNOWN" false true |}, w')
    /\ messages (visible (pg w')) = [out; inn]
    /\ m_text out = Some PolicyServer.DEFAULT_COMPLAINT_REPLY.
Proof.
  destruct
    (complaint_mode_wins (RT := Sample.runtime)
       (Sample.calm (Content (Some Sample.raw_complaint)) Sample.two_in_the_afternoon)
       (Sample.request Sample.guest "hi") Sample.guest "hi"
       (started (RT := Sample.runtime)
          (Sample.calm (Content (Some Sample.raw_complaint)) Sample.two_in_the_afternoon)
          Sample.checkin_store)
       (sample_calm _ _) (sample_validated _) (sample_fresh _ Sample.checkin_store eq_refl) eq_refl)
    as (w' & out & inn & _ & Hrun & Hrows & _ & Htext & _).
  exists w', out, inn.
  split; [exact Hrun|]. split; [exact Hrows|exact Htext].
Defined.

(** A payload without sender is answered 400 and changes nothing. *)
Lemma empty_sender_or_text_is_rejected_witness :
  ServerJs.webhook (RT := Sample.runtime)
    (Sample.calm ApiFailure 0) Sample.no_sender
    (Sample.start ServerJs.initialConfig Sample.empty_store)
  = (Ok {| status := 400; body := ErrorBody "from, text is required" |},
     Sample.start ServerJs.initialConfig Sample.empty_store)
  /\ receivedAt (parseSmsProviderPayload (RT := Sample.runtime)
                   (Epoch 0) Sample.no_sender)
     = Epoch 0.
Proof.
  split.
  - exact
      (proj1 (proj1 (empty_sender_or_text_is_rejected (RT := Sample.runtime)
                       (Sample.calm ApiFailure 0) Sample.no_sender)
                (or_introl eq_refl))
         (Sample.start ServerJs.initialConfig Sample.empty_store)).
  - exact
      (proj2 (empty_sender_or_text_is_rejected (RT := Sample.runtime)
                (Sample.calm ApiFailure 0) Sample.no_sender)
         eq_refl).
Defined.

(** C8, the claim as stated fails: the same payload, when the pool hands
    out no client.  The request has no sender, yet neither handler
    answers 400: both throw the error of [pool.connect()], which they
    call before they validate.  Nothing is changed. *)
Lemma request_without_sender_is_not_answered_when_the_pool_fails :
  rejected (RT := Sample.runtime) (Epoch 0) Sample.no_sender
  /\ ServerJs.webhook (RT := Sample.runtime)
       (Sample.failing Sample.pool_rejected ApiFailure 0) Sample.no_sender
       (Sample.start ServerJs.initialConfig Sample.empty_store)
     = (Throw (DbError POOL_CONNECT),
        Sample.start ServerJs.initialConfig Sample.empty_store)
  /\ PolicyServer.webhook (RT := Sample.runtime)
       (Sample.failing Sample.pool_rejected ApiFailure 0) Sample.no_sender
       (Sample.start PolicyServer.initialConfig Sample.empty_store)
     = (Throw (DbError POOL_CONNECT),
        Sample.start PolicyServer.initialConfig Sample.empty_store).
Proof.
  split; [left; reflexivity|].
  split; reflexivity.
Qed.


(** Whatever the insert of the [OUT] row does, the committed tables of
    the orchestrator pipeline change only when it answers 200. *)
Lemma orchestrator_webhook_is_atomic_witness :
  exists r w',
    ServerJs.webhook (RT := Sample.runtime)
      (Sample.failing Sample.out_rejected (Content (Some Sample.raw_followup)) 0)
      (Sample.request Sample.guest "hi")
      (Sample.start ServerJs.initialConfig Sample.empty_store)
    = (r, w')
    /\ ((exists resp, r = Ok resp /\ status resp = 200)
        \/ committed (pg w') = Sample.empty_store).
Proof.
  destruct
    (orchestrator_webhook_is_atomic (RT := Sample.runtime)
       (Sample.failing Sample.out_rejected (Content (Some Sample.raw_followup)) 0)
       (Sample.request Sample.guest "hi")
       (Sample.start ServerJs.initialConfig Sample.empty_store) eq_refl)
    as (r & w' & Hrun
        & [(resp & _ & _ & _ & Hr & Hstatus & _)
          |[(_ & Hsame & _)|[(_ & Hsame & _)|(_ & Hsame & _)]]]).
  - exists r, w'. split; [exact Hrun|]. left. exists resp. split; assumption.
  - exists r, w'. split; [exact Hrun|]. right. rewrite Hsame. reflexivity.
  - exists r, w'. split; [exact Hrun|]. right. exact Hsame.
  - exists r, w'. split; [exact Hrun|]. right. exact Hsame.
Defined.

(** A complaint in the policy pipeline: one COMPLAINT entry is queued. *)
Lemma followup_entry_iff_need_followup_witness :
  exists resp w' inn,
    PolicyServer.webhook (RT := Sample.runtime)
      (Sample.calm (Content (Some Sample.raw_complaint)) 0)
      (Sample.request Sample.guest "hi")
      (started (RT := Sample.runtime)
         (Sample.calm (Content (Some Sample.raw_complaint)) 0)
         Sample.empty_store)
    = (Ok resp, w')
    /\ followup_queue (visible (pg w'))
       = [{| f_message_id := 1; f_status := "PENDING";
             f_reason := Some "COMPLAINT" |}]
    /\ In inn (messages (visible (pg w')))
    /\ m_need_followup inn = Some true.
Proof.
  destruct
    (proj2 (followup_entry_iff_need_followup (RT := Sample.runtime)
              (Sample.calm (Content (Some Sample.raw_complaint)) 0)
              (Sample.request Sample.guest "hi") Sample.guest "hi"
              (sample_calm _ _) (sample_validated _))
       (started (RT := Sample.runtime)
          (Sample.calm (Content (Some Sample.raw_complaint)) 0)
          Sample.empty_store)
       {| PolicyServer.replyText := Some PolicyServer.DEFAULT_COMPLAINT_REPLY;
          PolicyServer.needFollowup := true;
          PolicyServer.followupReason := Some "COMPLAINT" |}
       (sample_fresh _ Sample.empty_store eq_refl) eq_refl)
    as (resp & w' & inn & _ & Hrun & Hqueue & Hin & _ & _ & Hneed).
  exists resp, w', inn.
  split; [exact Hrun|]. split; [exact Hqueue|]. split; [exact Hin|exact Hneed].
Defined.
(* ===================================================================== *)
(** ** The night window and the deferral *)
(* ===================================================================== *)

(** What [isNightTime] tests: the hour, in the zone of the server, of
    the date that [new Date] reads in the Seoul text of its argument. *)
Lemma isNightTime_spec {RT : Runtime} (d : date) :
  isNightTime d = true
  <-> exists kst,
        Date_parse (toLocaleString_Seoul d) = Some kst
        /\ 3 <= Date_getHours kst < 10.
Proof.
  unfold isNightTime, new_Date. cbv zeta.
  destruct (Date_parse (toLocaleString_Seoul d)) as [kst|]; cbn [getHours].
  - rewrite andb_true_iff, Z.leb_le, Z.ltb_lt. split.
    + intros H. now exists kst.
    + now intros (k & [= <-] & H).
  - split; [discriminate|]. now intros (k & [=] & _).
Qed.

(** X3.  [isNightTime] answers true exactly when [new Date] reads a date
    in the Seoul text of its argument and the hour of that date, in the
    zone of the server, is from 3 to 9; it answers false when the text
    is not read as a date.  In the policy pipeline, for a validated
    request that is no complaint and whose statements the database
    accepts, the deferral is chosen exactly when [isNightTime] answers
    true for the time received and the classified intent is one of the
    cached action-intent names.  Then the handler answers with the night
    template of the configuration, need_followup true and a PENDING
    follow-up entry of reason NIGHT_ACTION; otherwise the normal branch
    runs: the reply is what [generateReplyWithLLM] returns, need_followup
    is false and no follow-up entry is added. *)
Theorem night_deferral_follows_isNightTime_and_the_action_intents :
  forall {RT : Runtime} (E : env) (req : payload) (sender txt : string)
         (w : world PolicyServer.config),
    (forall o, fails E o = false) ->
    validated (now E) req sender txt ->
    fresh (pg w) ->
    let received := receivedAt (parseSmsProviderPayload (now E) req) in
    let cfg := PolicyRun.config_used E w in
    let c := PolicyRun.classified E txt cfg in
    let id := messages_id_seq (pg w) in
    PolicyServer.is_complaint c = false ->
    (isNightTime received = true
     <-> exists kst,
           Date_parse (toLocaleString_Seoul received) = Some kst
           /\ 3 <= Date_getHours kst < 10)
    /\ (Date_parse (toLocaleString_Seoul received) = None ->
        isNightTime received = false)
    /\ fst (PolicyServer.classifyIntent E txt "UNKNOWN"
              (set_pg (PolicyRun.s_in sender txt received (pg w)) w)) = Ok c
    /\ (PolicyRun.should_defer E txt received cfg = true
        <-> isNightTime received = true
            /\ PolicyServer.includes (PolicyServer.actionIntentNames cfg)
                 (PolicyServer.intent c) = true)
    /\ (PolicyRun.should_defer E txt received cfg = true ->
        exists w' out inn,
          PolicyServer.webhook E req w
          = (Ok {| status := 200;
                   body := PolicyOk id (id + 1) (PolicyServer.intent c) "UNKNOWN"
                             true true |}, w')
          /\ messages (visible (pg w')) = out :: inn :: messages (visible (pg w))
          /\ m_text out = PolicyServer.nightDeferReply cfg
          /\ m_need_followup out = Some true
          /\ m_need_followup inn = Some true
          /\ followup_queue (visible (pg w'))
             = {| f_message_id := id; f_status := "PENDING";
                  f_reason := Some "NIGHT_ACTION" |}
                 :: followup_queue (visible (pg w))
          /\ outbox w'
             = {| sms_to := sender;
                  sms_text := PolicyServer.nightDeferReply cfg |} :: outbox w)
    /\ (PolicyRun.should_defer E txt received cfg = false ->
        (forall knowledge (w1 : world PolicyServer.config),
            PolicyServer.generateReplyWithLLM E txt "UNKNOWN"
              (PolicyServer.intent c) knowledge w1
            = (PolicyRun.normal_reply E txt cfg, w1))
        /\ forall reply,
            PolicyRun.normal_reply E txt cfg = Ok reply ->
            exists w' out inn,
              PolicyServer.webhook E req w
              = (Ok {| status := 200;
                       body := PolicyOk id (id + 1) (PolicyServer.intent c)
                                 "UNKNOWN" (isNightTime received) false |}, w')
              /\ messages (visible (pg w'))
                 = out :: inn :: messages (visible (pg w))
              /\ m_text out = Some reply
              /\ m_need_followup out = Some false
              /\ m_need_followup inn = Some false
              /\ followup_queue (visible (pg w')) = followup_queue (visible (pg w))
              /\ outbox w'
                 = {| sms_to := sender; sms_text := Some reply |} :: outbox w).
Proof.
  intros RT E req sender txt w calm Hvalid Hfresh received cfg c id Hcomplaint.
  split; [apply isNightTime_spec|].
  split.
  { intros Hnone. unfold isNightTime, new_Date. cbv zeta. now rewrite Hnone. }
  split; [now rewrite policy_classifyIntent_calm|].
  split.
  { unfold PolicyRun.should_defer. fold c. now rewrite andb_true_iff. }
  split.
  - intros Hdefer.
    assert (isNightTime received = true) as Hnight.
    { unfold PolicyRun.should_defer in Hdefer.
      now apply andb_true_iff in Hdefer as [Hn _]. }
    assert (PolicyRun.decided E txt received cfg
            = Ok {| PolicyServer.replyText := PolicyServer.nightDeferReply cfg;
                    PolicyServer.needFollowup := true;
                    PolicyServer.followupReason := Some "NIGHT_ACTION" |}) as Hd.
    { unfold PolicyRun.decided, PolicyServer.isComplaint. fold c.
      now rewrite Hcomplaint, Hdefer. }
    eexists. eexists. eexists.
    split.
    { rewrite (policy_webhook_done E calm req sender txt w _ Hvalid Hd).
      fold received. rewrite Hnight. reflexivity. }
    cbn [pg outbox].
    split; [now apply policy_done_messages|].
    rewrite policy_done_followups.
    repeat split.
  - intros Hdefer. split.
    { intros knowledge w1. apply policy_generateReply_calm. }
    intros reply Hreply.
    assert (PolicyRun.decided E txt received cfg
            = Ok {| PolicyServer.replyText := Some reply;
                    PolicyServer.needFollowup := false;
                    PolicyServer.followupReason := None |}) as Hd.
    { unfold PolicyRun.decided, PolicyServer.isComplaint. fold c.
      now rewrite Hcomplaint, Hdefer, Hreply. }
    eexists. eexists. eexists.
    split; [exact (policy_webhook_done E calm req sender txt w _ Hvalid Hd)|].
    cbn [pg outbox].
    split; [now apply policy_done_messages|].
    rewrite policy_done_followups.
    repeat split.
Qed.

(* ===================================================================== *)
(** ** The payload *)
(* ===================================================================== *)

(** X4.  [parseSmsProviderPayload] takes the sender from the first
    non-empty of [from], [phone] and [sender], and the text from the
    first non-empty of [text] and [message]; the text is always a
    string.  A request is rejected exactly when the three sender fields
    or the two text fields are all missing or empty; [receivedAt] plays
    no part in it.  A validated sender and text are fields of the
    body. *)
Theorem payload_aliases_decide_validation :
  forall {RT : Runtime} (current : date) (body : payload),
    let p := parseSmsProviderPayload current body in
    from p = (if nonempty (p_from body) then p_from body
              else if nonempty (p_phone body) then p_phone body
              else p_sender body)
    /\ (exists t, text p = Some t)
    /\ text p = (if nonempty (p_text body) then p_text body
                 else if nonempty (p_message body) then p_message body
                 else Some "")
    /\ (rejected current body
        <-> (nonempty (p_from body) = false /\ nonempty (p_phone body) = false
             /\ nonempty (p_sender body) = false)
            \/ (nonempty (p_text body) = false /\ nonempty (p_message body) = false))
    /\ (forall sender txt,
          validated current body sender txt ->
          (p_from body = Some sender \/ p_phone body = Some sender
           \/ p_sender body = Some sender)
          /\ (p_text body = Some txt \/ p_message body = Some txt)).
Proof.
  intros RT current body p. unfold p, rejected, validated, parseSmsProviderPayload.
  cbn [from text]. unfold str_or.
  destruct (nonempty (p_from body)) eqn:Hf;
    destruct (nonempty (p_phone body)) eqn:Hp;
    destruct (nonempty (p_sender body)) eqn:Hs;
    destruct (nonempty (p_text body)) eqn:Ht;
    destruct (nonempty (p_message body)) eqn:Hm;
    rewrite ?Hf, ?Hp, ?Hs, ?Ht, ?Hm; cbn [nonempty String.eqb negb];
    (split; [reflexivity|]);
    (split; [first [ destruct (p_text body) as [t|]; [exists t; reflexivity|discriminate]
                   | destruct (p_message body) as [t|]; [exists t; reflexivity|discriminate]
                   | exists ""; reflexivity ]|]);
    (split; [reflexivity|]);
    (split; [split; [intros [H|H]; try discriminate; tauto
                    |intros [(H1 & H2 & H3)|(H1 & H2)]; try discriminate; tauto]|]);
    intros sender txt (H1 & H2 & H3 & H4);
    try (injection H2 as <-; now contradiction H4);
    try (rewrite H1 in Hs; cbn in Hs; apply negb_false_iff, String.eqb_eq in Hs;
         now contradiction H3);
    try (destruct (p_sender body); discriminate);
    tauto.
Qed.

(* ===================================================================== *)
(** ** The history query *)
(* ===================================================================== *)

(** X5.  The history the orchestrator handler reads is in chronological
    order, ascending by id; its rows are rows of the sender; it has ten
    rows, or all the sender's rows when there are fewer; and a row of
    the sender that is left out is no newer than any row kept.  Reading
    it changes nothing. *)
Theorem history_is_the_latest_rows_in_order :
  forall (sender : string) (s : session),
    let rows := rev (fst (sql_select_history sender s)) in
    StronglySorted (fun a b => m_id a <= m_id b) rows
    /\ (forall m, In m rows ->
          In m (messages (visible s)) /\ m_phone_number m = sender)
    /\ length rows = Nat.min 10 (length (rows_of sender (messages (visible s))))
    /\ (forall m, In m (messages (visible s)) -> m_phone_number m = sender ->
          In m rows \/ forall h, In h rows -> m_id m <= m_id h)
    /\ snd (sql_select_history sender s) = s
    /\ (forall txt received,
          OrchestratorRun.history_read sender txt received s
          = map ServerJs.to_turn
              (rev (fst (sql_select_history sender
                           (OrchestratorRun.s_in sender txt received s))))).
Proof.
  intros sender s rows. unfold rows. cbn [sql_select_history fst snd].
  fold (rows_of sender (messages (visible s))).
  set (mine := rows_of sender (messages (visible s))).
  pose proof (order_by_id_desc_sorted mine) as Hsorted.
  pose proof (order_by_id_desc_perm mine) as Hperm.
  rewrite <- (firstn_skipn 10 (order_by_id_desc mine)) in Hsorted.
  apply sorted_app_inv in Hsorted as [Hfirst Hrest].
  split; [|split; [|split; [|split; [|split]]]].
  - exact (sorted_rev _ _ Hfirst).
  - intros m Hm. apply in_rev in Hm.
    assert (In m mine) as Hmine.
    { apply (Permutation_in m (Permutation_sym Hperm)).
      rewrite <- (firstn_skipn 10 (order_by_id_desc mine)).
      apply in_or_app. now left. }
    apply filter_In in Hmine as [Hin Heq].
    split; [exact Hin|now apply String.eqb_eq].
  - rewrite length_rev, length_firstn.
    now rewrite <- (Permutation_length Hperm).
  - intros m Hin Hphone.
    assert (In m (order_by_id_desc mine)) as Hm.
    { apply (Permutation_in m Hperm). apply filter_In.
      split; [exact Hin|now apply String.eqb_eq]. }
    rewrite <- (firstn_skipn 10 (order_by_id_desc mine)) in Hm.
    apply in_app_or in Hm as [Hm|Hm].
    + left. now apply -> in_rev.
    + right. intros h Hh. apply in_rev in Hh. exact (Hrest h m Hh Hm).
  - reflexivity.
  - reflexivity.
Qed.

(* ===================================================================== *)
(** ** The templates of the configuration *)
(* ===================================================================== *)

Lemma templates_under_push (name name' : string) (t : ServerJs.template)
    (o : list (string * list ServerJs.template)) :
  templates_under name' (ServerJs.push_template name t o)
  = if String.eqb name name'
    then (templates_under name' o ++ [t])%list
    else templates_under name' o.
Proof.
  induction o as [|[k ts] o IH]; cbn [ServerJs.push_template templates_under].
  - destruct (String.eqb name name'); reflexivity.
  - destruct (String.eqb_spec k name) as [->|Hk]; cbn [templates_under].
    + destruct (String.eqb name name'); reflexivity.
    + rewrite IH.
      destruct (String.eqb_spec k name') as [->|Hk']; [|reflexivity].
      destruct (String.eqb_spec name name') as [->|_]; [now contradiction Hk|reflexivity].
Qed.

Lemma keys_push (name : string) (t : ServerJs.template)
    (o : list (string * list ServerJs.template)) :
  map fst (ServerJs.push_template name t o)
  = if inb name (map fst o) then map fst o else (map fst o ++ [name])%list.
Proof.
  unfold inb.
  induction o as [|[k ts] o IH]; cbn [ServerJs.push_template map fst existsb app];
    [reflexivity|].
  rewrite (String.eqb_sym name k).
  destruct (String.eqb k name); cbn [map fst orb]; [reflexivity|].
  rewrite IH. now destruct (existsb (String.eqb name) (map fst o)).
Qed.

Lemma inb_In (x : string) (l : list string) : inb x l = true <-> In x l.
Proof.
  unfold inb. rewrite existsb_exists. split.
  - intros (y & Hy & Heq). apply String.eqb_eq in Heq. now subst.
  - intros H. exists x. split; [exact H|apply String.eqb_refl].
Qed.

Lemma inb_not_In (x : string) (l : list string) : inb x l = false <-> ~ In x l.
Proof.
  rewrite <- inb_In. destruct (inb x l); split; intros H; congruence.
Qed.

Lemma keys_push_NoDup (name : string) (t : ServerJs.template)
    (o : list (string * list ServerJs.template)) :
  NoDup (map fst o) -> NoDup (map fst (ServerJs.push_template name t o)).
Proof.
  intros H. rewrite keys_push.
  destruct (inb name (map fst o)) eqn:Hin; [exact H|].
  apply inb_not_In in Hin.
  apply NoDup_app; [exact H|constructor; [intros []|constructor]|].
  intros x Hx [<-|[]]. now apply Hin.
Qed.

Lemma groupTemplates_spec (rows : list template_row)
    (acc : list (string * list ServerJs.template)) :
  match ServerJs.groupTemplates rows acc with
  | Ok grouped =>
      (forall row, In row rows ->
         inb (t_intent_name row) object_prototype_names = false)
      /\ (forall name,
            templates_under name grouped
            = (templates_under name acc
                 ++ map template_of_row
                      (filter (fun r => String.eqb (t_intent_name r) name) rows))%list)
      /\ (NoDup (map fst acc) -> NoDup (map fst grouped))
      /\ (forall name,
            In name (map fst grouped)
            <-> In name (map fst acc) \/ In name (map t_intent_name rows))
  | Throw e =>
      e = TypeError "templatesByIntent[row.intent_name].push is not a function"
      /\ exists row, In row rows
                     /\ inb (t_intent_name row) object_prototype_names = true
  end.
Proof.
  revert acc. induction rows as [|row rows IH]; intros acc;
    cbn [ServerJs.groupTemplates].
  - split; [intros row []|]. split; [intros name; cbn; now rewrite app_nil_r|].
    split; [auto|]. intros name. cbn. tauto.
  - destruct (inb (t_intent_name row) object_prototype_names) eqn:Hreserved.
    + split; [reflexivity|]. exists row. split; [now left|exact Hreserved].
    + specialize (IH (ServerJs.push_template (t_intent_name row)
                        {| ServerJs.sub_intent := t_sub_intent row;
                           ServerJs.label := t_display_label row;
                           ServerJs.message_text := t_message row |} acc)).
      destruct (ServerJs.groupTemplates rows _) as [grouped|e].
      * destruct IH as (Hnone & Hunder & Hnodup & Hkeys).
        split; [intros r [<-|Hr]; [exact Hreserved|now apply Hnone]|].
        split.
        { intros name. rewrite Hunder, templates_under_push. cbn [filter].
          destruct (String.eqb (t_intent_name row) name); cbn [map];
            [now rewrite <- app_assoc|reflexivity]. }
        split; [intros H; now apply Hnodup, keys_push_NoDup|].
        intros name. rewrite Hkeys, keys_push. cbn [map In].
        destruct (inb (t_intent_name row) (map fst acc)) eqn:Hin.
        { apply inb_In in Hin. split; [tauto|].
          intros [H|[<-|H]]; tauto. }
        { rewrite in_app_iff. cbn [In]. tauto. }
      * destruct IH as (He & r & Hr & Hres).
        split; [exact He|]. exists r. split; [now right|exact Hres].
Qed.

Lemma push_template_total (name : string) (t : ServerJs.template)
    (o : list (string * list ServerJs.template)) :
  length (concat (map snd (ServerJs.push_template name t o)))
  = S (length (concat (map snd o))).
Proof.
  induction o as [|[k ts] o IH]; cbn [ServerJs.push_template]; [reflexivity|].
  destruct (String.eqb k name); cbn [map snd concat];
    rewrite !length_app; [cbn [length]; lia|].
  rewrite IH. lia.
Qed.

Lemma groupTemplates_total (rows : list template_row)
    (acc grouped : list (string * list ServerJs.template)) :
  ServerJs.groupTemplates rows acc = Ok grouped ->
  length (concat (map snd grouped))
  = (length (concat (map snd acc)) + length rows)%nat.
Proof.
  revert acc. induction rows as [|row rows IH]; intros acc;
    cbn [ServerJs.groupTemplates].
  - intros [= ->]. cbn. lia.
  - destruct (inb (t_intent_name row) object_prototype_names); [discriminate|].
    intros H. rewrite (IH _ H), push_template_total. cbn [length]. lia.
Qed.

(** X6.  The loop of [loadConfig] in server.js groups the active template
    rows by intent name: every intent name of a row becomes one key, no
    key twice, and the templates under a key are those of the rows of
    that name, in the order of the rows.  It throws a [TypeError],
    exactly when some row is named like a property every object
    inherits ([constructor], [toString], ...). *)
Theorem groupTemplates_groups_rows_by_intent :
  forall rows : list template_row,
    match ServerJs.groupTemplates rows [] with
    | Ok grouped =>
        (forall row, In row rows ->
           inb (t_intent_name row) object_prototype_names = false)
        /\ NoDup (map fst grouped)
        /\ (forall name,
              In name (map fst grouped) <-> In name (map t_intent_name rows))
        /\ (forall name,
              templates_under name grouped
              = map template_of_row
                  (filter (fun r => String.eqb (t_intent_name r) name) rows))
        /\ length (concat (map snd grouped)) = length rows
    | Throw e =>
        e = TypeError "templatesByIntent[row.intent_name].push is not a function"
        /\ exists row, In row rows
                       /\ inb (t_intent_name row) object_prototype_names = true
    end.
Proof.
  intros rows. pose proof (groupTemplates_spec rows []) as H.
  pose proof (groupTemplates_total rows []) as Htotal.
  destruct (ServerJs.groupTemplates rows []) as [grouped|e]; [|exact H].
  destruct H as (Hnone & Hunder & Hnodup & Hkeys).
  split; [exact Hnone|]. split; [apply Hnodup; constructor|].
  split; [intros name; rewrite Hkeys; cbn; tauto|].
  split; [intros name; now rewrite Hunder|].
  now rewrite (Htotal grouped eq_refl).
Qed.

(* ===================================================================== *)
(** ** What a load puts in the snapshot *)
(* ===================================================================== *)

Lemma policy_loadConfig_run {RT : Runtime} (E : env) (w : world PolicyServer.config) :
  PolicyServer.loadConfig E w
  = if fails E POOL_CONNECT then (Throw (DbError POOL_CONNECT), w)
    else if fails E SELECT_INTENTS then (Throw (DbError SELECT_INTENTS), w)
    else if fails E SELECT_SETTINGS then (Throw (DbError SELECT_SETTINGS), w)
    else (Ok tt, set_config (PolicyRun.loaded E (visible (pg w))) w).
Proof.
  unfold PolicyServer.loadConfig. destruct w as [s cfg out calls].
  destruct (fails E POOL_CONNECT) eqn:Hc; [now repeat run_step|].
  destruct (fails E SELECT_INTENTS) eqn:Hi; [now repeat run_step|].
  destruct (fails E SELECT_SETTINGS) eqn:Hs; [now repeat run_step|].
  repeat run_step. reflexivity.
Qed.

Lemma server_loadConfig_run {RT : Runtime} (E : env) (w : world ServerJs.config) :
  ServerJs.loadConfig E w
  = if fails E POOL_CONNECT then (Throw (DbError POOL_CONNECT), w)
    else if fails E SELECT_INTENTS then (Throw (DbError SELECT_INTENTS), w)
    else if fails E SELECT_SETTINGS then (Throw (DbError SELECT_SETTINGS), w)
    else if fails E SELECT_TEMPLATES then (Throw (DbError SELECT_TEMPLATES), w)
    else match ServerJs.groupTemplates
                 (filter t_is_active (intent_templates (visible (pg w)))) [] with
         | Ok grouped =>
             (Ok tt,
              set_config
                {| ServerJs.cfg_intents := intents (visible (pg w));
                   ServerJs.actionIntentNames :=
                     map i_name (filter i_is_action (intents (visible (pg w))));
                   ServerJs.templates := grouped;
                   ServerJs.lastLoadedAt := Some (now E) |} w)
         | Throw e => (Throw e, w)
         end.
Proof.
  unfold ServerJs.loadConfig. destruct w as [s cfg out calls].
  destruct (fails E POOL_CONNECT) eqn:Hc; [now repeat run_step|].
  destruct (fails E SELECT_INTENTS) eqn:Hi; [now repeat run_step|].
  destruct (fails E SELECT_SETTINGS) eqn:Hs; [now repeat run_step|].
  destruct (fails E SELECT_TEMPLATES) eqn:Ht; [now repeat run_step|].
  repeat run_step. unfold bind, lift, modify. cbn [pg visible].
  destruct (ServerJs.groupTemplates _ _); reflexivity.
Qed.

Lemma setting_absent (key : string) (rows : list setting_row) :
  (forall r, In r rows -> s_key r <> key) -> setting key rows = None.
Proof.
  induction rows as [|r rows IH]; intros Hno; cbn [setting]; [reflexivity|].
  rewrite IH by (intros x Hx; apply Hno; now right).
  destruct (String.eqb_spec (s_key r) key) as [Heq|_];
    [now contradiction (Hno r (or_introl eq_refl))|].
  now destruct (inb key (map s_key rows)).
Qed.

Lemma setting_In (key : string) (rows : list setting_row) (v : string) :
  setting key rows = Some v -> In {| s_key := key; s_value := Some v |} rows.
Proof.
  induction rows as [|r rows IH]; cbn [setting]; [discriminate|].
  destruct (inb key (map s_key rows)); [intros H; right; now apply IH|].
  destruct (String.eqb_spec (s_key r) key) as [<-|_]; [|discriminate].
  intros H. left. destruct r as [k val]. cbn in *. now subst.
Qed.

(** The loop over the rows leaves, under a key, the value of the last
    row of that key, wherever that row is in the table. *)
Lemma setting_at (key : string) (earlier later : list setting_row)
    (row : setting_row) :
  s_key row = key ->
  (forall r, In r later -> s_key r <> key) ->
  setting key (earlier ++ row :: later) = s_value row.
Proof.
  intros Hkey Hlater.
  induction earlier as [|r earlier IH]; cbn [app setting].
  - replace (inb key (map s_key later)) with false.
    + rewrite Hkey, String.eqb_refl. reflexivity.
    + symmetry. apply inb_not_In. intros Hin.
      apply in_map_iff in Hin as (x & Hx & Hin). exact (Hlater x Hin Hx).
  - replace (inb key (map s_key (earlier ++ row :: later))) with true;
      [exact IH|].
    symmetry. apply inb_In. apply in_map_iff. exists row.
    split; [exact Hkey|]. apply in_or_app. right. now left.
Qed.

Lemma setting_or_spec (key : string) (rows : list setting_row) (fallback : string) :
  fallback <> "" ->
  PolicyServer.setting_or key rows fallback <> ""
  /\ (PolicyServer.setting_or key rows fallback = fallback
      \/ In {| s_key := key;
               s_value := Some (PolicyServer.setting_or key rows fallback) |} rows)
  /\ (forall earlier later v,
        rows = (earlier ++ {| s_key := key; s_value := v |} :: later)%list ->
        (forall r, In r later -> s_key r <> key) ->
        PolicyServer.setting_or key rows fallback
        = match v with
          | Some t => if String.eqb t "" then fallback else t
          | None => fallback
          end)
  /\ ((forall r, In r rows -> s_key r <> key) ->
      PolicyServer.setting_or key rows fallback = fallback).
Proof.
  intros Hfallback. unfold PolicyServer.setting_or, LlmSpec.or_text.
  split; [|split; [|split]].
  - destruct (setting key rows) as [v|]; [|exact Hfallback].
    destruct (String.eqb_spec v ""); [exact Hfallback|assumption].
  - destruct (setting key rows) as [v|] eqn:Hv; [|now left].
    destruct (String.eqb_spec v ""); [now left|].
    right. now apply setting_In.
  - intros earlier later v -> Hlater.
    rewrite (setting_at key earlier later {| s_key := key; s_value := v |} eq_refl Hlater).
    reflexivity.
  - intros Hno. now rewrite setting_absent.
Qed.

Lemma default_templates_nonempty :
  PolicyServer.DEFAULT_NIGHT_DEFER_REPLY <> ""
  /\ PolicyServer.DEFAULT_COMPLAINT_REPLY <> "".
Proof. split; intros H; vm_compute in H; discriminate. Qed.

(** X7.  When [loadConfig] of the policy server returns, its two reply
    templates are non-empty texts read off [bot_settings].  Wherever the
    rows of a key are in the table, the template is the value of the
    last row of the key when that value is a non-empty text, and the
    built-in default when that value is [NULL] or the empty text, or
    when the key has no row; rows of other keys, before or after, change
    nothing.  When it throws, the world is as it was. *)
Theorem policy_templates_are_the_last_setting_or_the_default :
  forall {RT : Runtime} (E : env) (w : world PolicyServer.config),
    match PolicyServer.loadConfig E w with
    | (Ok _, w') =>
        forall key fallback reply,
          (key = "night_defer_reply"
           /\ fallback = PolicyServer.DEFAULT_NIGHT_DEFER_REPLY
           /\ reply = PolicyServer.nightDeferReply (cachedConfig w'))
          \/ (key = "complaint_reply"
              /\ fallback = PolicyServer.DEFAULT_COMPLAINT_REPLY
              /\ reply = PolicyServer.complaintReply (cachedConfig w')) ->
          let rows := bot_settings (visible (pg w)) in
          exists t,
            reply = Some t
            /\ t = PolicyServer.setting_or key rows fallback
            /\ t <> ""
            /\ (t = fallback \/ In {| s_key := key; s_value := Some t |} rows)
            /\ (forall earlier later v,
                  rows = (earlier ++ {| s_key := key; s_value := Some v |} :: later)%list ->
                  (forall r, In r later -> s_key r <> key) ->
                  v <> "" -> t = v)
            /\ (forall earlier later,
                  rows = (earlier ++ {| s_key := key; s_value := None |} :: later)%list
                  \/ rows = (earlier ++ {| s_key := key; s_value := Some "" |}
                                         :: later)%list ->
                  (forall r, In r later -> s_key r <> key) ->
                  t = fallback)
            /\ ((forall r, In r rows -> s_key r <> key) -> t = fallback)
    | (Throw _, w') => w' = w
    end.
Proof.
  intros RT E w. rewrite policy_loadConfig_run.
  destruct (fails E POOL_CONNECT); [reflexivity|].
  destruct (fails E SELECT_INTENTS); [reflexivity|].
  destruct (fails E SELECT_SETTINGS); [reflexivity|].
  intros key fallback reply Hwhich rows.
  assert (fallback <> "") as Hfallback.
  { destruct default_templates_nonempty as [Hn Hc].
    destruct Hwhich as [(_ & -> & _)|(_ & -> & _)]; assumption. }
  destruct (setting_or_spec key rows fallback Hfallback)
    as (H1 & H2 & H3 & H4).
  exists (PolicyServer.setting_or key rows fallback).
  split; [destruct Hwhich as [(-> & -> & ->)|(-> & -> & ->)]; reflexivity|].
  split; [reflexivity|].
  split; [exact H1|]. split; [exact H2|].
  split; [|split; [|exact H4]].
  - intros earlier later v Hrows Hlater Hv.
    rewrite (H3 earlier later (Some v) Hrows Hlater).
    apply String.eqb_neq in Hv. now rewrite Hv.
  - intros earlier later [Hrows|Hrows] Hlater.
    + exact (H3 earlier later None Hrows Hlater).
    + exact (H3 earlier later (Some "") Hrows Hlater).
Qed.

(** X8.  When [loadConfig] returns, in either server, the action-intent
    names of the snapshot are exactly the names of the rows of
    [intents] whose [is_action] holds.  So, in the policy pipeline, a
    message is deferred at night exactly when its time is in the night
    window and its classified intent is a text that names such a row;
    an intent that is no text defers nothing. *)
Theorem action_intents_are_the_rows_flagged_is_action :
  forall {RT : Runtime} (E : env),
    (forall w : world ServerJs.config,
        match ServerJs.loadConfig E w with
        | (Ok _, w') =>
            forall name,
              In name (ServerJs.actionIntentNames (cachedConfig w'))
              <-> exists row, In row (intents (visible (pg w)))
                              /\ i_name row = name /\ i_is_action row = true
        | (Throw _, w') => w' = w
        end)
    /\ (forall w : world PolicyServer.config,
          match PolicyServer.loadConfig E w with
          | (Ok _, w') =>
              (forall name,
                  In name (PolicyServer.actionIntentNames (cachedConfig w'))
                  <-> exists row, In row (intents (visible (pg w)))
                                  /\ i_name row = name /\ i_is_action row = true)
              /\ (forall txt received,
                    PolicyRun.should_defer E txt received (cachedConfig w') = true
                    <-> isNightTime received = true
                        /\ exists name row,
                             PolicyServer.intent
                               (PolicyRun.classified E txt (cachedConfig w'))
                             = VStr name
                             /\ In row (intents (visible (pg w)))
                             /\ i_name row = name /\ i_is_action row = true)
          | (Throw _, w') => w' = w
          end)
    /\ (forall names v,
          PolicyServer.includes names v = true <-> exists s, v = VStr s /\ In s names).
Proof.
  intros RT E.
  assert (forall rows name,
             In name (map i_name (filter i_is_action rows))
             <-> exists row, In row rows /\ i_name row = name /\ i_is_action row = true)
    as Hnames.
  { intros rows name. rewrite in_map_iff. split.
    - intros (row & Hname & Hrow). apply filter_In in Hrow as [Hin Hact].
      exists row. auto.
    - intros (row & Hin & Hname & Hact). exists row.
      split; [exact Hname|]. apply filter_In. auto. }
  assert (forall names v,
             PolicyServer.includes names v = true <-> exists s, v = VStr s /\ In s names)
    as Hincludes.
  { intros names v. unfold PolicyServer.includes. split.
    - destruct v; try discriminate. intros H. apply inb_In in H. eauto.
    - intros (s & -> & Hin). now apply inb_In. }
  split; [|split; [|exact Hincludes]].
  - intros w. rewrite server_loadConfig_run.
    destruct (fails E POOL_CONNECT); [reflexivity|].
    destruct (fails E SELECT_INTENTS); [reflexivity|].
    destruct (fails E SELECT_SETTINGS); [reflexivity|].
    destruct (fails E SELECT_TEMPLATES); [reflexivity|].
    destruct (ServerJs.groupTemplates _ _); [|reflexivity].
    intros name. apply Hnames.
  - intros w. rewrite policy_loadConfig_run.
    destruct (fails E POOL_CONNECT); [reflexivity|].
    destruct (fails E SELECT_INTENTS); [reflexivity|].
    destruct (fails E SELECT_SETTINGS); [reflexivity|].
    split; [intros name; apply Hnames|].
    intros txt received. unfold PolicyRun.should_defer.
    rewrite andb_true_iff, Hincludes.
    cbn [cachedConfig set_config PolicyRun.loaded PolicyServer.actionIntentNames].
    split.
    + intros (Hnight & s & Hs & Hin). split; [exact Hnight|].
      apply Hnames in Hin as (row & Hrow & Hname & Hact).
      exists s, row. auto.
    + intros (Hnight & name & row & Hs & Hrow & Hname & Hact).
      split; [exact Hnight|]. exists name. split; [exact Hs|].
      apply Hnames. exists row. auto.
Qed.

(* ===================================================================== *)
(** ** The user prompt of the orchestrator *)
(* ===================================================================== *)

Lemma concat_empty_iff (sep : string) (l : list string) :
  (forall x, In x l -> x <> "") ->
  (String.concat sep l = "" <-> l = []).
Proof.
  intros Hne. split; [|intros ->; reflexivity].
  destruct l as [|x l]; [reflexivity|]. intros H. exfalso.
  assert (x <> "") as Hx by (apply Hne; now left).
  destruct x as [|a x]; [now apply Hx|].
  cbn [String.concat] in H. destruct l; discriminate.
Qed.

Lemma history_text_empty_iff (history : list LlmSpec.turn) :
  String.concat nl (map LlmSpec.history_line history) = "" <-> history = [].
Proof.
  rewrite concat_empty_iff.
  - split; [apply map_eq_nil|intros ->; reflexivity].
  - intros x Hx. apply in_map_iff in Hx as (h & <- & _). discriminate.
Qed.

Lemma knowledge_text_empty_iff (knowledge : list knowledge_row) :
  String.concat (nl ++ nl) (map LlmSpec.knowledge_block knowledge) = ""
  <-> knowledge = [].
Proof.
  rewrite concat_empty_iff.
  - split; [apply map_eq_nil|intros ->; reflexivity].
  - intros x Hx. apply in_map_iff in Hx as (k & <- & _). discriminate.
Qed.

Lemma history_read_nonempty (sender txt : string) (received : date) (s : session) :
  OrchestratorRun.history_read sender txt received s <> [].
Proof.
  intros H. apply (f_equal (@length _)) in H.
  unfold OrchestratorRun.history_read in H.
  rewrite length_map, length_rev in H. cbn [length] in H.
  cbn [sql_select_history fst] in H. rewrite length_firstn in H.
  rewrite <- (Permutation_length (order_by_id_desc_perm _)) in H.
  unfold OrchestratorRun.s_in in H.
  cbn [sql_insert_message sql_begin snd visible with_messages messages filter
       ServerJs.in_row new_message m_phone_number] in H.
  rewrite String.eqb_refl in H. cbn [length] in H. lia.
Qed.

(** X9.  [buildOrchestratorUserPrompt] writes the placeholder for the
    history exactly when the history is empty, the one for the
    knowledge exactly when no document is given, and ["UNKNOWN"] for an
    empty guest state; otherwise the lines of the history, one per
    turn, and the documents, separated by a blank line.  In the
    handler the history holds the message just received, so the
    history placeholder is never sent to the model. *)
Theorem prompt_placeholders_stand_for_empty_lists :
  forall (text guestState : string) (history : list LlmSpec.turn)
         (knowledge : list knowledge_row),
    LlmSpec.buildOrchestratorUserPrompt text guestState history knowledge
    = nl ++ "[손님 최신 문자]" ++ nl
         ++ dq ++ text ++ dq ++ nl
         ++ nl
         ++ "[이 번호와의 최근 대화 히스토리]" ++ nl
         ++ match history with
            | [] => "(이전 대화 없음)"
            | _ => String.concat nl (map LlmSpec.history_line history)
            end ++ nl
         ++ nl
         ++ "[현재 게스트 상태 guestState]" ++ nl
         ++ (if String.eqb guestState "" then "UNKNOWN" else guestState) ++ nl
         ++ nl
         ++ "[관련 지식 문서들]" ++ nl
         ++ match knowledge with
            | [] => "(관련 지식 없음)"
            | _ => String.concat (nl ++ nl) (map LlmSpec.knowledge_block knowledge)
            end ++ nl
         ++ nl
         ++ "위 정보를 바탕으로,
reply_text, intent, flow_type, slots, need_followup, end_flow 를 모두 포함하는
JSON 객체 하나를 출력해.
반드시 유효한 JSON 객체 하나만 출력해야 한다.
"
    /\ (String.concat nl (map LlmSpec.history_line history) = "" <-> history = [])
    /\ (String.concat (nl ++ nl) (map LlmSpec.knowledge_block knowledge) = ""
        <-> knowledge = [])
    /\ (forall sender txt received s,
          OrchestratorRun.history_read sender txt received s <> []
          /\ LlmSpec.or_text
               (String.concat nl
                  (map LlmSpec.history_line
                     (OrchestratorRun.history_read sender txt received s)))
               "(이전 대화 없음)"
             = String.concat nl
                 (map LlmSpec.history_line
                    (OrchestratorRun.history_read sender txt received s))).
Proof.
  intros text guestState history knowledge.
  pose proof (history_text_empty_iff history) as Hh.
  pose proof (knowledge_text_empty_iff knowledge) as Hk.
  split; [|split; [exact Hh|split; [exact Hk|]]].
  - unfold LlmSpec.buildOrchestratorUserPrompt, LlmSpec.or_text. cbv zeta.
    destruct (String.eqb_spec (String.concat nl (map LlmSpec.history_line history)) "")
      as [Heq|Hne];
      destruct (String.eqb_spec
                  (String.concat (nl ++ nl) (map LlmSpec.knowledge_block knowledge)) "")
        as [Heq'|Hne'].
    + apply Hh in Heq. apply Hk in Heq'. subst. reflexivity.
    + apply Hh in Heq. subst. destruct knowledge; [now contradiction Hne'|reflexivity].
    + apply Hk in Heq'. subst. destruct history; [now contradiction Hne|reflexivity].
    + destruct history; [now contradiction Hne|].
      destruct knowledge; [now contradiction Hne'|reflexivity].
  - intros sender txt received s.
    pose proof (history_read_nonempty sender txt received s) as Hne.
    split; [exact Hne|].
    unfold LlmSpec.or_text.
    destruct (String.eqb_spec
                (String.concat nl
                   (map LlmSpec.history_line
                      (OrchestratorRun.history_read sender txt received s))) "")
      as [Heq|_]; [|reflexivity].
    apply history_text_empty_iff in Heq. now contradiction Hne.
Qed.

(* ===================================================================== *)
(** ** The shape of the orchestrator's result *)
(* ===================================================================== *)

Lemma js_or_truthy (a b : value) : truthy b = true -> truthy (js_or a b) = true.
Proof. unfold js_or. destruct (truthy a) eqn:Ha; auto. Qed.

Lemma prepareValue_truthy {RT : Runtime} (v : value) :
  truthy v = true -> exists s, prepareValue v = Some s.
Proof. destruct v; cbn; try discriminate; eauto. Qed.

Lemma orchestrated_shape {RT : Runtime} (answer : completion) :
  truthy (ServerJs.intent (orchestrated answer)) = true
  /\ truthy (ServerJs.slots (orchestrated answer)) = true
  /\ (ServerJs.flow_type (orchestrated answer) = VNull
      \/ truthy (ServerJs.flow_type (orchestrated answer)) = true)
  /\ (ServerJs.reply_text (orchestrated answer) = VStr ""
      \/ truthy (ServerJs.reply_text (orchestrated answer)) = true).
Proof.
  assert (truthy (ServerJs.intent ServerJs.FALLBACK) = true
          /\ truthy (ServerJs.slots ServerJs.FALLBACK) = true
          /\ (ServerJs.flow_type ServerJs.FALLBACK = VNull
              \/ truthy (ServerJs.flow_type ServerJs.FALLBACK) = true)
          /\ (ServerJs.reply_text ServerJs.FALLBACK = VStr ""
              \/ truthy (ServerJs.reply_text ServerJs.FALLBACK) = true)) as Hfallback.
  { cbn. auto. }
  unfold orchestrated. destruct answer as [|c]; [exact Hfallback|].
  destruct (JSON_parse (ServerJs.raw_of c)) as [parsed|]; [|exact Hfallback].
  destruct (negb (truthy parsed) || negb (typeof_object parsed)); [exact Hfallback|].
  unfold ServerJs.normalize.
  cbn [ServerJs.intent ServerJs.slots ServerJs.flow_type ServerJs.reply_text].
  split; [now apply js_or_truthy|]. split; [now apply js_or_truthy|].
  unfold js_or.
  split.
  - destruct (truthy (get parsed "flow_type")) eqn:H; auto.
  - destruct (truthy (get parsed "reply_text")) eqn:H; auto.
Qed.

(** X10.  Whatever the model answers, the result of [runOrchestratorLLM]
    has a truthy intent and truthy slots, a flow type that is truthy or
    [null], and a reply text that is truthy or the empty text: no field
    is ever [undefined].  So the [|| null] the handler applies to the
    intent never yields [null]: the intent column of the [OUT] row it
    inserts and of the [IN] row it updates is never [NULL], and the
    [slots] it measures are the result's own. *)
Theorem orchestrator_result_has_no_missing_field :
  forall {RT : Runtime} (E : env) (text guestState : string)
         (history : list LlmSpec.turn) (knowledge : list knowledge_row)
         (w : world ServerJs.config),
  exists r : ServerJs.orchestration,
    fst (ServerJs.runOrchestratorLLM E text guestState history knowledge w) = Ok r
    /\ truthy (ServerJs.intent r) = true
    /\ truthy (ServerJs.slots r) = true
    /\ (ServerJs.flow_type r = VNull \/ truthy (ServerJs.flow_type r) = true)
    /\ (ServerJs.reply_text r = VStr "" \/ truthy (ServerJs.reply_text r) = true)
    /\ (forall from reply incomingId id,
          exists name,
            m_intent (ServerJs.out_row from reply guestState r incomingId id)
            = Some name
            /\ prepareValue (ServerJs.intent r) = Some name)
    /\ (forall m,
          exists name,
            m_intent (ServerJs.classify_in guestState r m) = Some name
            /\ prepareValue (ServerJs.intent r) = Some name)
    /\ js_or (ServerJs.slots r) (VObj []) = ServerJs.slots r.
Proof.
  intros RT E text guestState history knowledge w.
  rewrite runOrchestratorLLM_run. cbn [fst].
  set (r := orchestrated _).
  destruct (orchestrated_shape (orchestrator_answer E text guestState history knowledge))
    as (Hintent & Hslots & Hflow & Hreply).
  fold r in Hintent, Hslots, Hflow, Hreply.
  exists r. split; [reflexivity|].
  do 4 (split; [assumption|]).
  assert (js_or (ServerJs.intent r) VNull = ServerJs.intent r) as Hor
    by (unfold js_or; now rewrite Hintent).
  destruct (prepareValue_truthy _ Hintent) as (name & Hname).
  split; [|split].
  - intros from reply incomingId id. exists name.
    cbn [ServerJs.out_row m_intent]. rewrite Hor. auto.
  - intros m. exists name. cbn [ServerJs.classify_in m_intent]. rewrite Hor. auto.
  - unfold js_or. now rewrite Hslots.
Qed.

(* ===================================================================== *)
(** ** Reading the knowledge base *)
(* ===================================================================== *)

Lemma firstn_all_or_full {A} (n : nat) (l : list A) :
  firstn n l = l \/ length (firstn n l) = n.
Proof.
  destruct (Nat.le_gt_cases (length l) n) as [Hle|Hgt].
  - left. now apply firstn_all2.
  - right. rewrite length_firstn. lia.
Qed.

Lemma limited_filter {A} (n : nat) (keep : A -> bool) (table rows : list A) :
  rows = firstn n (filter keep table) ->
  (length rows <= n)%nat
  /\ (forall k, In k rows -> In k table /\ keep k = true)
  /\ (forall k, In k table -> keep k = true -> In k rows \/ length rows = n).
Proof.
  intros ->. split; [apply firstn_le_length|]. split.
  - intros k Hk. apply filter_In.
    rewrite <- (firstn_skipn n (filter keep table)). apply in_or_app. now left.
  - intros k Hin Hkeep.
    destruct (firstn_all_or_full n (filter keep table)) as [->|Hfull]; [|now right].
    left. apply filter_In. auto.
Qed.

Lemma knowledge_query_spec {C : Type} (E : env) (o : op) (n : nat)
    (keep : knowledge_row -> bool) (w : world C) :
  match query E o (sql_read (fun st => firstn n (filter keep (knowledge_base st)))) w with
  | (Ok rows, w') =>
      w' = w
      /\ (length rows <= n)%nat
      /\ (forall k, In k rows ->
            In k (knowledge_base (visible (pg w))) /\ keep k = true)
      /\ (forall k, In k (knowledge_base (visible (pg w))) -> keep k = true ->
            In k rows \/ length rows = n)
  | (Throw e, w') => w' = w /\ e = DbError o
  end.
Proof.
  destruct w as [s cfg out calls].
  destruct (fails E o) eqn:Hop.
  - rewrite query_rejected by exact Hop. auto.
  - rewrite query_ok by exact Hop. tidy. cbn [visible pg].
    split; [reflexivity|]. now apply limited_filter.
Qed.

(** X11.  The three reads of [knowledge_base] change nothing and return
    rows of the table.  [retrieveKnowledgeForRAG] returns at most 20
    rows, all of the four listed categories, whatever the text of the
    message is; [retrieveKnowledge], in both files, at most 5 rows, all
    of the category the intent names; no matching row is left out
    unless the limit is reached.  In server.js a client passed to
    [retrieveKnowledge] is used without asking the pool, and with a
    pool that connects the rows are the same either way. *)
Theorem knowledge_reads_are_bounded_and_filtered :
  forall {RT : Runtime} (E : env),
    (forall (text : string) (w : world ServerJs.config),
        match ServerJs.retrieveKnowledgeForRAG E text w with
        | (Ok rows, w') =>
            w' = w
            /\ (length rows <= 20)%nat
            /\ (forall k, In k rows ->
                  In k (knowledge_base (visible (pg w)))
                  /\ In (k_category k)
                       ["PARTY"; "PARTY_RESERVATION_FLOW"; "CHECKIN"; "CHECKOUT"])
            /\ (forall k, In k (knowledge_base (visible (pg w))) ->
                  In (k_category k)
                    ["PARTY"; "PARTY_RESERVATION_FLOW"; "CHECKIN"; "CHECKOUT"] ->
                  In k rows \/ length rows = 20%nat)
            /\ (forall text', ServerJs.retrieveKnowledgeForRAG E text' w = (Ok rows, w))
        | (Throw e, w') => w' = w /\ e = DbError SELECT_KNOWLEDGE_RAG
        end)
    /\ (forall (c : PolicyServer.classification) (w : world PolicyServer.config),
          match PolicyServer.retrieveKnowledge E c w with
          | (Ok rows, w') =>
              w' = w
              /\ (length rows <= 5)%nat
              /\ (forall k, In k rows ->
                    In k (knowledge_base (visible (pg w)))
                    /\ prepareValue (PolicyServer.intent c) = Some (k_category k))
              /\ (forall k, In k (knowledge_base (visible (pg w))) ->
                    prepareValue (PolicyServer.intent c) = Some (k_category k) ->
                    In k rows \/ length rows = 5%nat)
          | (Throw e, w') =>
              w' = w /\ (e = DbError POOL_CONNECT \/ e = DbError SELECT_KNOWLEDGE)
          end)
    /\ (forall (intentResult : value) (dbClient : bool) (w : world ServerJs.config),
          match ServerJsAdmin.retrieveKnowledge E intentResult dbClient w with
          | (Ok rows, w') =>
              w' = w
              /\ (length rows <= 5)%nat
              /\ (forall k, In k rows ->
                    In k (knowledge_base (visible (pg w)))
                    /\ prepareValue (get intentResult "intent") = Some (k_category k))
              /\ (forall k, In k (knowledge_base (visible (pg w))) ->
                    prepareValue (get intentResult "intent") = Some (k_category k) ->
                    In k rows \/ length rows = 5%nat)
              /\ (dbClient = false -> fails E POOL_CONNECT = false)
          | (Throw e, w') =>
              w' = w /\ (dbClient = true -> e <> DbError POOL_CONNECT)
          end)
    /\ (forall (intentResult : value) (w : world ServerJs.config),
          ServerJsAdmin.retrieveKnowledge E intentResult false w
          = if fails E POOL_CONNECT then (Throw (DbError POOL_CONNECT), w)
            else ServerJsAdmin.retrieveKnowledge E intentResult true w).
Proof.
  intros RT E.
  assert (forall c k,
             match c with
             | Some c => String.eqb (k_category k) c
             | None => false
             end = true <-> c = Some (k_category k)) as Hcat.
  { intros [c|] k; split; try discriminate.
    - intros H. apply String.eqb_eq in H. now subst.
    - intros [= ->]. apply String.eqb_refl. }
  split; [|split; [|split]].
  - intros text w. unfold ServerJs.retrieveKnowledgeForRAG.
    lazymatch goal with
    | |- context [sql_read (fun st => firstn ?n (filter ?keep (knowledge_base st)))] =>
        pose proof (knowledge_query_spec E SELECT_KNOWLEDGE_RAG n keep w) as Hq
    end.
    destruct (query E SELECT_KNOWLEDGE_RAG _ w) as [[rows|e] w']; [|exact Hq].
    destruct Hq as (-> & Hlen & Hin & Hall).
    split; [reflexivity|]. split; [exact Hlen|].
    split; [intros k Hk; destruct (Hin k Hk) as [H1 H2]; split;
            [exact H1|now apply inb_In]|].
    split; [intros k Hk Hc; apply Hall; [exact Hk|now apply inb_In]|].
    intros text'. reflexivity.
  - intros c w. unfold PolicyServer.retrieveKnowledge.
    lazymatch goal with
    | |- context [sql_read (fun st => firstn ?n (filter ?keep (knowledge_base st)))] =>
        pose proof (knowledge_query_spec E SELECT_KNOWLEDGE n keep w) as Hq
    end.
    destruct (fails E POOL_CONNECT) eqn:Hc.
    { erewrite bind_throw by (apply connect_rejected; exact Hc). auto. }
    erewrite bind_ok by (apply connect_ok; exact Hc). cbv beta.
    rewrite finally_release.
    destruct (query E SELECT_KNOWLEDGE _ w) as [[rows|e] w'].
    + destruct Hq as (-> & Hlen & Hin & Hall).
      split; [reflexivity|]. split; [exact Hlen|].
      split; [intros k Hk; destruct (Hin k Hk) as [H1 H2]; split;
              [exact H1|now apply Hcat]|].
      intros k Hk Hc'. apply Hall; [exact Hk|now apply Hcat].
    + destruct Hq as (-> & ->). auto.
  - intros intentResult dbClient w. unfold ServerJsAdmin.retrieveKnowledge.
    lazymatch goal with
    | |- context [sql_read (fun st => firstn ?n (filter ?keep (knowledge_base st)))] =>
        pose proof (knowledge_query_spec E SELECT_KNOWLEDGE n keep w) as Hq
    end.
    destruct dbClient; [|destruct (fails E POOL_CONNECT) eqn:Hc];
      unfold bind, finally, ret, release, connect, throw; rewrite ?Hc;
      try (split; [reflexivity|discriminate]);
      destruct intentResult;
      try (split; [reflexivity|discriminate]);
      (destruct (query E SELECT_KNOWLEDGE _ w) as [[rows|e] w'];
       [ destruct Hq as (-> & Hlen & Hin & Hall);
         split; [reflexivity|]; split; [exact Hlen|];
         split; [intros k Hk; destruct (Hin k Hk) as [H1 H2]; split;
                 [exact H1|now apply Hcat]|];
         split; [intros k Hk Hc'; apply Hall; [exact Hk|now apply Hcat]|];
         first [reflexivity | discriminate]
       | destruct Hq as (-> & ->); split; [reflexivity|discriminate] ]).
  - intros intentResult w. unfold ServerJsAdmin.retrieveKnowledge.
    destruct (fails E POOL_CONNECT) eqn:Hc.
    + now erewrite bind_throw by (apply connect_rejected; exact Hc).
    + unfold bind, finally, ret, release, connect. rewrite Hc.
      destruct intentResult; try reflexivity;
        now destruct (query E SELECT_KNOWLEDGE _ w) as [[rows|e] w'].
Qed.

(* ===================================================================== *)
(** ** The statements of the follow-up admin API *)
(* ===================================================================== *)

(** X12.  [PATCH /admin/followups/:id] answers 400 without a statement
    exactly when the status is missing or falsy and neither memo nor
    resolved is given.  Otherwise its statement sets the fields given,
    in the order status, memo, resolved, through the placeholders $1,
    $2, ... in that order, the id being the last parameter and the
    next placeholder; a memo or resolved of [null] is written, an empty
    status is not.  The statement of [GET /admin/followups] has one
    parameter per filter given, numbered in order, and the status
    [ALL] filters nothing. *)
Theorem followup_statements_number_their_parameters :
  (forall (id : string) (body : ServerJsAdmin.patch_body),
      let given :=
        ((if truthy (ServerJsAdmin.b_status body)
          then [("status", ServerJsAdmin.b_status body)] else [])
         ++ (if ServerJsAdmin.is_undefined (ServerJsAdmin.b_memo body)
             then [] else [("memo", ServerJsAdmin.b_memo body)])
         ++ (if ServerJsAdmin.is_undefined (ServerJsAdmin.b_resolved body)
             then [] else [("resolved", ServerJsAdmin.b_resolved body)]))%list in
      match ServerJsAdmin.patch_statement id body with
      | None => given = []
      | Some st =>
          given <> []
          /\ ServerJsAdmin.arguments st = (map snd given ++ [VStr id])%list
          /\ ServerJsAdmin.sql st
             = nl ++ "      UPDATE followup_queue" ++ nl
                  ++ "      SET "
                  ++ String.concat ", "
                       (map (fun c => fst (snd c) ++ " = "
                                        ++ ServerJsAdmin.placeholder (fst c))
                            (combine (seq 1 (length given)) given))
                  ++ "," ++ nl
                  ++ "          updated_at = NOW()" ++ nl
                  ++ "      WHERE id = "
                  ++ ServerJsAdmin.placeholder (S (length given)) ++ nl
                  ++ "    "
      end)
  /\ (forall status reason : value,
        let given :=
          ((if truthy status && ServerJsAdmin.is_not_ALL status
            then [("f.status", status)] else [])
           ++ (if truthy reason then [("f.reason", reason)] else []))%list in
        ServerJsAdmin.arguments (ServerJsAdmin.followups_statement status reason)
        = map snd given
        /\ ServerJsAdmin.sql (ServerJsAdmin.followups_statement status reason)
           = ServerJsAdmin.FOLLOWUPS_SELECT
               ++ String.concat ""
                    (map (fun c => " AND " ++ fst (snd c) ++ " = "
                                     ++ ServerJsAdmin.placeholder (fst c))
                         (combine (seq 1 (length given)) given))
               ++ " ORDER BY f.created_at DESC LIMIT 100")
  /\ (forall reason : value,
        ServerJsAdmin.followups_statement (VStr "ALL") reason
        = ServerJsAdmin.followups_statement VUndefined reason).
Proof.
  split; [|split].
  - intros id body given. unfold given, ServerJsAdmin.patch_statement,
      ServerJsAdmin.patch_fields.
    destruct (truthy (ServerJsAdmin.b_status body));
      destruct (ServerJsAdmin.is_undefined (ServerJsAdmin.b_memo body));
      destruct (ServerJsAdmin.is_undefined (ServerJsAdmin.b_resolved body));
      cbn; try reflexivity;
      (split; [discriminate|split; reflexivity]).
  - intros status reason given. unfold given, ServerJsAdmin.followups_statement.
    destruct (truthy status && ServerJsAdmin.is_not_ALL status);
      destruct (truthy reason); split; reflexivity.
  - intros reason. reflexivity.
Qed.

(* ===================================================================== *)
(** ** Invariants kept by every run *)
(* ===================================================================== *)

Section Keeps.
Context {C : Type} (E : env).
Let W := world C.
Variable I : W -> Prop.

Lemma keeps_ret {A} (a : A) : keeps I (ret a).
Proof. intros w H. exact H. Qed.

Lemma keeps_throw {A} (e : error) : keeps I (@throw W A e).
Proof. intros w H. exact H. Qed.

Lemma keeps_lift {A} (r : outcome A) : keeps I (lift r).
Proof. intros w H. exact H. Qed.

Lemma keeps_gets {A} (f : W -> A) : keeps I (gets f).
Proof. intros w H. exact H. Qed.

Lemma keeps_bind {A B} (m : M W A) (k : A -> M W B) :
  keeps I m -> (forall a, keeps I (k a)) -> keeps I (bind m k).
Proof.
  intros Hm Hk w H. unfold bind. specialize (Hm w H).
  destruct (m w) as [[a|e] w']; cbn [snd] in *; [now apply Hk|exact Hm].
Qed.

Lemma keeps_try_catch {A} (m : M W A) (h : error -> M W A) :
  keeps I m -> (forall e, keeps I (h e)) -> keeps I (try_catch m h).
Proof.
  intros Hm Hh w H. unfold try_catch. specialize (Hm w H).
  destruct (m w) as [[a|e] w']; cbn [snd] in *; [exact Hm|now apply Hh].
Qed.

Lemma keeps_finally {A} (m : M W A) (f : M W unit) :
  keeps I m -> keeps I f -> keeps I (finally m f).
Proof.
  intros Hm Hf w H. unfold finally. specialize (Hm w H).
  destruct (m w) as [r w']. cbn [snd] in Hm. specialize (Hf w' Hm).
  destruct (f w') as [[u|e] w'']; exact Hf.
Qed.

Lemma keeps_modify (f : W -> W) :
  (forall w, I w -> I (f w)) -> keeps I (modify f).
Proof. intros Hf w H. now apply Hf. Qed.

Lemma keeps_connect : keeps I (connect E).
Proof. intros w H. unfold connect. now destruct (fails E POOL_CONNECT). Qed.

Lemma keeps_release : keeps I (@release C).
Proof. intros w H. exact H. Qed.

Lemma keeps_query {A} (o : op) (run : session -> A * session) :
  (forall w, I w -> I (set_pg (snd (run (pg w))) w)) -> keeps I (query E o run).
Proof.
  intros Hrun w H. unfold query. destruct (fails E o); [exact H|].
  specialize (Hrun w H). now destruct (run (pg w)).
Qed.

Lemma keeps_chat_content (system user : string) :
  (forall w p, I w -> I (log_prompt p w)) -> keeps I (chat_content E system user).
Proof.
  intros Hlog w H. unfold chat_content.
  destruct (chat E system user); now apply Hlog.
Qed.

Lemma keeps_sendSms (to : string) (txt : option string) :
  (forall w m, I w -> I (log_sms m w)) -> keeps I (sendSms to txt).
Proof. intros Hlog w H. now apply Hlog. Qed.

End Keeps.

Ltac keep_going tac :=
  repeat first
    [ apply keeps_ret | apply keeps_throw | apply keeps_lift | apply keeps_gets
    | apply keeps_connect | apply keeps_release
    | apply keeps_bind; [|intros ?]
    | apply keeps_try_catch; [|intros ?]
    | apply keeps_finally
    | apply keeps_sendSms; intros ? ? ?; assumption
    | apply keeps_chat_content; intros ? ? ?; assumption
    | apply keeps_modify; intros ? ?; assumption
    | tac
    | match goal with
      | |- keeps _ (match ?x with _ => _ end) => destruct x
      end ].

Lemma numbered_begin (s : session) : numbered s -> numbered (snd (sql_begin s)).
Proof.
  intros [Hv Hc]. split; [exact Hv|exact Hc].
Qed.

Lemma numbered_commit (s : session) : numbered s -> numbered (snd (sql_commit s)).
Proof.
  intros [Hv Hc]. split; [exact Hv|exact Hv].
Qed.

Lemma numbered_rollback (s : session) : numbered s -> numbered (snd (sql_rollback s)).
Proof.
  intros [Hv Hc]. split; [exact Hc|exact Hc].
Qed.

Lemma numbered_insert_message (row : Z -> message) (s : session) :
  (forall id, m_id (row id) = id) ->
  numbered s -> numbered (snd (sql_insert_message row s)).
Proof.
  intros Hrow [Hv Hc].
  assert (forall m, In m (row (messages_id_seq s) :: messages (visible s)) ->
                    m_id m < messages_id_seq s + 1) as Hnew.
  { intros m [<-|Hm]; [rewrite Hrow; lia|specialize (Hv m Hm); lia]. }
  split; [exact Hnew|].
  unfold committed in *. cbn [sql_insert_message snd snapshot visible messages_id_seq] in *.
  destruct (snapshot s) as [c|]; [|exact Hnew].
  intros m Hm. specialize (Hc m Hm). lia.
Qed.

Lemma numbered_insert_followup (row : followup) (s : session) :
  numbered s -> numbered (snd (sql_insert_followup row s)).
Proof.
  intros [Hv Hc]. split; [exact Hv|].
  unfold committed in *. cbn [sql_insert_followup snd on_visible snapshot visible] in *.
  destruct (snapshot s); [exact Hc|exact Hv].
Qed.

Lemma in_mark (id : Z) (set : message -> message) (rows : list message) (m : message) :
  (forall x, m_id (set x) = m_id x) ->
  In m (mark id set rows) -> exists x, In x rows /\ m_id m = m_id x.
Proof.
  intros Hset Hm. unfold mark in Hm. apply in_map_iff in Hm as (x & <- & Hx).
  exists x. split; [exact Hx|]. destruct (m_id x =? id); [apply Hset|reflexivity].
Qed.

Lemma numbered_update_message (id : Z) (set : message -> message) (s : session) :
  (forall x, m_id (set x) = m_id x) ->
  numbered s -> numbered (snd (sql_update_message id set s)).
Proof.
  intros Hset [Hv Hc].
  assert (forall m, In m (mark id set (messages (visible s))) ->
                    m_id m < messages_id_seq s) as Hnew.
  { intros m Hm. apply (in_mark _ _ _ _ Hset) in Hm as (x & Hx & ->). now apply Hv. }
  split; [exact Hnew|].
  unfold committed in *. cbn [sql_update_message snd on_visible snapshot visible] in *.
  destruct (snapshot s); [exact Hc|exact Hnew].
Qed.

Section NumberedRuns.
Context {RT : Runtime} (E : env).

Lemma numbered_query {C A} (o : op) (run : session -> A * session) :
  (forall s, numbered s -> numbered (snd (run s))) ->
  keeps (fun w : world C => numbered (pg w)) (query E o run).
Proof. intros Hrun. apply keeps_query. intros w H. now apply Hrun. Qed.

Ltac keep_numbered :=
  keep_going
    ltac:(apply numbered_query; intros ? ?;
          first [ assumption
                | now apply numbered_begin
                | now apply numbered_commit
                | now apply numbered_rollback
                | now apply numbered_insert_followup
                | apply numbered_insert_message; [reflexivity|assumption]
                | apply numbered_update_message; [reflexivity|assumption] ]).

Lemma numbered_server_loadConfig :
  keeps (fun w : world ServerJs.config => numbered (pg w)) (ServerJs.loadConfig E).
Proof. unfold ServerJs.loadConfig. keep_numbered. Qed.

Lemma numbered_policy_loadConfig :
  keeps (fun w : world PolicyServer.config => numbered (pg w)) (PolicyServer.loadConfig E).
Proof. unfold PolicyServer.loadConfig. keep_numbered. Qed.

Lemma numbered_server_webhook (req : payload) :
  keeps (fun w : world ServerJs.config => numbered (pg w)) (ServerJs.webhook E req).
Proof.
  unfold ServerJs.webhook, ServerJs.handle, ServerJs.retrieveKnowledgeForRAG,
    ServerJs.runOrchestratorLLM, ServerJs.parse_or_null, getGuestState.
  keep_numbered.
Qed.

Lemma numbered_policy_webhook (req : payload) :
  keeps (fun w : world PolicyServer.config => numbered (pg w))
    (PolicyServer.webhook E req).
Proof.
  unfold PolicyServer.webhook, PolicyServer.handle, PolicyServer.classifyIntent,
    PolicyServer.decide, PolicyServer.retrieveKnowledge,
    PolicyServer.generateReplyWithLLM, PolicyServer.buildComplaintAutoReply,
    PolicyServer.buildNightDeferReply, getGuestState.
  keep_numbered; apply numbered_policy_loadConfig.
Qed.

End NumberedRuns.

(** X13.  Both webhook handlers, [loadConfig] and the reload endpoint
    keep the ids of [messages] below the sequence, whatever the database
    rejects and whether they answer or throw: no id is given out twice,
    for the rows the session sees and for the committed ones alike.
    This is the freshness the history of the orchestrator relies on. *)
Theorem webhooks_keep_every_id_below_the_sequence :
  forall {RT : Runtime} (E : env) (req : payload),
    (forall w : world ServerJs.config,
        numbered (pg w) ->
        numbered (pg (snd (ServerJs.webhook E req w)))
        /\ numbered (pg (snd (ServerJs.loadConfig E w)))
        /\ numbered (pg (snd (ServerJsAdmin.reloadConfig E w))))
    /\ (forall w : world PolicyServer.config,
          numbered (pg w) ->
          numbered (pg (snd (PolicyServer.webhook E req w)))
          /\ numbered (pg (snd (PolicyServer.loadConfig E w))))
    /\ (forall s, numbered s -> fresh s)
    /\ (forall s, snapshot s = None -> fresh s -> numbered s).
Proof.
  intros RT E req. split; [|split; [|split]].
  - intros w H. split; [now apply numbered_server_webhook|].
    split; [now apply numbered_server_loadConfig|].
    revert w H.
    change (keeps (fun w : world ServerJs.config => numbered (pg w))
              (ServerJsAdmin.reloadConfig E)).
    unfold ServerJsAdmin.reloadConfig.
    apply keeps_try_catch; [|intros e; apply keeps_ret].
    apply keeps_bind; [apply numbered_server_loadConfig|intros u; apply keeps_ret].
  - intros w H. split; [now apply numbered_policy_webhook|].
    now apply numbered_policy_loadConfig.
  - intros s [H _]. exact H.
  - intros s Hsnap H. split; [exact H|]. unfold committed. now rewrite Hsnap.
Qed.

(* ===================================================================== *)
(** ** The policy pipeline when statements are rejected *)
(* ===================================================================== *)

Section PolicyAny.
Context {RT : Runtime} (E : env).
Let W := world PolicyServer.config.

Lemma policy_classifyIntent_run (txt : string) (w : W) :
  PolicyServer.classifyIntent E txt "UNKNOWN" w
  = match PolicyServer.lastLoadedAt (cachedConfig w) with
    | Some _ =>
        (Ok (PolicyRun.classified E txt (cachedConfig w)),
         log_prompt (PolicyRun.call txt (cachedConfig w)) w)
    | None =>
        if fails E POOL_CONNECT then (Throw (DbError POOL_CONNECT), w)
        else if fails E SELECT_INTENTS then (Throw (DbError SELECT_INTENTS), w)
        else if fails E SELECT_SETTINGS then (Throw (DbError SELECT_SETTINGS), w)
        else (Ok (PolicyRun.classified E txt (PolicyRun.loaded E (visible (pg w)))),
              log_prompt (PolicyRun.call txt (PolicyRun.loaded E (visible (pg w))))
                (set_config (PolicyRun.loaded E (visible (pg w))) w))
    end.
Proof.
  assert (forall w1 : W,
             bind (gets cachedConfig)
               (fun cfg =>
                  try_catch
                    (bind (chat_content E
                             (trim (PolicyServer.classifySystemPrompt
                                      (String.concat nl
                                         (map PolicyServer.intent_line
                                            (PolicyServer.cfg_intents cfg)))))
                             (trim (PolicyServer.classifyUserPrompt txt "UNKNOWN")))
                       (fun content =>
                          match JSON_parse (match content with
                                            | Some c => LlmSpec.or_text (trim c) ""
                                            | None => ""
                                            end) with
                          | None => ret {| PolicyServer.intent := VStr "GENERIC";
                                           PolicyServer.confidence := 0x1.3333333333333p-2%float;
                                           PolicyServer.is_complaint := false |}
                          | Some parsed => lift (PolicyServer.classification_of parsed)
                          end))
                    (fun _ => ret {| PolicyServer.intent := VStr "GENERIC";
                                     PolicyServer.confidence := 0x1.999999999999ap-3%float;
                                     PolicyServer.is_complaint := false |})) w1
             = (Ok (PolicyRun.classified E txt (cachedConfig w1)),
                log_prompt (PolicyRun.call txt (cachedConfig w1)) w1)) as Hcall.
  { intros w1.
    unfold gets, PolicyRun.classified, PolicyRun.call, try_catch, bind, chat_content,
      lift, ret.
    cbn [system_prompt user_prompt].
    destruct (chat E _ _) as [|c]; [reflexivity|].
    destruct (JSON_parse _) as [parsed|]; [|reflexivity].
    destruct (PolicyServer.classification_of parsed); reflexivity. }
  unfold PolicyServer.classifyIntent.
  unfold gets at 1. erewrite bind_ok by reflexivity. cbv beta.
  destruct (PolicyServer.lastLoadedAt (cachedConfig w)) as [t|].
  - erewrite bind_ok by reflexivity. now rewrite Hcall.
  - unfold bind at 1. rewrite policy_loadConfig_run.
    destruct (fails E POOL_CONNECT); [reflexivity|].
    destruct (fails E SELECT_INTENTS); [reflexivity|].
    destruct (fails E SELECT_SETTINGS); [reflexivity|].
    now rewrite Hcall.
Qed.

Lemma policy_classifyIntent_any (txt : string) (w : W) :
  PolicyServer.classifyIntent E txt "UNKNOWN" w
  = (Ok (PolicyRun.classified E txt (PolicyRun.config_used E w)),
     {| pg := pg w;
        cachedConfig := PolicyRun.config_used E w;
        outbox := outbox w;
        asked := PolicyRun.call txt (PolicyRun.config_used E w) :: asked w |})
  \/ (PolicyServer.lastLoadedAt (cachedConfig w) = None
      /\ exists e, PolicyServer.classifyIntent E txt "UNKNOWN" w = (Throw e, w)).
Proof.
  rewrite policy_classifyIntent_run. unfold PolicyRun.config_used.
  destruct (PolicyServer.lastLoadedAt (cachedConfig w)) as [t|];
    [left; destruct w; reflexivity|].
  destruct (fails E POOL_CONNECT); [right; split; [reflexivity|]; eauto|].
  destruct (fails E SELECT_INTENTS); [right; split; [reflexivity|]; eauto|].
  destruct (fails E SELECT_SETTINGS); [right; split; [reflexivity|]; eauto|].
  left. reflexivity.
Qed.

Lemma policy_retrieveKnowledge_any (c : PolicyServer.classification) (w : W) :
  (exists rows, PolicyServer.retrieveKnowledge E c w = (Ok rows, w))
  \/ exists e, PolicyServer.retrieveKnowledge E c w = (Throw e, w).
Proof.
  unfold PolicyServer.retrieveKnowledge. destruct w as [s cfg out calls].
  destruct (fails E POOL_CONNECT) eqn:Hc.
  { right. eexists. now erewrite bind_throw by (apply connect_rejected; exact Hc). }
  erewrite bind_ok by (apply connect_ok; exact Hc). cbv beta.
  rewrite finally_release.
  destruct (fails E SELECT_KNOWLEDGE) eqn:Hop.
  - right. eexists. now rewrite query_rejected by exact Hop.
  - left. eexists. now rewrite query_ok by exact Hop.
Qed.

Lemma policy_decide_any (txt : string) (received : date)
    (cfg : PolicyServer.config) (w : W) :
  cachedConfig w = cfg ->
  (exists d,
      PolicyServer.decide E txt "UNKNOWN" (PolicyRun.classified E txt cfg)
        (PolicyRun.should_defer E txt received cfg) w = (Ok d, w)
      /\ PolicyRun.decided E txt received cfg = Ok d)
  \/ exists e,
      PolicyServer.decide E txt "UNKNOWN" (PolicyRun.classified E txt cfg)
        (PolicyRun.should_defer E txt received cfg) w = (Throw e, w).
Proof.
  intros <-. unfold PolicyServer.decide, PolicyRun.decided, PolicyRun.normal_reply.
  destruct (PolicyServer.isComplaint _); [left; eexists; split; reflexivity|].
  destruct (PolicyRun.should_defer _ _ _ _); [left; eexists; split; reflexivity|].
  destruct (policy_retrieveKnowledge_any
              (PolicyRun.classified E txt (cachedConfig w)) w)
    as [(rows & Hrows)|(e & Hrows)].
  - erewrite bind_ok by exact Hrows. cbv beta.
    unfold bind. rewrite policy_generateReply_calm.
    destruct (PolicyServer.template_text _);
      [left; eexists; split; reflexivity|right; eexists; reflexivity].
  - erewrite bind_throw by exact Hrows. right. eauto.
Qed.

Lemma policy_handle_any (sender txt : string) (received : date) (w : W) :
  let cfg := PolicyRun.config_used E w in
  match PolicyServer.handle E sender txt received w with
  | (Ok resp, w') =>
      exists d,
        PolicyRun.decided E txt received cfg = Ok d
        /\ resp = {| status := 200;
                     body := PolicyOk (messages_id_seq (pg w))
                               (messages_id_seq (pg w) + 1)
                               (PolicyServer.intent (PolicyRun.classified E txt cfg))
                               "UNKNOWN" (isNightTime received)
                               (PolicyServer.needFollowup d) |}
        /\ w' = {| pg := PolicyRun.s_done E sender txt received cfg d (pg w);
                   cachedConfig := cfg;
                   outbox := policy_sms sender d :: outbox w;
                   asked := PolicyRun.call txt cfg :: asked w |}
  | (Throw e, w') =>
      (w' = w /\ fails E INSERT_IN = true)
      \/ (pg w' = PolicyRun.s_in sender txt received (pg w)
          /\ outbox w' = outbox w
          /\ ((cachedConfig w' = cachedConfig w /\ asked w' = asked w)
              \/ (cachedConfig w' = cfg
                  /\ asked w' = PolicyRun.call txt cfg :: asked w)))
      \/ exists d,
          PolicyRun.decided E txt received cfg = Ok d
          /\ outbox w' = policy_sms sender d :: outbox w
          /\ cachedConfig w' = cfg
          /\ asked w' = PolicyRun.call txt cfg :: asked w
          /\ ((pg w' = PolicyRun.s_in sender txt received (pg w)
               /\ fails E INSERT_OUT = true)
              \/ (pg w' = PolicyRun.s_out E sender txt received cfg d (pg w)
                  /\ PolicyServer.needFollowup d = true
                  /\ fails E INSERT_FOLLOWUP = true)
              \/ (pg w' = PolicyRun.s_followup E sender txt received cfg d (pg w)
                  /\ fails E UPDATE_IN = true))
  end.
Proof.
  intros cfg. unfold PolicyServer.handle, getGuestState.
  fork E; [left; auto|].
  erewrite bind_ok by reflexivity. cbv beta.
  set (w1 := set_pg _ w).
  destruct (policy_classifyIntent_any txt w1) as [Hc|(_ & e & Hc)].
  2: { erewrite bind_throw by exact Hc. right; left.
       split; [reflexivity|]. split; [reflexivity|]. left. split; reflexivity. }
  erewrite bind_ok by exact Hc. tidy.
  change (PolicyRun.config_used E w1) with cfg.
  unfold gets at 1. erewrite bind_ok by reflexivity. tidy.
  lazymatch goal with
  | |- context [bind (PolicyServer.decide _ _ _ _ _) _ ?w2] =>
      destruct (policy_decide_any txt received cfg w2 eq_refl)
        as [(d & Hd & Hdecided)|(e & Hd)]
  end.
  2: { erewrite bind_throw by exact Hd. right; left.
       split; [reflexivity|]. split; [reflexivity|]. right. split; reflexivity. }
  erewrite bind_ok by exact Hd. tidy.
  unfold sendSms. erewrite bind_ok by reflexivity. tidy.
  subst w1. tidy.
  fork E.
  { right; right. exists d. split; [exact Hdecided|].
    split; [reflexivity|]. split; [reflexivity|]. split; [reflexivity|].
    left. split; reflexivity. }
  destruct (PolicyServer.needFollowup d) eqn:Hneed.
  - fork E.
    { right; right. exists d. split; [exact Hdecided|].
      split; [reflexivity|]. split; [reflexivity|]. split; [reflexivity|]. right; left.
      split; [reflexivity|]. split; [exact Hneed|reflexivity]. }
    fork E.
    { right; right. exists d. split; [exact Hdecided|].
      split; [reflexivity|]. split; [reflexivity|]. split; [reflexivity|]. right; right.
      split; [|reflexivity].
      unfold PolicyRun.s_followup. rewrite Hneed. reflexivity. }
    exists d. split; [exact Hdecided|]. rewrite Hneed.
    split; [reflexivity|].
    unfold PolicyRun.s_done, PolicyRun.s_followup. rewrite Hneed. reflexivity.
  - erewrite bind_ok by reflexivity. tidy.
    fork E.
    { right; right. exists d. split; [exact Hdecided|].
      split; [reflexivity|]. split; [reflexivity|]. split; [reflexivity|]. right; right.
      split; [|reflexivity].
      unfold PolicyRun.s_followup. rewrite Hneed. reflexivity. }
    exists d. split; [exact Hdecided|]. rewrite Hneed.
    split; [reflexivity|].
    unfold PolicyRun.s_done, PolicyRun.s_followup. rewrite Hneed. reflexivity.
Qed.
End PolicyAny.


Section PolicyOutcomes.
Context {RT : Runtime} (E : env).

Lemma policy_webhook_validated (req : payload) (sender txt : string)
    (w : world PolicyServer.config) :
  fails E POOL_CONNECT = false ->
  validated (now E) req sender txt ->
  PolicyServer.webhook E req w
  = match PolicyServer.handle E sender txt
            (receivedAt (parseSmsProviderPayload (now E) req)) w with
    | (Ok r, w') => (Ok r, w')
    | (Throw _, w') =>
        (Ok {| status := 500; body := ErrorBody "internal_server_error" |}, w')
    end.
Proof.
  intros Hconnect (Hfrom & Htext & Hs & Ht).
  unfold PolicyServer.webhook.
  erewrite bind_ok by (apply connect_ok; exact Hconnect). cbv beta.
  rewrite finally_release.
  unfold try_catch. rewrite Hfrom, Htext. cbn [nonempty].
  apply String.eqb_neq in Hs, Ht. rewrite Hs, Ht. cbn [negb orb].
  destruct (PolicyServer.handle _ _ _ _ _) as [[r|e] w']; reflexivity.
Qed.

Lemma policy_partial_rows (sender txt : string) (received : date)
    (cfg : PolicyServer.config) (d : PolicyServer.decision) (s : session) :
  let inn := PolicyServer.in_row sender txt received (messages_id_seq s) in
  let out := PolicyRun.out_done E sender txt cfg d s in
  (messages (visible (PolicyRun.s_in sender txt received s))
   = inn :: messages (visible s)
   /\ followup_queue (visible (PolicyRun.s_in sender txt received s))
      = followup_queue (visible s))
  /\ (messages (visible (PolicyRun.s_out E sender txt received cfg d s))
      = out :: inn :: messages (visible s)
      /\ followup_queue (visible (PolicyRun.s_out E sender txt received cfg d s))
         = followup_queue (visible s))
  /\ (messages (visible (PolicyRun.s_followup E sender txt received cfg d s))
      = out :: inn :: messages (visible s)
      /\ followup_queue (visible (PolicyRun.s_followup E sender txt received cfg d s))
         = (PolicyRun.followups d s ++ followup_queue (visible s))%list).
Proof.
  unfold PolicyRun.s_followup, PolicyRun.followups.
  destruct (PolicyServer.needFollowup d); repeat split.
Qed.

End PolicyOutcomes.

(** X14.  The policy pipeline always answers once it has a client, and it
    never undoes what it did.  A rejected request is answered 400 with
    the world untouched.  A validated one is answered 200 with the two
    rows of the exchange, the [IN] row classified, and the follow-up
    entry the decision asks for; or 500, and then the tables hold a
    prefix of that exchange: nothing, when the insert of the [IN] row
    was rejected; the bare [IN] row, when the classification, the
    decision or the insert of the [OUT] row failed; both rows without
    the entry, or both rows with it and the [IN] row never classified,
    when a later statement was rejected.  From the decision on, the
    reply has been handed to [sendSms], whatever the answer is. *)
Theorem policy_webhook_answers_and_leaves_a_prefix :
  forall {RT : Runtime} (E : env) (req : payload) (w : world PolicyServer.config),
    fails E POOL_CONNECT = false ->
    fresh (pg w) ->
    exists resp w' added queued sent,
      PolicyServer.webhook E req w = (Ok resp, w')
      /\ messages (visible (pg w')) = (added ++ messages (visible (pg w)))%list
      /\ followup_queue (visible (pg w'))
         = (queued ++ followup_queue (visible (pg w)))%list
      /\ outbox w' = (sent ++ outbox w)%list
      /\ ((resp = {| status := 400; body := ErrorBody "from, text is required" |}
           /\ rejected (now E) req
           /\ w' = w /\ added = [] /\ queued = [] /\ sent = [])
          \/ exists sender txt,
              validated (now E) req sender txt
              /\ let received := receivedAt (parseSmsProviderPayload (now E) req) in
                 let cfg := PolicyRun.config_used E w in
                 let failed :=
                   {| status := 500; body := ErrorBody "internal_server_error" |} in
                 let inn :=
                   PolicyServer.in_row sender txt received (messages_id_seq (pg w)) in
                 (resp = failed /\ fails E INSERT_IN = true
                  /\ w' = w /\ added = [] /\ queued = [] /\ sent = [])
                 \/ (resp = failed /\ added = [inn] /\ queued = [] /\ sent = [])
                 \/ exists d,
                     PolicyRun.decided E txt received cfg = Ok d
                     /\ sent = [policy_sms sender d]
                     /\ asked w' = PolicyRun.call txt cfg :: asked w
                     /\ let out := PolicyRun.out_done E sender txt cfg d (pg w) in
                        (resp = failed /\ fails E INSERT_OUT = true
                         /\ added = [inn] /\ queued = [])
                        \/ (resp = failed /\ PolicyServer.needFollowup d = true
                            /\ fails E INSERT_FOLLOWUP = true
                            /\ added = [out; inn] /\ queued = [])
                        \/ (resp = failed /\ fails E UPDATE_IN = true
                            /\ added = [out; inn]
                            /\ queued = PolicyRun.followups d (pg w))
                        \/ (resp = {| status := 200;
                                      body := PolicyOk (messages_id_seq (pg w))
                                                (messages_id_seq (pg w) + 1)
                                                (PolicyServer.intent
                                                   (PolicyRun.classified E txt cfg))
                                                "UNKNOWN" (isNightTime received)
                                                (PolicyServer.needFollowup d) |}
                            /\ added = [out;
                                        PolicyRun.in_done E sender txt received
                                          cfg d (pg w)]
                            /\ queued = PolicyRun.followups d (pg w))).
Proof.
  intros RT E req w Hconnect Hfresh.
  destruct (validated_or_rejected (now E) req) as [Hrej|(sender & txt & Hvalid)].
  { exists {| status := 400; body := ErrorBody "from, text is required" |}, w, [], [], [].
    split; [now apply policy_webhook_rejected|].
    do 3 (split; [reflexivity|]). left. repeat split; auto. }
  rewrite (policy_webhook_validated E req sender txt w Hconnect Hvalid).
  set (received := receivedAt (parseSmsProviderPayload (now E) req)).
  pose proof (policy_handle_any E sender txt received w) as H. cbv zeta in H.
  pose proof (fun d => policy_partial_rows E sender txt received
                          (PolicyRun.config_used E w) d (pg w)) as Hrows.
  cbv zeta in Hrows.
  destruct (PolicyServer.handle E sender txt received w) as [[resp|e] w'].
  - destruct H as (d & Hd & -> & ->).
    eexists. eexists.
    exists [PolicyRun.out_done E sender txt (PolicyRun.config_used E w) d (pg w);
            PolicyRun.in_done E sender txt received (PolicyRun.config_used E w) d (pg w)],
      (PolicyRun.followups d (pg w)), [policy_sms sender d].
    split; [reflexivity|]. cbn [pg outbox asked].
    split; [now apply policy_done_messages|].
    split; [apply policy_done_followups|].
    split; [reflexivity|].
    right. exists sender, txt. split; [exact Hvalid|].
    right; right. exists d. split; [exact Hd|]. split; [reflexivity|].
    split; [reflexivity|]. right; right; right. repeat split.
  - destruct H as [(-> & Hin)
                  |[(Hpg & Hout & _)
                   |(d & Hd & Hout & _ & Hasked
                     & [(Hpg & Hf)|[(Hpg & Hneed & Hf)|(Hpg & Hf)]])]].
    + eexists. exists w, [], [], [].
      split; [reflexivity|]. do 3 (split; [reflexivity|]).
      right. exists sender, txt. split; [exact Hvalid|]. left. repeat split; auto.
    + eexists. exists w',
        [PolicyServer.in_row sender txt received (messages_id_seq (pg w))], [], [].
      split; [reflexivity|]. rewrite Hpg, Hout.
      do 3 (split; [reflexivity|]).
      right. exists sender, txt. split; [exact Hvalid|]. right; left. repeat split.
    + eexists. exists w',
        [PolicyServer.in_row sender txt received (messages_id_seq (pg w))], [],
        [policy_sms sender d].
      split; [reflexivity|]. rewrite Hpg, Hout.
      do 3 (split; [reflexivity|]).
      right. exists sender, txt. split; [exact Hvalid|]. right; right.
      exists d. split; [exact Hd|]. split; [reflexivity|]. split; [exact Hasked|].
      left. repeat split. exact Hf.
    + eexists. exists w',
        [PolicyRun.out_done E sender txt (PolicyRun.config_used E w) d (pg w);
         PolicyServer.in_row sender txt received (messages_id_seq (pg w))], [],
        [policy_sms sender d].
      split; [reflexivity|]. rewrite Hpg, Hout.
      do 3 (split; [reflexivity|]).
      right. exists sender, txt. split; [exact Hvalid|]. right; right.
      exists d. split; [exact Hd|]. split; [reflexivity|]. split; [exact Hasked|].
      right; left. repeat split; assumption.
    + eexists. exists w',
        [PolicyRun.out_done E sender txt (PolicyRun.config_used E w) d (pg w);
         PolicyServer.in_row sender txt received (messages_id_seq (pg w))],
        (PolicyRun.followups d (pg w)), [policy_sms sender d].
      split; [reflexivity|]. rewrite Hpg, Hout.
      split; [apply (Hrows d)|]. split; [apply (Hrows d)|]. split; [reflexivity|].
      right. exists sender, txt. split; [exact Hvalid|]. right; right.
      exists d. split; [exact Hd|]. split; [reflexivity|]. split; [exact Hasked|].
      right; right; left. repeat split. exact Hf.
Qed.

(* ===================================================================== *)
(** ** Edges of the orchestrator pipeline *)
(* ===================================================================== *)

Section OrchestratorEdges.
Context {RT : Runtime} (E : env).

Let W := world ServerJs.config.

(** Once a reply is decided it is handed to [sendSms]; a statement
    rejected after that makes the body throw inside the transaction. *)
Lemma server_handle_sent_then_rejected (sender txt : string) (received : date)
    (w : W) (t : string) :
  OrchestratorRun.reaches_model E = true ->
  ServerJs.reply_to_send
    (ServerJs.reply_text (OrchestratorRun.result E sender txt received (pg w)))
    = Ok (Some t) ->
  fails E INSERT_OUT = true
  \/ (ServerJs.need_followup (OrchestratorRun.result E sender txt received (pg w)) = true
      /\ fails E INSERT_FOLLOWUP = true)
  \/ fails E UPDATE_IN = true
  \/ fails E COMMIT = true ->
  exists e w',
    ServerJs.handle E sender txt received w = (Throw e, w')
    /\ outbox w' = {| sms_to := sender; sms_text := Some t |} :: outbox w
    /\ asked w' = OrchestratorRun.call sender txt received (pg w) :: asked w
    /\ cachedConfig w' = cachedConfig w
    /\ committed (pg w') = committed (pg w).
Proof.
  intros Hreach Hreply Hrejected.
  unfold OrchestratorRun.reaches_model in Hreach.
  apply negb_true_iff in Hreach.
  repeat (apply orb_false_iff in Hreach as [Hreach ?]).
  unfold ServerJs.handle, ServerJs.retrieveKnowledgeForRAG, getGuestState, sendSms.
  erewrite bind_ok by (apply query_ok; assumption). tidy.
  rewrite ?bind_assoc.
  erewrite bind_ok by (apply query_ok; assumption). tidy.
  erewrite bind_ok by reflexivity. tidy.
  rewrite ?bind_assoc.
  erewrite bind_ok by (apply query_ok; assumption). tidy.
  rewrite ?bind_assoc.
  erewrite bind_ok by (apply query_ok; assumption). tidy.
  erewrite bind_ok by apply runOrchestratorLLM_run. tidy.
  change (orchestrated _) with (OrchestratorRun.result E sender txt received (pg w)).
  change (orchestrator_call _ _ _ _) with (OrchestratorRun.call sender txt received (pg w)).
  set (r := OrchestratorRun.result E sender txt received (pg w)) in *.
  erewrite bind_ok by (unfold lift; rewrite Hreply; reflexivity). tidy.
  rewrite ?bind_assoc. erewrite bind_ok by reflexivity. tidy.
  fork E; [do 2 eexists; split; [reflexivity|]; repeat split|].
  erewrite bind_ok by reflexivity. tidy.
  destruct (ServerJs.need_followup r) eqn:Hneed.
  - fork E; [do 2 eexists; split; [reflexivity|]; repeat split|].
    fork E; [do 2 eexists; split; [reflexivity|]; repeat split|].
    fork E; [do 2 eexists; split; [reflexivity|]; repeat split|].
    exfalso. destruct Hrejected as [H'|[[_ H']|[H'|H']]]; discriminate.
  - erewrite bind_ok by reflexivity. tidy.
    fork E; [do 2 eexists; split; [reflexivity|]; repeat split|].
    fork E; [do 2 eexists; split; [reflexivity|]; repeat split|].
    exfalso. destruct Hrejected as [H'|[[H' _]|[H'|H']]]; discriminate.
Qed.

Lemma reply_to_send_none (v : value) :
  ServerJs.reply_to_send v = Ok None
  <-> truthy v = false \/ exists s, v = VStr s /\ trim s = "".
Proof.
  unfold ServerJs.reply_to_send. split.
  - destruct (truthy v) eqn:Hv; [|now left].
    destruct v; try discriminate.
    destruct (String.eqb_spec (trim s) ""); [|discriminate].
    intros _. right. eauto.
  - intros [->|(s & -> & Hs)]; [reflexivity|].
    rewrite Hs. cbn [String.eqb]. now destruct (truthy (VStr s)).
Qed.

Lemma reply_to_send_throws (v : value) :
  truthy v = true -> (forall s, v <> VStr s) ->
  ServerJs.reply_to_send v = Throw (TypeError "reply_text.trim is not a function").
Proof.
  intros Hv Hs. unfold ServerJs.reply_to_send. rewrite Hv.
  destruct v; try reflexivity. now contradiction (Hs s).
Qed.

End OrchestratorEdges.

(** X17.  When the call to the model fails, or its answer does not
    parse, or parses to something that is no object, the orchestrator
    handler answers 200 all the same: provided the fallback text is not
    blank for [trim], it hands that text to [sendSms], records it as
    the [OUT] row with intent GENERIC and need_followup set, marks the
    [IN] row alike, and queues one PENDING entry of reason LLM_FLAGGED
    for the [IN] row. *)
Theorem orchestrator_failure_sends_the_fallback :
  forall {RT : Runtime} (E : env) (req : payload) (sender txt : string)
         (w : world ServerJs.config),
    (forall o, fails E o = false) ->
    validated (now E) req sender txt ->
    fresh (pg w) ->
    trim FALLBACK_TEXT <> "" ->
    let received := receivedAt (parseSmsProviderPayload (now E) req) in
    let history := OrchestratorRun.history_read sender txt received (pg w) in
    let knowledge := OrchestratorRun.knowledge_read sender txt received (pg w) in
    let answer := orchestrator_answer E txt "UNKNOWN" history knowledge in
    answer = ApiFailure
    \/ (exists c, answer = Content c /\ JSON_parse (ServerJs.raw_of c) = None)
    \/ (exists c parsed,
          answer = Content c /\ JSON_parse (ServerJs.raw_of c) = Some parsed
          /\ is_object parsed = false) ->
    let id := messages_id_seq (pg w) in
    exists w' out inn,
      (forall w1,
          fst (ServerJs.runOrchestratorLLM E txt "UNKNOWN" history knowledge w1)
          = Ok ServerJs.FALLBACK)
      /\ ServerJs.webhook E req w
         = (Ok {| status := 200;
                  body := OrchestratorOk id (Some (id + 1)) (VStr "GENERIC")
                            VNull false |}, w')
      /\ outbox w' = {| sms_to := sender; sms_text := Some FALLBACK_TEXT |} :: outbox w
      /\ messages (committed (pg w')) = out :: inn :: messages (visible (pg w))
      /\ m_direction out = "OUT"
      /\ m_text out = Some FALLBACK_TEXT
      /\ m_intent out = Some "GENERIC"
      /\ m_handled_by out = Some "LLM_ORCHESTRATOR"
      /\ m_need_followup out = Some true
      /\ m_resolved out = Some false
      /\ m_reply_to_id out = Some id
      /\ m_id inn = id
      /\ m_direction inn = "IN"
      /\ m_text inn = Some txt
      /\ m_intent inn = Some "GENERIC"
      /\ m_need_followup inn = Some true
      /\ m_resolved inn = Some false
      /\ followup_queue (committed (pg w'))
         = {| f_message_id := id; f_status := "PENDING";
              f_reason := Some "LLM_FLAGGED" |} :: followup_queue (visible (pg w)).
Proof.
  intros RT E req sender txt w calm Hvalid Hfresh Htrim received history knowledge
    answer Hanswer id.
  assert (OrchestratorRun.result E sender txt received (pg w) = ServerJs.FALLBACK)
    as Hresult.
  { unfold OrchestratorRun.result, orchestrated.
    fold history knowledge answer.
    destruct Hanswer as [->|[(c & -> & ->)|(c & parsed & -> & -> & Hobj)]];
      try reflexivity.
    destruct (negb (truthy parsed) || negb (typeof_object parsed)) eqn:Hn;
      [reflexivity|].
    apply is_object_spec in Hn. congruence. }
  assert (ServerJs.reply_to_send
            (ServerJs.reply_text (OrchestratorRun.result E sender txt received (pg w)))
          = Ok (Some FALLBACK_TEXT)) as Hreply.
  { rewrite Hresult. apply reply_to_send_some.
    split; [reflexivity|]. split; [|exact Htrim].
    intros H. vm_compute in H. discriminate. }
  pose proof (server_webhook_calm E req sender txt w (Some FALLBACK_TEXT)
                calm Hvalid Hreply) as Hrun.
  cbv zeta in Hrun. fold received in Hrun.
  pose proof (orchestrator_done_messages E sender txt received (pg w)
                (Some FALLBACK_TEXT) Hfresh) as Hrows.
  pose proof (orchestrator_done_followups E sender txt received (pg w)
                (Some FALLBACK_TEXT)) as Hqueue.
  unfold OrchestratorRun.followups in Hqueue.
  unfold OrchestratorRun.out_rows, OrchestratorRun.in_done in Hrows.
  rewrite Hresult in Hrun, Hrows, Hqueue.
  eexists. eexists. eexists.
  split.
  { intros w1. rewrite runOrchestratorLLM_run. cbn [fst].
    exact (f_equal Ok Hresult). }
  split; [exact Hrun|]. cbn [pg outbox].
  split; [reflexivity|].
  rewrite orchestrator_done_committed.
  split; [exact Hrows|].
  split; [reflexivity|]. split; [reflexivity|]. split; [reflexivity|].
  split; [reflexivity|]. split; [reflexivity|]. split; [reflexivity|].
  split; [reflexivity|]. split; [reflexivity|]. split; [reflexivity|].
  split; [reflexivity|]. split; [reflexivity|]. split; [reflexivity|].
  split; [reflexivity|]. exact Hqueue.
Qed.

(** X18.  When the model answers with no content, or with content that
    is blank for [trim], the raw text is ["{}"]; it parses to the empty
    object, every field takes its default, and the orchestrator handler
    answers 200 having sent nothing: no SMS, no [OUT] row, no follow-up
    entry, and the [IN] row marked resolved with intent GENERIC. *)
Theorem orchestrator_empty_answer_is_resolved_without_a_reply :
  forall {RT : Runtime} (E : env) (req : payload) (sender txt : string)
         (w : world ServerJs.config) (c : option string),
    (forall o, fails E o = false) ->
    validated (now E) req sender txt ->
    fresh (pg w) ->
    JSON_parse "{}" = Some (VObj []) ->
    let received := receivedAt (parseSmsProviderPayload (now E) req) in
    let history := OrchestratorRun.history_read sender txt received (pg w) in
    let knowledge := OrchestratorRun.knowledge_read sender txt received (pg w) in
    orchestrator_answer E txt "UNKNOWN" history knowledge = Content c ->
    c = None \/ (exists s, c = Some s /\ trim s = "") ->
    let id := messages_id_seq (pg w) in
    exists w' inn,
      ServerJs.raw_of c = "{}"
      /\ (forall w1,
            fst (ServerJs.runOrchestratorLLM E txt "UNKNOWN" history knowledge w1)
            = Ok {| ServerJs.reply_text := VStr "";
                    ServerJs.intent := VStr "GENERIC";
                    ServerJs.flow_type := VNull;
                    ServerJs.slots := VObj [];
                    ServerJs.need_followup := false;
                    ServerJs.end_flow := false |})
      /\ ServerJs.webhook E req w
         = (Ok {| status := 200;
                  body := OrchestratorOk id None (VStr "GENERIC") VNull false |}, w')
      /\ outbox w' = outbox w
      /\ messages (committed (pg w')) = inn :: messages (visible (pg w))
      /\ m_id inn = id
      /\ m_direction inn = "IN"
      /\ m_text inn = Some txt
      /\ m_intent inn = Some "GENERIC"
      /\ m_need_followup inn = Some false
      /\ m_resolved inn = Some true
      /\ followup_queue (committed (pg w')) = followup_queue (visible (pg w)).
Proof.
  intros RT E req sender txt w c calm Hvalid Hfresh Hparse received history knowledge
    Hanswer Hblank id.
  assert (ServerJs.raw_of c = "{}") as Hraw.
  { destruct Hblank as [->|(s & -> & Hs)]; [reflexivity|].
    cbn [ServerJs.raw_of]. now rewrite Hs. }
  assert (OrchestratorRun.result E sender txt received (pg w)
          = {| ServerJs.reply_text := VStr "";
               ServerJs.intent := VStr "GENERIC";
               ServerJs.flow_type := VNull;
               ServerJs.slots := VObj [];
               ServerJs.need_followup := false;
               ServerJs.end_flow := false |}) as Hresult.
  { unfold OrchestratorRun.result, orchestrated.
    fold history knowledge. rewrite Hanswer, Hraw, Hparse. reflexivity. }
  assert (ServerJs.reply_to_send
            (ServerJs.reply_text (OrchestratorRun.result E sender txt received (pg w)))
          = Ok None) as Hreply.
  { rewrite Hresult. reflexivity. }
  pose proof (server_webhook_calm E req sender txt w None calm Hvalid Hreply) as Hrun.
  cbv zeta in Hrun. fold received in Hrun.
  pose proof (orchestrator_done_messages E sender txt received (pg w) None Hfresh)
    as Hrows.
  pose proof (orchestrator_done_followups E sender txt received (pg w) None) as Hqueue.
  unfold OrchestratorRun.followups in Hqueue.
  unfold OrchestratorRun.out_rows, OrchestratorRun.in_done in Hrows.
  rewrite Hresult in Hrun, Hrows, Hqueue.
  eexists. eexists.
  split; [exact Hraw|].
  split.
  { intros w1. rewrite runOrchestratorLLM_run. cbn [fst].
    exact (f_equal Ok Hresult). }
  split; [exact Hrun|]. cbn [pg outbox].
  split; [reflexivity|].
  rewrite orchestrator_done_committed.
  split; [exact Hrows|].
  do 6 (split; [reflexivity|]). exact Hqueue.
Qed.

(** X19.  When the reply text of the result is truthy and no string (a
    number, [true], an array, an object), [reply_text.trim] is no
    function: the orchestrator handler, the database accepting every
    statement, rolls back and answers 500.  The model was called, no
    SMS is sent, and the tables are the committed ones of before. *)
Theorem orchestrator_non_text_reply_is_answered_500 :
  forall {RT : Runtime} (E : env) (req : payload) (sender txt : string)
         (w : world ServerJs.config),
    (forall o, fails E o = false) ->
    validated (now E) req sender txt ->
    let received := receivedAt (parseSmsProviderPayload (now E) req) in
    let history := OrchestratorRun.history_read sender txt received (pg w) in
    let knowledge := OrchestratorRun.knowledge_read sender txt received (pg w) in
    let r := OrchestratorRun.result E sender txt received (pg w) in
    truthy (ServerJs.reply_text r) = true ->
    (forall s, ServerJs.reply_text r <> VStr s) ->
    exists w',
      (forall w1,
          fst (ServerJs.runOrchestratorLLM E txt "UNKNOWN" history knowledge w1)
          = Ok r)
      /\ ServerJs.webhook E req w
         = (Ok {| status := 500; body := ErrorBody "internal_server_error" |}, w')
      /\ outbox w' = outbox w
      /\ asked w' = OrchestratorRun.call sender txt received (pg w) :: asked w
      /\ committed (pg w') = committed (pg w)
      /\ visible (pg w') = committed (pg w)
      /\ snapshot (pg w') = None.
Proof.
  intros RT E req sender txt w calm Hvalid received history knowledge r Htruthy Hstr.
  pose proof (server_webhook_type_error E req sender txt w _ calm Hvalid
                (reply_to_send_throws _ Htruthy Hstr)) as Hrun.
  cbv zeta in Hrun.
  eexists.
  split; [intros w1; now rewrite runOrchestratorLLM_run|].
  split; [exact Hrun|]. repeat split.
Qed.

(** X20.  The orchestrator handler hands the reply to [sendSms] before
    it records it.  When the model was reached and a reply was decided,
    and the insert of the [OUT] row, the insert of a needed follow-up
    entry, the update of the [IN] row or the commit is rejected, the
    handler rolls back and answers 500: the tables are the committed
    ones of before the request, and the SMS has been sent all the
    same. *)
Theorem orchestrator_reply_is_sent_before_it_is_recorded :
  forall {RT : Runtime} (E : env) (req : payload) (sender txt : string)
         (w : world ServerJs.config) (t : string),
    validated (now E) req sender txt ->
    OrchestratorRun.reaches_model E = true ->
    fails E ROLLBACK = false ->
    let received := receivedAt (parseSmsProviderPayload (now E) req) in
    let history := OrchestratorRun.history_read sender txt received (pg w) in
    let knowledge := OrchestratorRun.knowledge_read sender txt received (pg w) in
    let r := OrchestratorRun.result E sender txt received (pg w) in
    ServerJs.reply_to_send (ServerJs.reply_text r) = Ok (Some t) ->
    fails E INSERT_OUT = true
    \/ (ServerJs.need_followup r = true /\ fails E INSERT_FOLLOWUP = true)
    \/ fails E UPDATE_IN = true
    \/ fails E COMMIT = true ->
    exists w',
      (forall w1,
          fst (ServerJs.runOrchestratorLLM E txt "UNKNOWN" history knowledge w1)
          = Ok r)
      /\ ServerJs.webhook E req w
         = (Ok {| status := 500; body := ErrorBody "internal_server_error" |}, w')
      /\ outbox w' = {| sms_to := sender; sms_text := Some t |} :: outbox w
      /\ asked w' = OrchestratorRun.call sender txt received (pg w) :: asked w
      /\ committed (pg w') = committed (pg w)
      /\ visible (pg w') = committed (pg w)
      /\ snapshot (pg w') = None.
Proof.
  intros RT E req sender txt w t Hvalid Hreach Hrollback received history knowledge r
    Hreply Hrejected.
  destruct (server_handle_sent_then_rejected E sender txt received w t
              Hreach Hreply Hrejected)
    as (e & w1 & Hrun & Hout & Hasked & _ & Hcommitted).
  assert (fails E POOL_CONNECT = false) as Hconnect.
  { unfold OrchestratorRun.reaches_model in Hreach.
    apply negb_true_iff in Hreach.
    repeat (apply orb_false_iff in Hreach as [Hreach ?]). exact Hreach. }
  eexists.
  split; [intros w2; now rewrite runOrchestratorLLM_run|].
  split.
  { rewrite (server_webhook_validated E req sender txt w Hconnect Hvalid).
    fold received. rewrite Hrun.
    erewrite bind_ok by (apply query_ok; exact Hrollback). reflexivity. }
  cbn [pg outbox asked set_pg sql_rollback snd committed snapshot visible].
  repeat split; assumption.
Qed.

(* ===================================================================== *)
(** ** Reloading the configuration *)
(* ===================================================================== *)

(** X21.  [POST /admin/reload-config] always answers, and touches
    nothing but [cachedConfig].  It answers 200 exactly when the pool
    gives a client, the three reads are accepted and no active template
    is named like a property every object inherits; the snapshot is then
    the freshly loaded one.  Otherwise it answers 500 with the error
    caught, and the world, the previous snapshot included, is exactly
    as it was. *)
Theorem reload_config_answers_and_keeps_the_snapshot_on_failure :
  forall {RT : Runtime} (E : env) (w : world ServerJs.config),
    let active := filter t_is_active (intent_templates (visible (pg w))) in
    exists resp w',
      ServerJsAdmin.reloadConfig E w = (Ok resp, w')
      /\ pg w' = pg w /\ outbox w' = outbox w /\ asked w' = asked w
      /\ ((resp = {| ServerJsAdmin.admin_status := 200;
                     ServerJsAdmin.admin_json := ServerJsAdmin.Reloaded |}
           /\ fails E POOL_CONNECT = false /\ fails E SELECT_INTENTS = false
           /\ fails E SELECT_SETTINGS = false /\ fails E SELECT_TEMPLATES = false
           /\ (forall row, In row active ->
                 inb (t_intent_name row) object_prototype_names = false)
           /\ ServerJs.lastLoadedAt (cachedConfig w') = Some (now E)
           /\ ServerJs.cfg_intents (cachedConfig w') = intents (visible (pg w))
           /\ ServerJs.groupTemplates active [] = Ok (ServerJs.templates (cachedConfig w')))
          \/ (exists e,
                resp = {| ServerJsAdmin.admin_status := 500;
                          ServerJsAdmin.admin_json := ServerJsAdmin.Failed e |}
                /\ w' = w
                /\ ((exists o, e = DbError o /\ fails E o = true
                               /\ In o [POOL_CONNECT; SELECT_INTENTS;
                                        SELECT_SETTINGS; SELECT_TEMPLATES])
                    \/ (e = TypeError
                              "templatesByIntent[row.intent_name].push is not a function"
                        /\ exists row,
                            In row active
                            /\ inb (t_intent_name row) object_prototype_names = true)))).
Proof.
  intros RT E w active.
  unfold ServerJsAdmin.reloadConfig, try_catch, bind.
  rewrite server_loadConfig_run. fold active.
  destruct (fails E POOL_CONNECT) eqn:Hc.
  { do 2 eexists. split; [reflexivity|]. do 3 (split; [reflexivity|]).
    right. eexists. split; [reflexivity|]. split; [reflexivity|].
    left. exists POOL_CONNECT. repeat split; cbn; auto 10. }
  destruct (fails E SELECT_INTENTS) eqn:Hi.
  { do 2 eexists. split; [reflexivity|]. do 3 (split; [reflexivity|]).
    right. eexists. split; [reflexivity|]. split; [reflexivity|].
    left. exists SELECT_INTENTS. repeat split; cbn; auto 10. }
  destruct (fails E SELECT_SETTINGS) eqn:Hs.
  { do 2 eexists. split; [reflexivity|]. do 3 (split; [reflexivity|]).
    right. eexists. split; [reflexivity|]. split; [reflexivity|].
    left. exists SELECT_SETTINGS. repeat split; cbn; auto 10. }
  destruct (fails E SELECT_TEMPLATES) eqn:Ht.
  { do 2 eexists. split; [reflexivity|]. do 3 (split; [reflexivity|]).
    right. eexists. split; [reflexivity|]. split; [reflexivity|].
    left. exists SELECT_TEMPLATES. repeat split; cbn; auto 10. }
  pose proof (groupTemplates_spec active []) as Hgroup.
  destruct (ServerJs.groupTemplates active []) as [grouped|e].
  - destruct Hgroup as (Hnone & _).
    do 2 eexists. split; [reflexivity|]. do 3 (split; [reflexivity|]).
    left. repeat split; auto.
  - destruct Hgroup as (-> & Hrow).
    do 2 eexists. split; [reflexivity|]. do 3 (split; [reflexivity|]).
    right. eexists. split; [reflexivity|]. split; [reflexivity|].
    right. split; [reflexivity|exact Hrow].
Qed.

(* ===================================================================== *)
(** ** Who replaces the cached configuration *)
(* ===================================================================== *)

Lemma server_webhook_keeps_config {RT : Runtime} (E : env) (req : payload)
    (cfg : ServerJs.config) :
  keeps (fun w : world ServerJs.config => cachedConfig w = cfg)
    (ServerJs.webhook E req).
Proof.
  unfold ServerJs.webhook, ServerJs.handle, ServerJs.retrieveKnowledgeForRAG,
    ServerJs.runOrchestratorLLM, ServerJs.parse_or_null, getGuestState.
  keep_going ltac:(apply keeps_query; intros ? ?; assumption).
Qed.

(** X22.  The webhook of server.js never touches [cachedConfig]:
    whatever the request and whatever fails, the snapshot after the
    run is the one before; only [loadConfig] replaces it.  The webhook
    of the policy server leaves it alone as soon as one was loaded;
    when none was, its classifier loads one first, and the snapshot
    after the run is either the one before or the one loaded from the
    tables.  A snapshot once loaded stays a loaded one, whether a later
    [loadConfig] returns or throws. *)
Theorem webhooks_leave_the_cached_configuration :
  forall {RT : Runtime} (E : env) (req : payload),
    (forall w : world ServerJs.config,
        cachedConfig (snd (ServerJs.webhook E req w)) = cachedConfig w)
    /\ (forall w : world PolicyServer.config,
          cachedConfig (snd (PolicyServer.webhook E req w)) = cachedConfig w
          \/ (PolicyServer.lastLoadedAt (cachedConfig w) = None
              /\ cachedConfig (snd (PolicyServer.webhook E req w))
                 = PolicyRun.loaded E (visible (pg w))))
    /\ (forall (w : world PolicyServer.config) (t : date),
          PolicyServer.lastLoadedAt (cachedConfig w) = Some t ->
          cachedConfig (snd (PolicyServer.webhook E req w)) = cachedConfig w
          /\ exists t',
              PolicyServer.lastLoadedAt
                (cachedConfig (snd (PolicyServer.loadConfig E w))) = Some t').
Proof.
  intros RT E req.
  assert (forall w : world PolicyServer.config,
             cachedConfig (snd (PolicyServer.webhook E req w)) = cachedConfig w
             \/ cachedConfig (snd (PolicyServer.webhook E req w))
                = PolicyRun.config_used E w) as Hpolicy.
  { intros w.
    destruct (fails E POOL_CONNECT) eqn:Hconnect.
    { left. unfold PolicyServer.webhook.
      now erewrite bind_throw by (apply connect_rejected; exact Hconnect). }
    destruct (validated_or_rejected (now E) req) as [Hrej|(sender & txt & Hvalid)].
    { left. now rewrite policy_webhook_rejected. }
    rewrite (policy_webhook_validated E req sender txt w Hconnect Hvalid).
    pose proof (policy_handle_any E sender txt
                  (receivedAt (parseSmsProviderPayload (now E) req)) w) as H.
    cbv zeta in H.
    destruct (PolicyServer.handle E sender txt _ w) as [[resp|e] w'].
    - destruct H as (d & _ & _ & ->). right. reflexivity.
    - cbn [snd].
      destruct H as [(-> & _)
                    |[(_ & _ & [(Hcfg & _)|(Hcfg & _)])
                     |(d & _ & _ & Hcfg & _)]]; auto. }
  split; [|split].
  - intros w. now apply (server_webhook_keeps_config E req (cachedConfig w)).
  - intros w. destruct (Hpolicy w) as [H|H]; [now left|].
    unfold PolicyRun.config_used in H.
    destruct (PolicyServer.lastLoadedAt (cachedConfig w)); [now left|right; auto].
  - intros w t Hloaded. split.
    + destruct (Hpolicy w) as [H|H]; [exact H|].
      unfold PolicyRun.config_used in H. now rewrite Hloaded in H.
    + rewrite policy_loadConfig_run.
      destruct (fails E POOL_CONNECT); [exists t; exact Hloaded|].
      destruct (fails E SELECT_INTENTS); [exists t; exact Hloaded|].
      destruct (fails E SELECT_SETTINGS); [exists t; exact Hloaded|].
      exists (now E). reflexivity.
Qed.

(* ===================================================================== *)
(** ** The classifier and the normal reply of the policy pipeline *)
(* ===================================================================== *)

(** X15.  [classifyIntent] throws only when no configuration was loaded
    and the load it then attempts is rejected; nothing is asked of the
    model in that case.  Otherwise it returns, having called the model
    once and touched no table: GENERIC with confidence 0.2 when the call
    fails or the answer parses to [null], GENERIC with confidence 0.3
    when the answer does not parse, and else the parsed intent or
    GENERIC when it is missing or falsy, the parsed confidence or 0.5
    when it is no number, and the truthiness of [is_complaint].  The
    intent it returns is never falsy. *)
Theorem classifyIntent_falls_back_and_throws_only_on_a_failed_load :
  forall {RT : Runtime} (E : env) (txt : string) (w : world PolicyServer.config),
    let cfg := PolicyRun.config_used E w in
    let answer := chat E (system_prompt (PolicyRun.call txt cfg))
                         (user_prompt (PolicyRun.call txt cfg)) in
    let raw := fun content : option string =>
                 match content with
                 | Some c => LlmSpec.or_text (trim c) ""
                 | None => ""
                 end in
    let generic := fun confidence : float =>
                     {| PolicyServer.intent := VStr "GENERIC";
                        PolicyServer.confidence := confidence;
                        PolicyServer.is_complaint := false |} in
    (exists c,
        PolicyServer.classifyIntent E txt "UNKNOWN" w
        = (Ok c, {| pg := pg w; cachedConfig := cfg; outbox := outbox w;
                    asked := PolicyRun.call txt cfg :: asked w |})
        /\ truthy (PolicyServer.intent c) = true
        /\ (answer = ApiFailure -> c = generic 0x1.999999999999ap-3%float)
        /\ (forall content,
              answer = Content content -> JSON_parse (raw content) = None ->
              c = generic 0x1.3333333333333p-2%float)
        /\ (forall content,
              answer = Content content -> JSON_parse (raw content) = Some VNull ->
              c = generic 0x1.999999999999ap-3%float)
        /\ (forall content parsed,
              answer = Content content -> JSON_parse (raw content) = Some parsed ->
              parsed <> VNull -> parsed <> VUndefined ->
              PolicyServer.intent c
              = (if truthy (get parsed "intent")
                 then get parsed "intent" else VStr "GENERIC")
              /\ PolicyServer.confidence c
                 = match get parsed "confidence" with
                   | VNum n => n
                   | _ => 0.5%float
                   end
              /\ PolicyServer.is_complaint c = truthy (get parsed "is_complaint")))
    \/ (PolicyServer.lastLoadedAt (cachedConfig w) = None
        /\ exists o,
            PolicyServer.classifyIntent E txt "UNKNOWN" w = (Throw (DbError o), w)
            /\ fails E o = true).
Proof.
  intros RT E txt w cfg answer raw generic.
  assert (truthy (PolicyServer.intent (PolicyRun.classified E txt cfg)) = true
          /\ (answer = ApiFailure ->
              PolicyRun.classified E txt cfg = generic 0x1.999999999999ap-3%float)
          /\ (forall content,
                answer = Content content -> JSON_parse (raw content) = None ->
                PolicyRun.classified E txt cfg = generic 0x1.3333333333333p-2%float)
          /\ (forall content,
                answer = Content content -> JSON_parse (raw content) = Some VNull ->
                PolicyRun.classified E txt cfg = generic 0x1.999999999999ap-3%float)
          /\ (forall content parsed,
                answer = Content content -> JSON_parse (raw content) = Some parsed ->
                parsed <> VNull -> parsed <> VUndefined ->
                PolicyServer.intent (PolicyRun.classified E txt cfg)
                = (if truthy (get parsed "intent")
                   then get parsed "intent" else VStr "GENERIC")
                /\ PolicyServer.confidence (PolicyRun.classified E txt cfg)
                   = match get parsed "confidence" with
                     | VNum n => n
                     | _ => 0.5%float
                     end
                /\ PolicyServer.is_complaint (PolicyRun.classified E txt cfg)
                   = truthy (get parsed "is_complaint"))) as Hclassified.
  { unfold PolicyRun.classified. fold answer.
    destruct answer as [|content].
    { split; [reflexivity|]. split; [reflexivity|].
      split; [discriminate|]. split; discriminate. }
    fold (raw content).
    destruct (JSON_parse (raw content)) as [parsed|] eqn:Hparse.
    2: { split; [reflexivity|]. split; [discriminate|].
         split; [reflexivity|].
         split; [intros c' [= <-] H; rewrite Hparse in H; discriminate|].
         intros c' p [= <-] H; rewrite Hparse in H; discriminate. }
    split.
    { destruct parsed; cbn [PolicyServer.classification_of PolicyServer.intent];
        try reflexivity; now apply js_or_truthy. }
    split; [discriminate|].
    split; [intros c' [= <-] H; rewrite Hparse in H; discriminate|].
    split.
    { intros c' [= <-] H. rewrite Hparse in H. injection H as ->. reflexivity. }
    intros c' p [= <-] H Hnull Hundef. rewrite Hparse in H. injection H as <-.
    destruct parsed; try (now contradiction Hnull); try (now contradiction Hundef);
      repeat split. }
  rewrite policy_classifyIntent_run. unfold cfg, PolicyRun.config_used in *.
  destruct (PolicyServer.lastLoadedAt (cachedConfig w)) as [t|].
  { left. eexists. split; [destruct w; reflexivity|exact Hclassified]. }
  destruct (fails E POOL_CONNECT) eqn:Hc;
    [right; split; [reflexivity|]; exists POOL_CONNECT; auto|].
  destruct (fails E SELECT_INTENTS) eqn:Hi;
    [right; split; [reflexivity|]; exists SELECT_INTENTS; auto|].
  destruct (fails E SELECT_SETTINGS) eqn:Hs;
    [right; split; [reflexivity|]; exists SELECT_SETTINGS; auto|].
  left. eexists. split; [reflexivity|exact Hclassified].
Qed.

(** X16.  [generateReplyWithLLM] never calls the model: the name it
    reads for the system prompt is not in scope, so the read throws
    inside its [try] and the [catch] returns the fixed fallback text;
    only an intent whose conversion to text throws makes it throw.  So
    a message of the policy pipeline that is no complaint and is not
    deferred is answered with that fixed text, the database accepting
    every statement: it is the SMS sent and the text of the [OUT] row,
    no follow-up is asked for, and the only call to the model during
    the request is the classifier's. *)
Theorem policy_normal_reply_is_the_fixed_fallback :
  forall {RT : Runtime} (E : env) (req : payload) (sender txt : string)
         (w : world PolicyServer.config) (intentText : string),
    (forall o, fails E o = false) ->
    validated (now E) req sender txt ->
    fresh (pg w) ->
    let received := receivedAt (parseSmsProviderPayload (now E) req) in
    let cfg := PolicyRun.config_used E w in
    let c := PolicyRun.classified E txt cfg in
    let id := messages_id_seq (pg w) in
    PolicyServer.is_complaint c = false ->
    PolicyRun.should_defer E txt received cfg = false ->
    PolicyServer.template_text (PolicyServer.intent c) = Ok intentText ->
    (forall guestState knowledge (w1 : world PolicyServer.config),
        PolicyServer.generateReplyWithLLM E txt guestState (PolicyServer.intent c)
          knowledge w1
        = (Ok FALLBACK_TEXT, w1))
    /\ exists w' out inn,
        PolicyServer.webhook E req w
        = (Ok {| status := 200;
                 body := PolicyOk id (id + 1) (PolicyServer.intent c) "UNKNOWN"
                           (isNightTime received) false |}, w')
        /\ outbox w' = {| sms_to := sender; sms_text := Some FALLBACK_TEXT |} :: outbox w
        /\ asked w' = PolicyRun.call txt cfg :: asked w
        /\ messages (visible (pg w')) = out :: inn :: messages (visible (pg w))
        /\ m_direction out = "OUT"
        /\ m_text out = Some FALLBACK_TEXT
        /\ m_handled_by out = Some "AUTO"
        /\ m_need_followup out = Some false
        /\ m_resolved out = Some true
        /\ m_resolved inn = Some true
        /\ followup_queue (visible (pg w')) = followup_queue (visible (pg w)).
Proof.
  intros RT E req sender txt w intentText calm Hvalid Hfresh received cfg c id
    Hcomplaint Hdefer Htext.
  split.
  { intros guestState knowledge w1.
    unfold PolicyServer.generateReplyWithLLM, bind, lift, try_catch, throw, ret.
    fold c. now rewrite Htext. }
  assert (PolicyRun.decided E txt received cfg
          = Ok {| PolicyServer.replyText := Some FALLBACK_TEXT;
                  PolicyServer.needFollowup := false;
                  PolicyServer.followupReason := None |}) as Hd.
  { unfold PolicyRun.decided, PolicyRun.normal_reply, PolicyServer.isComplaint.
    fold c. now rewrite Hcomplaint, Hdefer, Htext. }
  eexists. eexists. eexists.
  split; [exact (policy_webhook_done E calm req sender txt w _ Hvalid Hd)|].
  cbn [pg outbox asked].
  split; [reflexivity|]. split; [reflexivity|].
  split; [now apply policy_done_messages|].
  rewrite policy_done_followups.
  repeat split.
Qed.

(* ===================================================================== *)
(** ** From one request to the next *)
(* ===================================================================== *)

(** X23.  The history carries a conversation on.  After a request the
    orchestrator handler answered 200 with a reply, the history it
    reads for the sender's next message ends with the three turns of
    the message answered, the reply sent and the new message, in that
    order, preceded by the sender's seven rows of highest id from
    before; when no reply was sent, it ends with the two messages,
    preceded by eight such rows. *)
Theorem history_of_the_next_message_holds_the_exchange :
  forall {RT : Runtime} (E : env) (req : payload) (sender txt : string)
         (w : world ServerJs.config) (reply : option string),
    (forall o, fails E o = false) ->
    validated (now E) req sender txt ->
    fresh (pg w) ->
    let received := receivedAt (parseSmsProviderPayload (now E) req) in
    ServerJs.reply_to_send
      (ServerJs.reply_text (OrchestratorRun.result E sender txt received (pg w)))
    = Ok reply ->
    let w' := snd (ServerJs.webhook E req w) in
    let older := fun n =>
      map ServerJs.to_turn
        (rev (firstn n (order_by_id_desc (rows_of sender (messages (visible (pg w))))))) in
    fresh (pg w')
    /\ forall (txt' : string) (received' : date),
        OrchestratorRun.history_read sender txt' received' (pg w')
        = match reply with
          | Some t =>
              (older 7%nat
                 ++ [{| LlmSpec.h_direction := "IN"; LlmSpec.h_text := Some txt |};
                     {| LlmSpec.h_direction := "OUT"; LlmSpec.h_text := Some t |};
                     {| LlmSpec.h_direction := "IN"; LlmSpec.h_text := Some txt' |}])%list
          | None =>
              (older 8%nat
                 ++ [{| LlmSpec.h_direction := "IN"; LlmSpec.h_text := Some txt |};
                     {| LlmSpec.h_direction := "IN"; LlmSpec.h_text := Some txt' |}])%list
          end.
Proof.
  intros RT E req sender txt w reply calm Hvalid Hfresh received Hreply w' older.
  assert (pg w' = OrchestratorRun.s_done E sender txt received (pg w) reply) as Hpg.
  { unfold w'.
    now rewrite (server_webhook_calm E req sender txt w reply calm Hvalid Hreply). }
  pose proof (orchestrator_done_fresh E sender txt received (pg w) reply Hfresh)
    as Hfresh'.
  rewrite Hpg. split; [exact Hfresh'|].
  intros txt' received'.
  rewrite (orchestrator_history sender txt' received' _ Hfresh').
  unfold OrchestratorRun.earlier.
  rewrite (orchestrator_done_messages E sender txt received (pg w) reply Hfresh).
  unfold OrchestratorRun.out_rows, OrchestratorRun.in_done, older, rows_of.
  assert (forall x, In x (filter (fun m => String.eqb (m_phone_number m) sender)
                             (messages (visible (pg w)))) ->
                    m_id x < messages_id_seq (pg w)) as Hold.
  { intros x Hx. apply filter_In in Hx as [Hx _]. now apply Hfresh. }
  destruct reply as [t|]; cbn [app filter ServerJs.out_row ServerJs.classify_in
                                ServerJs.in_row new_message m_phone_number];
    rewrite ?String.eqb_refl.
  - rewrite order_by_id_desc_newest.
    2: { intros x [<-|Hx];
           cbn [m_id ServerJs.out_row ServerJs.classify_in ServerJs.in_row new_message];
           [lia|]. specialize (Hold x Hx). lia. }
    rewrite order_by_id_desc_newest
      by (intros x Hx;
          cbn [m_id ServerJs.out_row ServerJs.classify_in ServerJs.in_row new_message];
          now apply Hold).
    cbn [firstn rev map app]. rewrite !map_app, <- !app_assoc. reflexivity.
  - rewrite order_by_id_desc_newest
      by (intros x Hx;
          cbn [m_id ServerJs.out_row ServerJs.classify_in ServerJs.in_row new_message];
          now apply Hold).
    cbn [firstn rev map app]. rewrite !map_app, <- !app_assoc. reflexivity.
Qed.


(* ===================================================================== *)
(** ** The SMS handed to [sendSms] *)
(* ===================================================================== *)

Section OrchestratorSms.
Context {RT : Runtime} (E : env).

(** The reply the handler decides to send, none when the test throws. *)
Lemma server_handle_outbox (sender txt : string) (received : date)
    (w : world ServerJs.config) :
  outbox (snd (ServerJs.handle E sender txt received w))
  = if fails E BEGIN || fails E INSERT_IN
       || fails E SELECT_HISTORY || fails E SELECT_KNOWLEDGE_RAG
    then outbox w
    else match ServerJs.reply_to_send
                 (ServerJs.reply_text
                    (OrchestratorRun.result E sender txt received (pg w))) with
         | Ok reply => (OrchestratorRun.sent sender reply ++ outbox w)%list
         | Throw _ => outbox w
         end.
Proof.
  unfold ServerJs.handle, ServerJs.retrieveKnowledgeForRAG, getGuestState, sendSms.
  fork E; [reflexivity|].
  fork E; [reflexivity|].
  erewrite bind_ok by reflexivity; tidy.
  fork E; [reflexivity|].
  fork E; [reflexivity|].
  erewrite bind_ok by apply runOrchestratorLLM_run. tidy.
  change (orchestrated _) with (OrchestratorRun.result E sender txt received (pg w)).
  set (r := OrchestratorRun.result E sender txt received (pg w)).
  unfold lift at 1.
  destruct (ServerJs.reply_to_send (ServerJs.reply_text r)) as [[t|]|e].
  - erewrite bind_ok by reflexivity; tidy.
    rewrite ?bind_assoc. erewrite bind_ok by reflexivity; tidy.
    fork E; [reflexivity|].
    erewrite bind_ok by reflexivity; tidy.
    destruct (ServerJs.need_followup r).
    + fork E; [reflexivity|]. fork E; [reflexivity|]. fork E; reflexivity.
    + erewrite bind_ok by reflexivity; tidy.
      fork E; [reflexivity|]. fork E; reflexivity.
  - erewrite bind_ok by reflexivity; tidy.
    erewrite bind_ok by reflexivity; tidy.
    destruct (ServerJs.need_followup r).
    + fork E; [reflexivity|]. fork E; [reflexivity|]. fork E; reflexivity.
    + erewrite bind_ok by reflexivity; tidy.
      fork E; [reflexivity|]. fork E; reflexivity.
  - erewrite bind_throw by reflexivity. reflexivity.
Qed.

End OrchestratorSms.

(** X24.  The orchestrator handler sends at most one SMS per request,
    and exactly when it reached the model and the reply of the result
    is a text that is non-empty, also once trimmed: the SMS is then
    that text, addressed to the sender, whatever the database does
    with the statements that follow.  A rejected request, a pool that
    gives no client, a statement rejected before the call and a reply
    that is empty, blank or no text send nothing. *)
Theorem orchestrator_sends_one_sms_exactly_for_a_reply :
  forall {RT : Runtime} (E : env) (req : payload) (w : world ServerJs.config),
    (rejected (now E) req -> outbox (snd (ServerJs.webhook E req w)) = outbox w)
    /\ forall sender txt,
        validated (now E) req sender txt ->
        let received := receivedAt (parseSmsProviderPayload (now E) req) in
        let r := OrchestratorRun.result E sender txt received (pg w) in
        (forall t,
            OrchestratorRun.reaches_model E = true ->
            ServerJs.reply_text r = VStr t -> t <> "" -> trim t <> "" ->
            outbox (snd (ServerJs.webhook E req w))
            = {| sms_to := sender; sms_text := Some t |} :: outbox w)
        /\ (OrchestratorRun.reaches_model E = false
            \/ (forall t, ServerJs.reply_text r = VStr t -> t = "" \/ trim t = "") ->
            outbox (snd (ServerJs.webhook E req w)) = outbox w).
Proof.
  intros RT E req w. split.
  { intros Hrej. destruct (fails E POOL_CONNECT) eqn:Hconnect.
    - unfold ServerJs.webhook.
      now erewrite bind_throw by (apply connect_rejected; exact Hconnect).
    - now rewrite server_webhook_rejected. }
  intros sender txt Hvalid received r.
  assert (outbox (snd (ServerJs.webhook E req w))
          = if OrchestratorRun.reaches_model E
            then match ServerJs.reply_to_send (ServerJs.reply_text r) with
                 | Ok reply => (OrchestratorRun.sent sender reply ++ outbox w)%list
                 | Throw _ => outbox w
                 end
            else outbox w) as Hout.
  { unfold OrchestratorRun.reaches_model.
    destruct (fails E POOL_CONNECT) eqn:Hconnect.
    { unfold ServerJs.webhook.
      now erewrite bind_throw by (apply connect_rejected; exact Hconnect). }
    rewrite (server_webhook_validated E req sender txt w Hconnect Hvalid).
    pose proof (server_handle_outbox E sender txt received w) as H.
    fold received. fold r in H.
    destruct (ServerJs.handle E sender txt received w) as [[resp|e] w1];
      cbn [snd] in H.
    - cbn [snd orb]. rewrite H.
      now destruct (fails E BEGIN || fails E INSERT_IN
                    || fails E SELECT_HISTORY || fails E SELECT_KNOWLEDGE_RAG).
    - cbn [orb].
      destruct (fails E ROLLBACK) eqn:Hrollback.
      + erewrite bind_throw by (apply query_rejected; exact Hrollback).
        cbn [snd]. rewrite H.
        now destruct (fails E BEGIN || fails E INSERT_IN
                      || fails E SELECT_HISTORY || fails E SELECT_KNOWLEDGE_RAG).
      + erewrite bind_ok by (apply query_ok; exact Hrollback). tidy.
        cbn. rewrite H.
        now destruct (fails E BEGIN || fails E INSERT_IN
                      || fails E SELECT_HISTORY || fails E SELECT_KNOWLEDGE_RAG). }
  split.
  - intros t Hreach Htext Ht Htrim. rewrite Hout, Hreach.
    now rewrite (proj2 (reply_to_send_some (ServerJs.reply_text r) t)
                   (conj Htext (conj Ht Htrim))).
  - intros [Hreach|Hblank]; rewrite Hout; [now rewrite Hreach|].
    destruct (OrchestratorRun.reaches_model E); [|reflexivity].
    destruct (ServerJs.reply_to_send (ServerJs.reply_text r)) as [[t|]|e] eqn:Hreply;
      [|reflexivity|reflexivity].
    apply reply_to_send_some in Hreply as (Htext & Ht & Htrim).
    destruct (Hblank t Htext); contradiction.
Qed.

Section PolicySms.
Context {RT : Runtime} (E : env).

Lemma policy_webhook_world (req : payload) (w : world PolicyServer.config) :
  let w' := snd (PolicyServer.webhook E req w) in
  (outbox w' = outbox w
   \/ exists sender txt d,
       validated (now E) req sender txt
       /\ PolicyRun.decided E txt
            (receivedAt (parseSmsProviderPayload (now E) req))
            (PolicyRun.config_used E w) = Ok d
       /\ outbox w' = policy_sms sender d :: outbox w)
  /\ (cachedConfig w' = cachedConfig w
      \/ cachedConfig w' = PolicyRun.config_used E w).
Proof.
  cbv zeta.
  destruct (fails E POOL_CONNECT) eqn:Hconnect.
  { unfold PolicyServer.webhook.
    erewrite bind_throw by (apply connect_rejected; exact Hconnect). auto. }
  destruct (validated_or_rejected (now E) req) as [Hrej|(sender & txt & Hvalid)].
  { rewrite policy_webhook_rejected by assumption. auto. }
  rewrite (policy_webhook_validated E req sender txt w Hconnect Hvalid).
  pose proof (policy_handle_any E sender txt
                (receivedAt (parseSmsProviderPayload (now E) req)) w) as H.
  cbv zeta in H.
  destruct (PolicyServer.handle E sender txt _ w) as [[resp|e] w'].
  - destruct H as (d & Hd & _ & ->). cbn [snd outbox cachedConfig].
    split; [right; exists sender, txt, d; auto|now right].
  - cbn [snd].
    destruct H as [(-> & _)
                  |[(_ & Hout & [(Hcfg & _)|(Hcfg & _)])
                   |(d & Hd & Hout & Hcfg & _)]]; auto.
    split; [right; exists sender, txt, d; auto|now right].
Qed.

Lemma loaded_templates_ready (st : store) :
  exists night complaint,
    PolicyServer.nightDeferReply (PolicyRun.loaded E st) = Some night /\ night <> ""
    /\ PolicyServer.complaintReply (PolicyRun.loaded E st) = Some complaint
    /\ complaint <> "".
Proof.
  destruct default_templates_nonempty as [Hn Hc].
  do 2 eexists. cbn [PolicyRun.loaded PolicyServer.nightDeferReply
                      PolicyServer.complaintReply].
  split; [reflexivity|]. split; [now apply setting_or_spec|].
  split; [reflexivity|now apply setting_or_spec].
Qed.

Lemma config_used_ready (w : world PolicyServer.config) :
  templates_ready (cachedConfig w) ->
  exists night complaint,
    PolicyServer.nightDeferReply (PolicyRun.config_used E w) = Some night
    /\ night <> ""
    /\ PolicyServer.complaintReply (PolicyRun.config_used E w) = Some complaint
    /\ complaint <> "".
Proof.
  intros Hready. unfold PolicyRun.config_used.
  destruct (PolicyServer.lastLoadedAt (cachedConfig w)) as [t|] eqn:Hloaded.
  - destruct Hready as [Hnone|H]; [congruence|exact H].
  - apply loaded_templates_ready.
Qed.

Lemma decided_reply_nonempty (txt : string) (received : date)
    (cfg : PolicyServer.config) (d : PolicyServer.decision) :
  (exists night complaint,
      PolicyServer.nightDeferReply cfg = Some night /\ night <> ""
      /\ PolicyServer.complaintReply cfg = Some complaint /\ complaint <> "") ->
  PolicyRun.decided E txt received cfg = Ok d ->
  exists t, PolicyServer.replyText d = Some t /\ t <> "".
Proof.
  intros (night & complaint & Hn & Hn' & Hc & Hc').
  unfold PolicyRun.decided, PolicyRun.normal_reply.
  destruct (PolicyServer.isComplaint _); [intros [= <-]; eauto|].
  destruct (PolicyRun.should_defer _ _ _ _); [intros [= <-]; eauto|].
  destruct (PolicyServer.template_text _); [|discriminate].
  intros [= <-]. exists FALLBACK_TEXT. split; [reflexivity|].
  intros H. vm_compute in H. discriminate.
Qed.

End PolicySms.

(** X25.  The policy pipeline never hands an empty text to [sendSms].
    From a snapshot that is the initial one or holds two non-empty
    templates, which is what every [loadConfig] leaves, a run of the
    webhook sends nothing or exactly one SMS, to the sender of a
    validated request and with a non-empty text, whatever the database
    rejects; and the snapshot it leaves is again such a one, as is the
    one a [loadConfig] leaves, whether it returns or throws. *)
Theorem policy_pipeline_never_sends_an_empty_reply :
  forall {RT : Runtime} (E : env) (req : payload) (w : world PolicyServer.config),
    templates_ready (cachedConfig w) ->
    let w' := snd (PolicyServer.webhook E req w) in
    templates_ready (cachedConfig w')
    /\ templates_ready (cachedConfig (snd (PolicyServer.loadConfig E w)))
    /\ (outbox w' = outbox w
        \/ exists sender txt t,
            validated (now E) req sender txt
            /\ t <> ""
            /\ outbox w' = {| sms_to := sender; sms_text := Some t |} :: outbox w)
    /\ templates_ready PolicyServer.initialConfig.
Proof.
  intros RT E req w Hready w'.
  destruct (policy_webhook_world E req w) as [Hout Hcfg]. fold w' in Hout, Hcfg.
  pose proof (config_used_ready E w Hready) as Hused.
  split; [|split; [|split]].
  - destruct Hcfg as [-> | ->]; [exact Hready|now right].
  - rewrite policy_loadConfig_run.
    destruct (fails E POOL_CONNECT); [exact Hready|].
    destruct (fails E SELECT_INTENTS); [exact Hready|].
    destruct (fails E SELECT_SETTINGS); [exact Hready|].
    right. apply loaded_templates_ready.
  - destruct Hout as [Hout|(sender & txt & d & Hvalid & Hd & Hout)]; [now left|].
    right.
    destruct (decided_reply_nonempty E txt _ _ d Hused Hd) as (t & Ht & Hne).
    exists sender, txt, t. split; [exact Hvalid|]. split; [exact Hne|].
    rewrite Hout. unfold policy_sms. now rewrite Ht.
  - now left.
Qed.

(* ===================================================================== *)
(** ** More runs on sample data *)
(* ===================================================================== *)

Lemma sample_numbered {C : Type} (cfg : C) (st : store) :
  messages st = [] -> numbered (pg (Sample.start cfg st)).
Proof.
  intros Hempty.
  split; intros m Hm; cbn in Hm; rewrite Hempty in Hm; destruct Hm.
Qed.

Lemma sample_fallback_is_not_blank :
  trim (Runtime := Sample.runtime) FALLBACK_TEXT <> "".
Proof. intros H. vm_compute in H. discriminate. Qed.

Lemma sample_numbers_reply_is_no_text (s : string) : VNum 5 <> VStr s.
Proof. discriminate. Qed.

(** The night template is the value of the second row of its key, the
    complaint template the value of the one row of its key; the row
    that follows them counts for neither. *)
Lemma policy_templates_are_the_last_setting_witness :
  exists w',
    PolicyServer.loadConfig (Sample.calm ApiFailure 0)
      (Sample.start PolicyServer.initialConfig two_templates_store)
    = (Ok tt, w')
    /\ PolicyServer.nightDeferReply (cachedConfig w') = Some "night"
    /\ PolicyServer.complaintReply (cachedConfig w') = Some "complaint".
Proof.
  pose proof
    (policy_templates_are_the_last_setting_or_the_default (RT := Sample.runtime)
       (Sample.calm ApiFailure 0)
       (Sample.start PolicyServer.initialConfig two_templates_store)) as H.
  destruct (PolicyServer.loadConfig (Sample.calm ApiFailure 0)
              (Sample.start PolicyServer.initialConfig two_templates_store))
    as [[[]|e] w'] eqn:Hrun; [|vm_compute in Hrun; discriminate].
  exists w'. split; [reflexivity|]. split.
  - destruct (H "night_defer_reply" PolicyServer.DEFAULT_NIGHT_DEFER_REPLY _
                (or_introl (conj eq_refl (conj eq_refl eq_refl))))
      as (t & Ht & _ & _ & _ & Hlast & _).
    rewrite Ht. f_equal.
    apply (Hlast [{| s_key := "night_defer_reply"; s_value := Some "first" |}]
             [{| s_key := "complaint_reply"; s_value := Some "complaint" |};
              {| s_key := "greeting"; s_value := Some "hello" |}]
             "night" eq_refl).
    + intros r [<-|[<-|[]]]; discriminate.
    + discriminate.
  - destruct (H "complaint_reply" PolicyServer.DEFAULT_COMPLAINT_REPLY _
                (or_intror (conj eq_refl (conj eq_refl eq_refl))))
      as (t & Ht & _ & _ & _ & Hlast & _).
    rewrite Ht. f_equal.
    apply (Hlast [{| s_key := "night_defer_reply"; s_value := Some "first" |};
                  {| s_key := "night_defer_reply"; s_value := Some "night" |}]
             [{| s_key := "greeting"; s_value := Some "hello" |}]
             "complaint" eq_refl).
    + intros r [<-|[]]; discriminate.
    + discriminate.
Defined.

(** A check-in question at 04:00 in Seoul, on a server in UTC, CHECKIN
    being an action intent, gets the default night template and a
    NIGHT_ACTION follow-up. *)
Lemma night_deferral_follows_isNightTime_witness :
  exists w' out inn,
    PolicyServer.webhook (RT := Sample.runtime)
      (Sample.calm (Content (Some Sample.raw_checkin)) Sample.four_at_night)
      (Sample.request Sample.guest "hi")
      (started (RT := Sample.runtime)
         (Sample.calm (Content (Some Sample.raw_checkin)) Sample.four_at_night)
         Sample.checkin_store)
    = (Ok {| status := 200;
             body := PolicyOk 1 2 (VStr "CHECKIN") "UNKNOWN" true true |}, w')
    /\ messages (visible (pg w')) = [out; inn]
    /\ m_text out = Some PolicyServer.DEFAULT_NIGHT_DEFER_REPLY
    /\ followup_queue (visible (pg w'))
       = [{| f_message_id := 1; f_status := "PENDING";
             f_reason := Some "NIGHT_ACTION" |}].
Proof.
  destruct
    (night_deferral_follows_isNightTime_and_the_action_intents
       (RT := Sample.runtime)
       (Sample.calm (Content (Some Sample.raw_checkin)) Sample.four_at_night)
       (Sample.request Sample.guest "hi") Sample.guest "hi"
       (started (RT := Sample.runtime)
          (Sample.calm (Content (Some Sample.raw_checkin)) Sample.four_at_night)
          Sample.checkin_store)
       (sample_calm _ _) (sample_validated _)
       (sample_fresh _ Sample.checkin_store eq_refl) eq_refl)
    as (_ & _ & _ & _ & Hdefer & _).
  destruct (Hdefer eq_refl)
    as (w' & out & inn & Hrun & Hrows & Htext & _ & _ & Hqueue & _).
  exists w', out, inn.
  split; [exact Hrun|]. split; [exact Hrows|]. split; [exact Htext|exact Hqueue].
Defined.

(** A first message whose [OUT] row is rejected: the ids stay below the
    sequence. *)
Lemma webhooks_keep_every_id_below_the_sequence_witness :
  numbered
    (pg (snd (ServerJs.webhook (RT := Sample.runtime)
                (Sample.failing Sample.out_rejected (Content (Some Sample.raw_followup)) 0)
                (Sample.request Sample.guest "hi")
                (Sample.start ServerJs.initialConfig Sample.empty_store)))).
Proof.
  exact
    (proj1
       (proj1
          (webhooks_keep_every_id_below_the_sequence (RT := Sample.runtime)
             (Sample.failing Sample.out_rejected (Content (Some Sample.raw_followup)) 0)
             (Sample.request Sample.guest "hi"))
          (Sample.start ServerJs.initialConfig Sample.empty_store)
          (sample_numbered ServerJs.initialConfig Sample.empty_store eq_refl))).
Defined.

(** The policy pipeline with the insert of the [OUT] row rejected:
    answered, with what was added in front of the tables. *)
Lemma policy_webhook_answers_and_leaves_a_prefix_witness :
  exists resp w' added queued sent,
    PolicyServer.webhook (RT := Sample.runtime)
      (Sample.failing Sample.out_rejected (Content (Some Sample.raw_checkin)) 0)
      (Sample.request Sample.guest "hi")
      (started (RT := Sample.runtime)
         (Sample.failing Sample.out_rejected (Content (Some Sample.raw_checkin)) 0)
         Sample.empty_store)
    = (Ok resp, w')
    /\ messages (visible (pg w')) = (added ++ [])%list
    /\ followup_queue (visible (pg w')) = (queued ++ [])%list
    /\ outbox w' = (sent ++ [])%list.
Proof.
  destruct
    (policy_webhook_answers_and_leaves_a_prefix (RT := Sample.runtime)
       (Sample.failing Sample.out_rejected (Content (Some Sample.raw_checkin)) 0)
       (Sample.request Sample.guest "hi")
       (started (RT := Sample.runtime)
          (Sample.failing Sample.out_rejected (Content (Some Sample.raw_checkin)) 0)
          Sample.empty_store)
       eq_refl (sample_fresh _ Sample.empty_store eq_refl))
    as (resp & w' & added & queued & sent & Hrun & Hrows & Hqueue & Hsent & _).
  exists resp, w', added, queued, sent.
  split; [exact Hrun|]. split; [exact Hrows|]. split; [exact Hqueue|exact Hsent].
Defined.

(** A check-in question at 14:00: the fixed text is sent and recorded. *)
Lemma policy_normal_reply_is_the_fixed_fallback_witness :
  exists w' out inn,
    PolicyServer.webhook (RT := Sample.runtime)
      (Sample.calm (Content (Some Sample.raw_checkin)) Sample.two_in_the_afternoon)
      (Sample.request Sample.guest "hi")
      (started (RT := Sample.runtime)
         (Sample.calm (Content (Some Sample.raw_checkin)) Sample.two_in_the_afternoon)
         Sample.checkin_store)
    = (Ok {| status := 200;
             body := PolicyOk 1 2 (VStr "CHECKIN") "UNKNOWN" false false |}, w')
    /\ messages (visible (pg w')) = [out; inn]
    /\ m_text out = Some FALLBACK_TEXT.
Proof.
  destruct
    (proj2
       (policy_normal_reply_is_the_fixed_fallback (RT := Sample.runtime)
          (Sample.calm (Content (Some Sample.raw_checkin)) Sample.two_in_the_afternoon)
          (Sample.request Sample.guest "hi") Sample.guest "hi"
          (started (RT := Sample.runtime)
             (Sample.calm (Content (Some Sample.raw_checkin)) Sample.two_in_the_afternoon)
             Sample.checkin_store)
          "CHECKIN"
          (sample_calm _ _) (sample_validated _)
          (sample_fresh _ Sample.checkin_store eq_refl) eq_refl eq_refl eq_refl))
    as (w' & out & inn & Hrun & _ & _ & Hrows & _ & Htext & _).
  exists w', out, inn.
  split; [exact Hrun|]. split; [exact Hrows|exact Htext].
Defined.

(** The call to the model fails: the fallback text is sent and a
    follow-up is queued. *)
Lemma orchestrator_failure_sends_the_fallback_witness :
  exists w' out inn,
    ServerJs.webhook (RT := Sample.runtime)
      (Sample.calm ApiFailure 0)
      (Sample.request Sample.guest "hi")
      (Sample.start ServerJs.initialConfig Sample.empty_store)
    = (Ok {| status := 200;
             body := OrchestratorOk 1 (Some 2) (VStr "GENERIC") VNull false |}, w')
    /\ messages (committed (pg w')) = [out; inn]
    /\ m_text out = Some FALLBACK_TEXT
    /\ followup_queue (committed (pg w'))
       = [{| f_message_id := 1; f_status := "PENDING";
             f_reason := Some "LLM_FLAGGED" |}].
Proof.
  destruct
    (orchestrator_failure_sends_the_fallback (RT := Sample.runtime)
       (Sample.calm ApiFailure 0)
       (Sample.request Sample.guest "hi") Sample.guest "hi"
       (Sample.start ServerJs.initialConfig Sample.empty_store)
       (sample_calm _ _) (sample_validated _)
       (sample_fresh ServerJs.initialConfig Sample.empty_store eq_refl)
       sample_fallback_is_not_blank (or_introl eq_refl))
    as (w' & out & inn & _ & Hrun & _ & Hrows & _ & Htext & H).
  exists w', out, inn.
  split; [exact Hrun|]. split; [exact Hrows|]. split; [exact Htext|].
  apply H.
Defined.

(** The model answers with no content: nothing is sent and the message
    is marked resolved. *)
Lemma orchestrator_empty_answer_is_resolved_without_a_reply_witness :
  exists w' inn,
    ServerJs.webhook (RT := Sample.runtime)
      (Sample.calm (Content None) 0)
      (Sample.request Sample.guest "hi")
      (Sample.start ServerJs.initialConfig Sample.empty_store)
    = (Ok {| status := 200;
             body := OrchestratorOk 1 None (VStr "GENERIC") VNull false |}, w')
    /\ outbox w' = []
    /\ messages (committed (pg w')) = [inn]
    /\ m_resolved inn = Some true.
Proof.
  destruct
    (orchestrator_empty_answer_is_resolved_without_a_reply (RT := Sample.runtime)
       (Sample.calm (Content None) 0)
       (Sample.request Sample.guest "hi") Sample.guest "hi"
       (Sample.start ServerJs.initialConfig Sample.empty_store) None
       (sample_calm _ _) (sample_validated _)
       (sample_fresh ServerJs.initialConfig Sample.empty_store eq_refl)
       eq_refl eq_refl (or_introl eq_refl))
    as (w' & inn & _ & _ & Hrun & Hout & Hrows & _ & _ & _ & _ & _ & Hresolved & _).
  exists w', inn.
  split; [exact Hrun|]. split; [exact Hout|]. split; [exact Hrows|exact Hresolved].
Defined.

(** The model answers [{"reply_text":5,"flow_type":7}]: 500, and no
    row is left. *)
Lemma orchestrator_non_text_reply_is_answered_500_witness :
  exists w',
    ServerJs.webhook (RT := Sample.runtime)
      (Sample.calm (Content (Some Sample.raw_numbers)) 0)
      (Sample.request Sample.guest "hi")
      (Sample.start ServerJs.initialConfig Sample.empty_store)
    = (Ok {| status := 500; body := ErrorBody "internal_server_error" |}, w')
    /\ outbox w' = []
    /\ committed (pg w') = Sample.empty_store.
Proof.
  destruct
    (orchestrator_non_text_reply_is_answered_500 (RT := Sample.runtime)
       (Sample.calm (Content (Some Sample.raw_numbers)) 0)
       (Sample.request Sample.guest "hi") Sample.guest "hi"
       (Sample.start ServerJs.initialConfig Sample.empty_store)
       (sample_calm _ _) (sample_validated _) eq_refl
       sample_numbers_reply_is_no_text)
    as (w' & _ & Hrun & Hout & _ & Hcommitted & _).
  exists w'. split; [exact Hrun|]. split; [exact Hout|exact Hcommitted].
Defined.

(** The reply "ok" is sent, then the insert of the [OUT] row is
    rejected: 500, the SMS is out and no row is left. *)
Lemma orchestrator_reply_is_sent_before_it_is_recorded_witness :
  exists w',
    ServerJs.webhook (RT := Sample.runtime)
      (Sample.failing Sample.out_rejected (Content (Some Sample.raw_followup)) 0)
      (Sample.request Sample.guest "hi")
      (Sample.start ServerJs.initialConfig Sample.empty_store)
    = (Ok {| status := 500; body := ErrorBody "internal_server_error" |}, w')
    /\ outbox w' = [{| sms_to := Sample.guest; sms_text := Some "ok" |}]
    /\ committed (pg w') = Sample.empty_store.
Proof.
  destruct
    (orchestrator_reply_is_sent_before_it_is_recorded (RT := Sample.runtime)
       (Sample.failing Sample.out_rejected (Content (Some Sample.raw_followup)) 0)
       (Sample.request Sample.guest "hi") Sample.guest "hi"
       (Sample.start ServerJs.initialConfig Sample.empty_store) "ok"
       (sample_validated _) eq_refl eq_refl eq_refl (or_introl eq_refl))
    as (w' & _ & Hrun & Hout & _ & Hcommitted & _).
  exists w'. split; [exact Hrun|]. split; [exact Hout|exact Hcommitted].
Defined.

(** Two messages of a new sender, the first answered "ok". *)
Lemma history_of_the_next_message_holds_the_exchange_witness :
  OrchestratorRun.history_read Sample.guest "again" (Epoch 0)
    (pg (snd (ServerJs.webhook (RT := Sample.runtime)
                (Sample.calm (Content (Some Sample.raw_followup)) 0)
                (Sample.request Sample.guest "hi")
                (Sample.start ServerJs.initialConfig Sample.empty_store))))
  = [{| LlmSpec.h_direction := "IN"; LlmSpec.h_text := Some "hi" |};
     {| LlmSpec.h_direction := "OUT"; LlmSpec.h_text := Some "ok" |};
     {| LlmSpec.h_direction := "IN"; LlmSpec.h_text := Some "again" |}].
Proof.
  exact
    (proj2
       (history_of_the_next_message_holds_the_exchange (RT := Sample.runtime)
          (Sample.calm (Content (Some Sample.raw_followup)) 0)
          (Sample.request Sample.guest "hi") Sample.guest "hi"
          (Sample.start ServerJs.initialConfig Sample.empty_store) (Some "ok")
          (sample_calm _ _) (sample_validated _)
          (sample_fresh ServerJs.initialConfig Sample.empty_store eq_refl) eq_refl)
       "again" (Epoch 0)).
Defined.

Lemma sample_ok_is_not_empty : "ok" <> "".
Proof. discriminate. Qed.

Lemma sample_ok_is_not_blank : trim (Runtime := Sample.runtime) "ok" <> "".
Proof. intros H. vm_compute in H. discriminate. Qed.

(** The reply "ok" is sent although the insert of the [OUT] row is
    rejected afterwards. *)
Lemma orchestrator_sends_one_sms_exactly_for_a_reply_witness :
  outbox (snd (ServerJs.webhook (RT := Sample.runtime)
                 (Sample.failing Sample.out_rejected (Content (Some Sample.raw_followup)) 0)
                 (Sample.request Sample.guest "hi")
                 (Sample.start ServerJs.initialConfig Sample.empty_store)))
  = [{| sms_to := Sample.guest; sms_text := Some "ok" |}].
Proof.
  exact
    (proj1
       (proj2
          (orchestrator_sends_one_sms_exactly_for_a_reply (RT := Sample.runtime)
             (Sample.failing Sample.out_rejected (Content (Some Sample.raw_followup)) 0)
             (Sample.request Sample.guest "hi")
             (Sample.start ServerJs.initialConfig Sample.empty_store))
          Sample.guest "hi" (sample_validated _))
       "ok" eq_refl eq_refl sample_ok_is_not_empty sample_ok_is_not_blank).
Defined.

(** A complaint answered from the initial snapshot: the default
    template, which is not empty, is what is sent. *)
Lemma policy_pipeline_never_sends_an_empty_reply_witness :
  templates_ready
    (cachedConfig
       (snd (PolicyServer.webhook (RT := Sample.runtime)
               (Sample.calm (Content (Some Sample.raw_complaint)) 0)
               (Sample.request Sample.guest "hi")
               (Sample.start PolicyServer.initialConfig Sample.empty_store)))).
Proof.
  exact
    (proj1
       (policy_pipeline_never_sends_an_empty_reply (RT := Sample.runtime)
          (Sample.calm (Content (Some Sample.raw_complaint)) 0)
          (Sample.request Sample.guest "hi")
          (Sample.start PolicyServer.initialConfig Sample.empty_store)
          (or_introl eq_refl))).
Defined.
